(** * IRIV-IOC Modbus server: shallow embedding and verified properties

  The development follows the three source files it embeds:
  - [iriv_ioc_hal.py]    : the counter part of the hardware layer
                           (module [Hal]);
  - [iriv_ioc_modbus.py] : the register map and the counter hooks
                           (module [IocModbus]);
  - [umodbus/tcp.py]     : the [TCPServer] socket multiplexer
                           (module [Tcp]) and the [TCP] client
                           (module [TcpClient]).

  Python code that mutates module globals or object attributes is
  written as explicit state passing.  A call that can raise returns
  the state reached when the exception left the function together
  with the exception, so the partial effects of a failing call stay
  visible. *)

From Stdlib Require Import PrimFloat.
From Stdlib Require FloatOps SpecFloat.
From Stdlib Require Import ZArith List Bool Lia.
From Stdlib.Strings Require Import Byte.
From stdpp Require Import base option list gmap strings.

Local Open Scope Z_scope.

(** ** Outcomes of calls that may raise *)

Inductive Exn : Type :=
| IndexError            (* list index out of range *)
| KeyError              (* register address missing from the table *)
| AttributeError        (* attribute access on [None] *)
| NotBoundError         (* Exception('Modbus TCP server not bound') *)
| OtherError.           (* any other exception of the collaborators *)

Inductive Outcome (A : Type) : Type :=
| Ret (a : A)
| Raise (e : Exn).
Arguments Ret {A} a.
Arguments Raise {A} e.

(** A computation over a state [S]: the final state is always
  produced, also when the call raises. *)
Definition M (S A : Type) : Type := S -> S * Outcome A.

Definition ret {S A} (a : A) : M S A := fun s => (s, Ret a).
Definition raise {S A} (e : Exn) : M S A := fun s => (s, Raise e).
Definition bindM {S A B} (m : M S A) (k : A -> M S B) : M S B :=
fun s => match m s with
         | (s', Ret a) => k a s'
         | (s', Raise e) => (s', Raise e)
         end.
Definition modify {S} (f : S -> S) : M S unit := fun s => (f s, Ret tt).

Notation "'let*' x ':=' m 'in' k" := (bindM m (fun x => k))
(at level 10, x name, m at level 100, k at level 200).
Notation "m >>> k" := (bindM m (fun _ => k))
(at level 100, k at level 200, right associativity).

(** Python's [if c: body] with no [else]. *)
Definition when {S} (c : bool) (body : M S unit) : M S unit :=
if c then body else ret tt.

(** * iriv_ioc_hal.py *)

Module Hal.

(** A [countio.Counter]: only its [count] attribute is observed. *)
Record Counter : Type := mkCounter { count : Z }.

(** A digital input pin object: in use as an input, or released by
    [deinit()]. *)
Inductive Pin : Type := PinInput | PinDeinit.

(** The module globals that [en_counter] and [dis_counter] declare
    [global]. *)
Record State : Type := mkState {
  count1 : option Counter;
  count3 : option Counter;
  count5 : option Counter;
  count7 : option Counter;
  count9 : option Counter;
  din1 : Pin;
  din3 : Pin;
  din5 : Pin;
  din7 : Pin;
  din9 : Pin
}.

(** State after the module body has run: [countN = None], every
    [dinN] an input. *)
Definition init : State :=
  mkState None None None None None
          PinInput PinInput PinInput PinInput PinInput.

(** [countio.Counter(board.DIx, edge=countio.Edge.FALL)]: a new
    counter starts at zero. *)
Definition new_counter : Counter := mkCounter 0.

Definition is_None {A} (o : option A) : bool :=
  match o with None => true | Some _ => false end.

Definition en_counter (channel : Z) (h : State) : State * bool :=
  if (channel =? 1) && is_None (count1 h) then
    (mkState (Some new_counter) (count3 h) (count5 h) (count7 h) (count9 h)
             PinDeinit (din3 h) (din5 h) (din7 h) (din9 h), true)
  else if (channel =? 3) && is_None (count3 h) then
    (mkState (count1 h) (Some new_counter) (count5 h) (count7 h) (count9 h)
             (din1 h) PinDeinit (din5 h) (din7 h) (din9 h), true)
  else if (channel =? 5) && is_None (count5 h) then
    (mkState (count1 h) (count3 h) (Some new_counter) (count7 h) (count9 h)
             (din1 h) (din3 h) PinDeinit (din7 h) (din9 h), true)
  else if (channel =? 7) && is_None (count7 h) then
    (mkState (count1 h) (count3 h) (count5 h) (Some new_counter) (count9 h)
             (din1 h) (din3 h) (din5 h) PinDeinit (din9 h), true)
  else if (channel =? 9) && is_None (count9 h) then
    (mkState (count1 h) (count3 h) (count5 h) (count7 h) (Some new_counter)
             (din1 h) (din3 h) (din5 h) (din7 h) PinDeinit, true)
  else (h, false).

Definition dis_counter (channel : Z) (h : State) : State * bool :=
  if (channel =? 1) && negb (is_None (count1 h)) then
    (mkState None (count3 h) (count5 h) (count7 h) (count9 h)
             PinInput (din3 h) (din5 h) (din7 h) (din9 h), true)
  else if (channel =? 3) && negb (is_None (count3 h)) then
    (mkState (count1 h) None (count5 h) (count7 h) (count9 h)
             (din1 h) PinInput (din5 h) (din7 h) (din9 h), true)
  else if (channel =? 5) && negb (is_None (count5 h)) then
    (mkState (count1 h) (count3 h) None (count7 h) (count9 h)
             (din1 h) (din3 h) PinInput (din7 h) (din9 h), true)
  else if (channel =? 7) && negb (is_None (count7 h)) then
    (mkState (count1 h) (count3 h) (count5 h) None (count9 h)
             (din1 h) (din3 h) (din5 h) PinInput (din9 h), true)
  else if (channel =? 9) && negb (is_None (count9 h)) then
    (mkState (count1 h) (count3 h) (count5 h) (count7 h) None
             (din1 h) (din3 h) (din5 h) (din7 h) PinInput, true)
  else (h, false).

(** The counter object of a channel; channels without a counter
    have none. *)
Definition counter_of (channel : Z) (h : State) : option Counter :=
  if channel =? 1 then count1 h
  else if channel =? 3 then count3 h
  else if channel =? 5 then count5 h
  else if channel =? 7 then count7 h
  else if channel =? 9 then count9 h
  else None.

Definition counter_channel (channel : Z) : Prop :=
  channel = 1 \/ channel = 3 \/ channel = 5 \/ channel = 7 \/ channel = 9.

(** [countN.reset()] on an existing counter. *)
Definition reset (c : Counter) : Counter := mkCounter 0.

(** Replace the counter object of a channel (used for the in-place
    [reset()] of the object the global refers to). *)
Definition set_counter (channel : Z) (c : option Counter) (h : State) : State :=
  if channel =? 1 then
    mkState c (count3 h) (count5 h) (count7 h) (count9 h)
            (din1 h) (din3 h) (din5 h) (din7 h) (din9 h)
  else if channel =? 3 then
    mkState (count1 h) c (count5 h) (count7 h) (count9 h)
            (din1 h) (din3 h) (din5 h) (din7 h) (din9 h)
  else if channel =? 5 then
    mkState (count1 h) (count3 h) c (count7 h) (count9 h)
            (din1 h) (din3 h) (din5 h) (din7 h) (din9 h)
  else if channel =? 7 then
    mkState (count1 h) (count3 h) (count5 h) c (count9 h)
            (din1 h) (din3 h) (din5 h) (din7 h) (din9 h)
  else if channel =? 9 then
    mkState (count1 h) (count3 h) (count5 h) (count7 h) c
            (din1 h) (din3 h) (din5 h) (din7 h) (din9 h)
  else h.

End Hal.

(** * iriv_ioc_modbus.py *)

Module IocModbus.

(** Register addresses. *)
Definition DO0_ADD : Z := 0x0100.
Definition DO1_ADD : Z := 0x0101.
Definition DO2_ADD : Z := 0x0102.
Definition DO3_ADD : Z := 0x0103.

Definition COUNT1_EN_ADD : Z := 0x0300.
Definition COUNT3_EN_ADD : Z := 0x0301.
Definition COUNT5_EN_ADD : Z := 0x0302.
Definition COUNT7_EN_ADD : Z := 0x0303.
Definition COUNT9_EN_ADD : Z := 0x0304.

Definition COUNT1_RST_ADD : Z := 0x0310.
Definition COUNT3_RST_ADD : Z := 0x0311.
Definition COUNT5_RST_ADD : Z := 0x0312.
Definition COUNT7_RST_ADD : Z := 0x0313.
Definition COUNT9_RST_ADD : Z := 0x0314.

Definition ANV0_ADD : Z := 0x0200.
Definition ANV1_ADD : Z := 0x0201.
Definition ANA0_ADD : Z := 0x0210.
Definition ANA1_ADD : Z := 0x0211.

Definition COUNT1_H_ADD : Z := 0x0400.
Definition COUNT1_L_ADD : Z := 0x0401.
Definition COUNT3_H_ADD : Z := 0x0402.
Definition COUNT3_L_ADD : Z := 0x0403.
Definition COUNT5_H_ADD : Z := 0x0404.
Definition COUNT5_L_ADD : Z := 0x0405.
Definition COUNT7_H_ADD : Z := 0x0406.
Definition COUNT7_L_ADD : Z := 0x0407.
Definition COUNT9_H_ADD : Z := 0x0408.
Definition COUNT9_L_ADD : Z := 0x0409.

Definition MODEL1 : Z := 0x494F.
Definition MODEL2 : Z := 0x4300.
Definition MODEL1_ADD : Z := 0x0F00.
Definition VERSION_MAJOR : Z := 2.
Definition VERSION_MINOR : Z := 0.
Definition VERSION_PATCH : Z := 0.
Definition VERSION_MAJOR_ADD : Z := 0x0F10.

(** Modelled from the spec: the Register Table held by the [client]
    object ([umodbus/modbus.py], which defines [get_coil], [set_coil],
    [set_ireg] and the request dispatch, is not among the sources).
    Following the data model, an entry is keyed by its base address;
    a coil holds a single bit and an input register entry an ordered
    sequence of words, most significant first.  Only the two spaces
    the counter hooks touch are kept. *)
Record Registers : Type := mkRegisters {
  COILS : gmap Z Z;
  IREGS : gmap Z (list Z)
}.

(** The state the hooks run in: the HAL module globals and the
    register table of [client]. *)
Record World : Type := mkWorld {
  hal : Hal.State;
  client : Registers
}.

(** Modelled from the spec: [client.get_coil(address)] returns the
    stored bit of the entry; an address without an entry is a
    [KeyError]. *)
Definition get_coil (address : Z) : M World Z :=
  fun w => match COILS (client w) !! address with
           | Some v => (w, Ret v)
           | None => (w, Raise KeyError)
           end.

(** Modelled from the spec: [client.set_coil(address, value)] stores
    the bit. *)
Definition set_coil (address value : Z) : M World unit :=
  modify (fun w =>
    mkWorld (hal w)
            (mkRegisters (<[address := value]> (COILS (client w)))
                         (IREGS (client w)))).

(** Modelled from the spec: [client.set_ireg(address, value)] stores
    the word sequence of the entry. *)
Definition set_ireg (address : Z) (value : list Z) : M World unit :=
  modify (fun w =>
    mkWorld (hal w)
            (mkRegisters (COILS (client w))
                         (<[address := value]> (IREGS (client w))))).

(** [Hal.en_counter(channel)] and [Hal.dis_counter(channel)] called
    from the hooks. *)
Definition Hal_en_counter (channel : Z) : M World bool :=
  fun w => let (h, r) := Hal.en_counter channel (hal w) in
           (mkWorld h (client w), Ret r).

Definition Hal_dis_counter (channel : Z) : M World bool :=
  fun w => let (h, r) := Hal.dis_counter channel (hal w) in
           (mkWorld h (client w), Ret r).

(** Evaluating [Hal.countN] for an attribute access ([.count],
    [.reset]): on [None] Python raises [AttributeError]. *)
Definition Hal_counter (channel : Z) : M World Hal.Counter :=
  fun w => match Hal.counter_of channel (hal w) with
           | Some c => (w, Ret c)
           | None => (w, Raise AttributeError)
           end.

(** [Hal.countN.reset()]. *)
Definition Hal_counter_reset (channel : Z) : M World unit :=
  let* c := Hal_counter channel in
  modify (fun w =>
    mkWorld (Hal.set_counter channel (Some (Hal.reset c)) (hal w)) (client w)).

(** One of the five textually identical blocks of
    [counter_en_set_cb], for the channel with enable coil [en_add] and
    value registers at [h_add]. *)
Definition counter_en_block (en_add channel h_add : Z) : M World unit :=
  let* en := get_coil en_add in
  if en =? 1 then
    let* r := Hal_en_counter channel in
    when r (set_ireg h_add [0; 0])
  else
    Hal_dis_counter channel >>> ret tt.

(** Call back when setting the Counter Enable Bit. *)
Definition counter_en_set_cb (reg_type : string) (address : Z) (val : list Z)
  : M World unit :=
  counter_en_block COUNT1_EN_ADD 1 COUNT1_H_ADD >>>
  counter_en_block COUNT3_EN_ADD 3 COUNT3_H_ADD >>>
  counter_en_block COUNT5_EN_ADD 5 COUNT5_H_ADD >>>
  counter_en_block COUNT7_EN_ADD 7 COUNT7_H_ADD >>>
  counter_en_block COUNT9_EN_ADD 9 COUNT9_H_ADD.

(** One block of [counter_rst_set_cb]. *)
Definition counter_rst_block (rst_add channel h_add : Z) : M World unit :=
  let* rst := get_coil rst_add in
  when (rst =? 1)
    (set_coil rst_add 0 >>>
     Hal_counter_reset channel >>>
     set_ireg h_add [0; 0]).

(** Call back when setting the Counter Reset Bit. *)
Definition counter_rst_set_cb (reg_type : string) (address : Z) (val : list Z)
  : M World unit :=
  counter_rst_block COUNT1_RST_ADD 1 COUNT1_H_ADD >>>
  counter_rst_block COUNT3_RST_ADD 3 COUNT3_H_ADD >>>
  counter_rst_block COUNT5_RST_ADD 5 COUNT5_H_ADD >>>
  counter_rst_block COUNT7_RST_ADD 7 COUNT7_H_ADD >>>
  counter_rst_block COUNT9_RST_ADD 9 COUNT9_H_ADD.

(** One block of [counter_get_cb]. *)
Definition counter_get_block (en_add channel h_add : Z) : M World unit :=
  let* en := get_coil en_add in
  when (en =? 1)
    (let* c := Hal_counter channel in
     let count := Hal.count c in
     set_ireg h_add [Z.shiftr count 8; Z.land count 0xffff]).

(** Call back when reading the counter value. *)
Definition counter_get_cb (reg_type : string) (address : Z) (val : list Z)
  : M World unit :=
  counter_get_block COUNT1_EN_ADD 1 COUNT1_H_ADD >>>
  counter_get_block COUNT3_EN_ADD 3 COUNT3_H_ADD >>>
  counter_get_block COUNT5_EN_ADD 5 COUNT5_H_ADD >>>
  counter_get_block COUNT7_EN_ADD 7 COUNT7_H_ADD >>>
  counter_get_block COUNT9_EN_ADD 9 COUNT9_H_ADD.

(** The counter channels with their enable coil, reset coil and value
    register addresses, as the blocks above pair them. *)
Definition en_add (channel : Z) : Z :=
  if channel =? 1 then COUNT1_EN_ADD else if channel =? 3 then COUNT3_EN_ADD
  else if channel =? 5 then COUNT5_EN_ADD else if channel =? 7 then COUNT7_EN_ADD
  else COUNT9_EN_ADD.

Definition rst_add (channel : Z) : Z :=
  if channel =? 1 then COUNT1_RST_ADD else if channel =? 3 then COUNT3_RST_ADD
  else if channel =? 5 then COUNT5_RST_ADD else if channel =? 7 then COUNT7_RST_ADD
  else COUNT9_RST_ADD.

Definition h_add (channel : Z) : Z :=
  if channel =? 1 then COUNT1_H_ADD else if channel =? 3 then COUNT3_H_ADD
  else if channel =? 5 then COUNT5_H_ADD else if channel =? 7 then COUNT7_H_ADD
  else COUNT9_H_ADD.

(** [register_definitions], restricted to the two spaces of
    [Registers]: the initial value of every entry. *)
Definition register_definitions : Registers :=
  mkRegisters
    (list_to_map
       [ (DO0_ADD, 0); (DO1_ADD, 0); (DO2_ADD, 0); (DO3_ADD, 0);
         (COUNT1_EN_ADD, 0); (COUNT3_EN_ADD, 0); (COUNT5_EN_ADD, 0);
         (COUNT7_EN_ADD, 0); (COUNT9_EN_ADD, 0);
         (COUNT1_RST_ADD, 0); (COUNT3_RST_ADD, 0); (COUNT5_RST_ADD, 0);
         (COUNT7_RST_ADD, 0); (COUNT9_RST_ADD, 0) ])
    (list_to_map
       [ (ANV0_ADD, [0]); (ANV1_ADD, [0]); (ANA0_ADD, [0]); (ANA1_ADD, [0]);
         (COUNT1_H_ADD, [0; 0]); (COUNT3_H_ADD, [0; 0]); (COUNT5_H_ADD, [0; 0]);
         (COUNT7_H_ADD, [0; 0]); (COUNT9_H_ADD, [0; 0]);
         (MODEL1_ADD, [MODEL1; MODEL2]);
         (VERSION_MAJOR_ADD, [VERSION_MAJOR; VERSION_MINOR; VERSION_PATCH]) ]).

(** The ["on_set_cb"] of the counter coils and the ["on_get_cb"] of
    the counter value registers in [register_definitions].  The
    digital output and analog input entries have hooks of their own
    that are not embedded here. *)
Definition coil_on_set_cb (address : Z)
  : option (string -> Z -> list Z -> M World unit) :=
  if (COUNT1_EN_ADD <=? address) && (address <=? COUNT9_EN_ADD)
  then Some counter_en_set_cb
  else if (COUNT1_RST_ADD <=? address) && (address <=? COUNT9_RST_ADD)
  then Some counter_rst_set_cb
  else None.

Definition ireg_on_get_cb (address : Z)
  : option (string -> Z -> list Z -> M World unit) :=
  if existsb (Z.eqb address)
       [COUNT1_H_ADD; COUNT3_H_ADD; COUNT5_H_ADD; COUNT7_H_ADD; COUNT9_H_ADD]
  then Some counter_get_cb
  else None.

(** What a Register Table access gives the dispatcher: the values, or
    the code of the Modbus exception to answer with. *)
Inductive Reply (A : Type) : Type :=
  | Values (a : A)
  | ExceptionCode (code : Z).
Arguments Values {A} a.
Arguments ExceptionCode {A} code.

Definition ILLEGAL_FUNCTION : Z := 1.
Definition ILLEGAL_DATA_ADDRESS : Z := 2.
Definition ILLEGAL_DATA_VALUE : Z := 3.

(** Modelled from the spec: Register Table [write] for one coil
    (WriteSingleCoil).  It fails with IllegalDataAddress when no entry
    has that address and with IllegalDataValue when the value is not
    a bit; otherwise it stores the value and then invokes the entry's
    on-write hook. *)
Definition write_single_coil (address value : Z) : M World (Reply unit) :=
  fun w =>
    match COILS (client w) !! address with
    | None => (w, Ret (ExceptionCode ILLEGAL_DATA_ADDRESS))
    | Some _ =>
        if (value =? 0) || (value =? 1) then
          (set_coil address value >>>
           match coil_on_set_cb address with
           | Some cb => cb "COILS" address [value]
           | None => ret tt
           end >>>
           ret (Values tt)) w
        else (w, Ret (ExceptionCode ILLEGAL_DATA_VALUE))
    end.

(** Modelled from the spec: Register Table [read] of input registers
    (ReadInputRegisters).  It fails with IllegalDataAddress unless one
    entry covers exactly [address, address+count); otherwise it
    invokes the entry's on-read hook and then returns the latest
    stored value. *)
Definition read_input_registers (address count : Z)
  : M World (Reply (list Z)) :=
  fun w =>
    match IREGS (client w) !! address with
    | None => (w, Ret (ExceptionCode ILLEGAL_DATA_ADDRESS))
    | Some v =>
        if Z.of_nat (length v) =? count then
          (match ireg_on_get_cb address with
           | Some cb => cb "IREGS" address v
           | None => ret tt
           end >>>
           fun w' =>
             match IREGS (client w') !! address with
             | Some v' => (w', Ret (Values v'))
             | None => (w', Raise KeyError)
             end) w
        else (w, Ret (ExceptionCode ILLEGAL_DATA_ADDRESS))
    end.

(** A pulse counted by the hardware on an enabled channel: the
    environment step between two hook calls. *)
Definition pulse (channel : Z) (w : World) : World :=
  match Hal.counter_of channel (hal w) with
  | Some c =>
      mkWorld (Hal.set_counter channel (Some (Hal.mkCounter (Hal.count c + 1)))
                               (hal w))
              (client w)
  | None => w
  end.

(** ** Vocabulary of the properties *)

(** Every counter enable coil has an entry in the table, as
    [register_definitions] provides. *)
Definition en_coils_defined (w : World) : Prop :=
  forall c, Hal.counter_channel c -> is_Some (COILS (client w) !! en_add c).

(** An enabled channel has its counter object: what
    [counter_en_set_cb] establishes after every write to an enable
    coil. *)
Definition enabled_counters_present (w : World) : Prop :=
  forall c, Hal.counter_channel c ->
    COILS (client w) !! en_add c = Some 1 ->
    is_Some (Hal.counter_of c (hal w)).

(** A coil holds a single bit. *)
Definition coils_are_bits (w : World) : Prop :=
  map_Forall (fun _ v => v = 0 \/ v = 1) (COILS (client w)).

(** The two words [counter_get_cb] stores for a count. *)
Definition stored_pair (count : Z) : list Z :=
  [Z.shiftr count 8; Z.land count 0xffff].

(** The standard split of a 32-bit count over two 16-bit registers. *)
Definition standard_split (count : Z) : list Z :=
  [Z.shiftr count 16; Z.land count 0xffff].

Definition get_block_iregs (v : Z) (cnt : option Hal.Counter) (ha : Z)
    (m : gmap Z (list Z)) : gmap Z (list Z) :=
  match v =? 1, cnt with
  | true, Some k => <[ha := stored_pair (Hal.count k)]> m
  | _, _ => m
  end.

Definition en_block_hal (v c : Z) (h : Hal.State) : Hal.State :=
  if v =? 1 then fst (Hal.en_counter c h) else fst (Hal.dis_counter c h).

Definition en_block_iregs (v c : Z) (h : Hal.State) (ha : Z)
    (m : gmap Z (list Z)) : gmap Z (list Z) :=
  if (v =? 1) && snd (Hal.en_counter c h) then <[ha := [0; 0]]> m else m.

(** A channel whose reset coil is 1 has its counter object: then
    [Hal.countN.reset()] does not raise. *)
Definition reset_counters_present (w : World) : Prop :=
  forall c, Hal.counter_channel c ->
    COILS (client w) !! rst_add c = Some 1 ->
    is_Some (Hal.counter_of c (hal w)).

Definition rst_coils_defined (w : World) : Prop :=
  forall c, Hal.counter_channel c -> is_Some (COILS (client w) !! rst_add c).

Definition rst_block_coils (v ra : Z) (m : gmap Z Z) : gmap Z Z :=
  if v =? 1 then <[ra := 0]> m else m.

Definition rst_block_iregs (v ha : Z) (m : gmap Z (list Z))
  : gmap Z (list Z) :=
  if v =? 1 then <[ha := [0; 0]]> m else m.

Definition rst_block_hal (v c : Z) (h : Hal.State) : Hal.State :=
  match v =? 1, Hal.counter_of c h with
  | true, Some k => Hal.set_counter c (Some (Hal.reset k)) h
  | _, _ => h
  end.

End IocModbus.

(** * umodbus/tcp.py : class TCPServer *)

Module Tcp.

(** ** Bytes and [struct] *)

Definition byte_to_Z (b : byte) : Z := Z.of_N (Byte.to_N b).

(** A value packed with format [B]: its low eight bits. *)
Definition pack_B (z : Z) : byte :=
  match Byte.of_N (Z.to_N (z mod 256)) with
  | Some b => b
  | None => Byte.x00
  end.

(** A value packed with format [>H]: big-endian, two bytes. *)
Definition pack_H (z : Z) : list byte := [pack_B (z / 256); pack_B z].

Definition unpack_H (hi lo : byte) : Z := byte_to_Z hi * 256 + byte_to_Z lo.

(** [struct.unpack('>HHH', b)]: needs exactly six bytes, raises
    otherwise. *)
Definition unpack_HHH (b : list byte) : option (Z * Z * Z) :=
  match b with
  | [b0; b1; b2; b3; b4; b5] =>
      Some (unpack_H b0 b1, unpack_H b2 b3, unpack_H b4 b5)
  | _ => None
  end.

(** Modelled from the spec: [Const.MBAP_HDR_LENGTH] ([umodbus/const.py]
    is not among the sources); the MBAP header has 7 bytes. *)
Definition MBAP_HDR_LENGTH : nat := 7.

(** Modelled from the spec: [functions.exception_response]
    ([umodbus/functions.py] is not among the sources); the exception
    PDU is the function code OR 0x80 followed by one exception-code
    byte. *)
Definition exception_response (function_code exception_code : Z) : list byte :=
  [pack_B (Z.lor function_code 0x80); pack_B exception_code].

(** ** Socket objects *)

(** What one call of [recv] gives: data, [OSError] (a timeout on
    MicroPython) or another exception. *)
Inductive RecvResult : Type :=
  | RecvData (data : list byte)
  | RecvOSError
  | RecvException.

(** A socket object of the socket pool, as far as [TCPServer] uses
    it.  [_connected] and [_socket_closed] are what reading the
    attributes gives; [status_raises] says that reading them raises.
    [rx] lists the outcomes of the coming [recv] calls and [tx] the
    buffers handed to [send], oldest first. *)
Record Socket : Type := mkSocket {
  _connected : bool;
  _socket_closed : bool;
  status_raises : bool;
  bound : option (option string * Z);
  listening : bool;
  sock_timeout : option Z;
  rx : list RecvResult;
  tx : list (list byte)
}.

(** [self._sockpool.socket()]: a new, open, unconnected socket. *)
Definition new_socket : Socket :=
  mkSocket false false false None false None [] [].

Definition sock_close (s : Socket) : Socket :=
  mkSocket false true (status_raises s) (bound s) false (sock_timeout s)
           (rx s) (tx s).

Definition sock_bind (addr : option string * Z) (s : Socket) : Socket :=
  mkSocket (_connected s) (_socket_closed s) (status_raises s) (Some addr)
           (listening s) (sock_timeout s) (rx s) (tx s).

Definition sock_listen (s : Socket) : Socket :=
  mkSocket (_connected s) (_socket_closed s) (status_raises s) (bound s)
           true (sock_timeout s) (rx s) (tx s).

Definition sock_settimeout (t : Z) (s : Socket) : Socket :=
  mkSocket (_connected s) (_socket_closed s) (status_raises s) (bound s)
           (listening s) (Some t) (rx s) (tx s).

Definition sock_send (data : list byte) (s : Socket) : Socket :=
  mkSocket (_connected s) (_socket_closed s) (status_raises s) (bound s)
           (listening s) (sock_timeout s) (rx s) (tx s ++ [data]).

Definition sock_set_rx (q : list RecvResult) (s : Socket) : Socket :=
  mkSocket (_connected s) (_socket_closed s) (status_raises s) (bound s)
           (listening s) (sock_timeout s) q (tx s).

(** [recv(bufsize)]: at most [bufsize] bytes of the data that is
    there; what does not fit stays for the next call.  With nothing
    queued the call times out. *)
Definition sock_recv (bufsize : nat) (s : Socket)
  : Socket * option (list byte) :=
  match rx s with
  | [] => (s, None)
  | RecvData d :: q =>
      (sock_set_rx (match drop bufsize d with
                    | [] => q
                    | rest => RecvData rest :: q
                    end) s,
       Some (take bufsize d))
  | _ :: q => (sock_set_rx q s, None)
  end.

(** ** The server object and its surroundings *)

(** References to socket objects: the list and [_current_sock] hold
    references, so that a socket replaced in the list is a different
    object from the one closed before. *)
Definition SockRef : Type := nat.

Record TCPServer : Type := mkTCPServer {
  _socklist : list (option SockRef);
  _socknum : nat;
  _current_sock : option SockRef;
  _local_ip : option string;
  _local_port : Z;
  _is_bound : bool;
  _link_timestamp : float;
  _req_tid : option Z      (* unset until a header has been unpacked *)
}.

(** [TCPServer.__init__]. *)
Definition TCPServer_init : TCPServer :=
  mkTCPServer [] 0 None None 502 false 0%float None.

(** The server, the socket objects it can refer to, and what the
    collaborators report: [self._sockpool._interface.link_status] and
    [time.monotonic()].  The clock readings are floats, IEEE binary64
    as the kernel's primitive floats are, so that the difference the
    link-down branch computes is rounded as the code's is. *)
Record World : Type := mkWorld {
  server : TCPServer;
  sockets : SockRef -> Socket;
  next_sock : SockRef;
  link_status : bool;
  monotonic : float
}.

Definition set_server (srv : TCPServer) (w : World) : World :=
  mkWorld srv (sockets w) (next_sock w) (link_status w) (monotonic w).

(** Apply [f] to the socket object behind [r]. *)
Definition on_sock (r : SockRef) (f : Socket -> Socket) (w : World) : World :=
  mkWorld (server w)
          (fun r' => if Nat.eqb r' r then f (sockets w r') else sockets w r')
          (next_sock w) (link_status w) (monotonic w).

(** [self._sockpool.socket()]: the new object gets the next unused
    reference. *)
Definition sockpool_socket (w : World) : World * SockRef :=
  (mkWorld (server w)
           (fun r' => if Nat.eqb r' (next_sock w) then new_socket
                      else sockets w r')
           (S (next_sock w)) (link_status w) (monotonic w),
   next_sock w).

Definition with_socklist (l : list (option SockRef)) (srv : TCPServer) :=
  mkTCPServer l (_socknum srv) (_current_sock srv) (_local_ip srv)
              (_local_port srv) (_is_bound srv) (_link_timestamp srv)
              (_req_tid srv).

Definition with_socknum (n : nat) (srv : TCPServer) :=
  mkTCPServer (_socklist srv) n (_current_sock srv) (_local_ip srv)
              (_local_port srv) (_is_bound srv) (_link_timestamp srv)
              (_req_tid srv).

Definition with_current_sock (c : option SockRef) (srv : TCPServer) :=
  mkTCPServer (_socklist srv) (_socknum srv) c (_local_ip srv)
              (_local_port srv) (_is_bound srv) (_link_timestamp srv)
              (_req_tid srv).

Definition with_local (ip : option string) (port : Z) (srv : TCPServer) :=
  mkTCPServer (_socklist srv) (_socknum srv) (_current_sock srv) ip port
              (_is_bound srv) (_link_timestamp srv) (_req_tid srv).

Definition with_is_bound (b : bool) (srv : TCPServer) :=
  mkTCPServer (_socklist srv) (_socknum srv) (_current_sock srv)
              (_local_ip srv) (_local_port srv) b (_link_timestamp srv)
              (_req_tid srv).

Definition with_link_timestamp (t : float) (srv : TCPServer) :=
  mkTCPServer (_socklist srv) (_socknum srv) (_current_sock srv)
              (_local_ip srv) (_local_port srv) (_is_bound srv) t
              (_req_tid srv).

Definition with_req_tid (t : option Z) (srv : TCPServer) :=
  mkTCPServer (_socklist srv) (_socknum srv) (_current_sock srv)
              (_local_ip srv) (_local_port srv) (_is_bound srv)
              (_link_timestamp srv) t.

Definition update_server (f : TCPServer -> TCPServer) (w : World) : World :=
  set_server (f (server w)) w.

(** ** [bind] *)

(** The first loop of [bind]: close every socket of the list. *)
Fixpoint close_all (l : list (option SockRef)) (w : World) : World :=
  match l with
  | [] => w
  | Some r :: l' => close_all l' (on_sock r sock_close w)
  | None :: l' => close_all l' w
  end.

(** The second loop of [bind]: create, bind and append
    [max_connections] listening sockets. *)
Fixpoint open_all (n : nat) (w : World) : World :=
  match n with
  | O => w
  | S n' =>
      let (w1, r) := sockpool_socket w in
      let w2 := on_sock r (sock_bind (_local_ip (server w1),
                                      _local_port (server w1))) w1 in
      let w3 := on_sock r sock_listen w2 in
      open_all n'
        (update_server
           (fun srv => with_socklist (_socklist srv ++ [Some r]) srv) w3)
  end.

Definition bind (local_ip : option string) (local_port : Z)
    (max_connections : Z) (w : World) : World :=
  let w1 := close_all (_socklist (server w)) w in
  let w2 := update_server
              (fun srv => with_current_sock None (with_socklist [] srv)) w1 in
  if max_connections <? 1 then w2
  else
    let w3 := update_server (with_local local_ip local_port) w2 in
    let w4 := open_all (Z.to_nat max_connections) w3 in
    update_server (fun srv => with_is_bound true (with_socknum 0 srv)) w4.

(** ** [_send], [send_response], [send_exception_response] *)

Definition _send (modbus_pdu : list byte) (slave_addr : Z) : M World unit :=
  fun w =>
    let size := Z.of_nat (length modbus_pdu) in
    match _req_tid (server w) with
    | None => (w, Raise AttributeError)
    | Some tid =>
        let adu := pack_H tid ++ pack_H 0 ++ pack_H (size + 1)
                   ++ [pack_B slave_addr] ++ modbus_pdu in
        match _current_sock (server w) with
        | None => (w, Raise AttributeError)
        | Some r => (on_sock r (sock_send adu) w, Ret tt)
        end
    end.

Definition send_exception_response (slave_addr function_code exception_code : Z)
  : M World unit :=
  let modbus_pdu := exception_response function_code exception_code in
  _send modbus_pdu slave_addr.

Section WithCodec.

(** The parts of the PDU codec that [tcp.py] imports but that are not
    among the sources: the [Request] class, whose constructor decodes
    the unit id and PDU and may raise [ModbusException], and
    [functions.response]. *)
Context {Request : Type}.

Inductive Decoded : Type :=
  | DecodedRequest (r : Request)
  | ModbusException (function_code exception_code : Z)
  | DecodeRaises (e : Exn).

Variable Request_init : list byte -> Decoded.
Variable functions_response :
  Z -> Z -> Z -> list Z -> option (list Z) -> bool -> list byte.

Definition send_response (slave_addr function_code request_register_addr
    request_register_qty : Z) (request_data : list Z)
    (values : option (list Z)) (signed : bool) : M World unit :=
  let modbus_pdu := functions_response function_code request_register_addr
                      request_register_qty request_data values signed in
  _send modbus_pdu slave_addr.

(** ** [get_request] *)

(** The last [try] block of [get_request]: the [Request] is
    constructed; a [ModbusException] is answered with an exception
    response and gives [None]. *)
Definition get_request_decode (req req_uid_and_pdu : list byte)
  : M World (option Request) :=
  match Request_init req_uid_and_pdu with
  | DecodedRequest r => ret (Some r)
  | ModbusException function_code exception_code =>
      match req with
      | [] => raise IndexError
      | req0 :: _ =>
          send_exception_response (byte_to_Z req0) function_code
                                  exception_code >>>
          ret None
      end
  | DecodeRaises e => raise e
  end.

(** The part of [get_request] after the header has been read: the
    protocol id and unit id checks, then the construction of the
    [Request]. *)
Definition get_request_parse (unit_addr_list : option (list Z))
    (req : list byte) (req_pid : Z) (req_uid_and_pdu : list byte)
  : M World (option Request) :=
  if negb (req_pid =? 0) then ret None
  else
    let* foreign :=
      match unit_addr_list with
      | None => ret false
      | Some l =>
          match req_uid_and_pdu with
          | [] => raise IndexError
          | uid :: _ => ret (negb (existsb (Z.eqb (byte_to_Z uid)) l))
          end
      end in
    if (foreign : bool) then ret None
    else get_request_decode req req_uid_and_pdu.

(** The [try] block that reads the received data.  Every exception
    raised inside it is caught and gives [None]. *)
Definition get_request_read (unit_addr_list : option (list Z)) (timeout : Z)
    (r : SockRef) : M World (option Request) :=
  fun w =>
    let w1 := on_sock r (sock_settimeout timeout) w in
    let (s', got) := sock_recv 260 (sockets w1 r) in
    let w2 := on_sock r (fun _ => s') w1 in
    match got with
    | None => (w2, Ret None)
    | Some req =>
        if (length req =? 0)%nat then (w2, Ret None)
        else
          let req_header_no_uid := take (MBAP_HDR_LENGTH - 1) req in
          match unpack_HHH req_header_no_uid with
          | None => (w2, Ret None)
          | Some (tid, req_pid, req_len) =>
              let w3 := update_server (with_req_tid (Some tid)) w2 in
              let req_uid_and_pdu :=
                take (Z.to_nat req_len) (drop (MBAP_HDR_LENGTH - 1) req) in
              get_request_parse unit_addr_list req req_pid req_uid_and_pdu w3
          end
    end.

Definition get_request (unit_addr_list : option (list Z)) (timeout : Z)
  : M World (option Request) :=
  fun w =>
    match _socklist (server w) !! _socknum (server w) with
    | None => (w, Raise IndexError)
    | Some cur =>
        let w := update_server (with_current_sock cur) w in
        (* Increase the socket number for next call. *)
        let current_socknum := _socknum (server w) in
        let w := update_server (with_socknum (S (_socknum (server w)))) w in
        let w :=
          if (length (_socklist (server w)) <=? _socknum (server w))%nat
          then update_server (with_socknum 0%nat) w else w in
        match _current_sock (server w) with
        | None => (w, Raise NotBoundError)
        | Some r =>
            if negb (link_status w) then
              (* If link is down for >= 5 seconds, reset the socket. *)
              let w :=
                if (5 <=? monotonic w - _link_timestamp (server w))%float
                then
                  if negb (_socket_closed (sockets w r))
                  then on_sock r sock_close w else w
                else w in
              (w, Ret None)
            else
              (* Record the timestamp. *)
              let w := update_server (with_link_timestamp (monotonic w)) w in
              let '(is_connected, is_closed) :=
                if status_raises (sockets w r) then (false, true)
                else (_connected (sockets w r), _socket_closed (sockets w r)) in
              if negb is_connected then
                if is_closed then
                  let (w, r') := sockpool_socket w in
                  let w := update_server (with_current_sock (Some r')) w in
                  let w := on_sock r' (sock_bind (_local_ip (server w),
                                                  _local_port (server w))) w in
                  let w := on_sock r' sock_listen w in
                  (* Replace the old one in socket list. *)
                  let w := update_server
                             (fun srv => with_socklist
                                (<[current_socknum := Some r']> (_socklist srv))
                                srv) w in
                  (w, Ret None)
                else (w, Ret None)
              else get_request_read unit_addr_list timeout r w
        end
    end.

(** Modelled from the spec: one cycle of the Server Loop
    ([Modbus.process] in [umodbus/modbus.py], not among the sources).
    It asks the transport for the next request; if there is none it
    returns at once, otherwise it hands the request to the dispatcher,
    the only part that accesses the Register Table and its hooks.  The
    dispatcher runs on the transport together with the device state
    [D]. *)
Definition process {D : Type} (dispatch : Request -> M (World * D) unit)
    (unit_addr_list : option (list Z)) (timeout : Z) : M (World * D) bool :=
  fun '(w, d) =>
    match get_request unit_addr_list timeout w with
    | (w', Ret None) => ((w', d), Ret false)
    | (w', Ret (Some request)) =>
        (dispatch request >>> ret true) (w', d)
    | (w', Raise e) => ((w', d), Raise e)
    end.

(** ** Consecutive calls *)

(** What the surroundings may change between two calls: the link
    status, the clock and the socket objects (peers connecting,
    data arriving, connections dropping). *)
Record Env : Type := mkEnv {
  env_link_status : bool;
  env_monotonic : float;
  env_sockets : (SockRef -> Socket) -> (SockRef -> Socket)
}.

Definition apply_env (e : Env) (w : World) : World :=
  mkWorld (server w) (env_sockets e (sockets w)) (next_sock w)
          (env_link_status e) (env_monotonic e).

(** Consecutive calls of [get_request], one per element of [es], with
    the slot each call indexes the socket list at. *)
Fixpoint polls (unit_addr_list : option (list Z)) (timeout : Z)
    (es : list Env) (w : World) : World * list nat :=
  match es with
  | [] => (w, [])
  | e :: es' =>
      let w1 := apply_env e w in
      let slot := _socknum (server w1) in
      let (w2, _) := get_request unit_addr_list timeout w1 in
      let (w3, slots) := polls unit_addr_list timeout es' w2 in
      (w3, slot :: slots)
  end.

(** The same calls, with the socket each of them leaves in
    [_current_sock]: the socket it took from the list to work on, or
    the new socket it put in its place. *)
Fixpoint polled (unit_addr_list : option (list Z)) (timeout : Z)
    (es : list Env) (w : World) : list (option SockRef) :=
  match es with
  | [] => []
  | e :: es' =>
      let w2 := fst (get_request unit_addr_list timeout (apply_env e w)) in
      _current_sock (server w2) :: polled unit_addr_list timeout es' w2
  end.

(** ** Vocabulary of the properties *)

(** The cursor after a call. *)
Definition next_socknum (srv : TCPServer) : nat :=
  if (length (_socklist srv) <=? S (_socknum srv))%nat then 0%nat
  else S (_socknum srv).

(** The world once [_current_sock] is set and the cursor advanced. *)
Definition cursor_step (r : SockRef) (w : World) : World :=
  set_server (with_socknum (next_socknum (server w))
                (with_current_sock (Some r) (server w))) w.

(** The world once the link-up timestamp is recorded as well. *)
Definition stamp_step (r : SockRef) (w : World) : World :=
  update_server (with_link_timestamp (monotonic w)) (cursor_step r w).

(** What the status check of [get_request] reads. *)
Definition status_of (s : Socket) : bool * bool :=
  if status_raises s then (false, true) else (_connected s, _socket_closed s).

(** The replacement of the socket in slot [i] by a new listening
    one. *)
Definition recreate_step (i : nat) (w : World) : World :=
  let r' := next_sock w in
  let w1 := fst (sockpool_socket w) in
  let w2 := update_server (with_current_sock (Some r')) w1 in
  let w3 := on_sock r' (sock_bind (_local_ip (server w2),
                                   _local_port (server w2))) w2 in
  let w4 := on_sock r' sock_listen w3 in
  update_server
    (fun srv => with_socklist (<[i := Some r']> (_socklist srv)) srv) w4.

(** The world after [settimeout] and [recv] on socket [r]. *)
Definition recv_step (t : Z) (r : SockRef) (w : World) : World :=
  on_sock r (fun _ => fst (sock_recv 260 (sock_settimeout t (sockets w r))))
    (on_sock r (sock_settimeout t) w).

(** The header fields of a received frame, when it has the six bytes
    [struct.unpack] needs. *)
Definition frame_header (req : list byte) : option (Z * Z * Z) :=
  unpack_HHH (take (MBAP_HDR_LENGTH - 1) req).

Definition frame_uid_and_pdu (req : list byte) (req_len : Z) : list byte :=
  take (Z.to_nat req_len) (drop (MBAP_HDR_LENGTH - 1) req).

(** The unit id check lets the frame through. *)
Definition unit_accepted (ual : option (list Z)) (uap : list byte) : Prop :=
  match ual with
  | None => True
  | Some l =>
      match uap with
      | [] => False
      | uid :: _ => existsb (Z.eqb (byte_to_Z uid)) l = true
      end
  end.

(** The ADU [_send] builds for a PDU. *)
Definition adu_of (tid slave_addr : Z) (modbus_pdu : list byte) : list byte :=
  pack_H tid ++ pack_H 0 ++ pack_H (Z.of_nat (length modbus_pdu) + 1)
  ++ [pack_B slave_addr] ++ modbus_pdu.

(** The call indexes slot [_socknum], the link is up, the socket [r]
    in the slot reports connected and [recv] returns [req]. *)
Definition receives (w : World) (r : SockRef) (req : list byte) : Prop :=
  _socklist (server w) !! _socknum (server w) = Some (Some r)
  /\ link_status w = true
  /\ status_raises (sockets w r) = false
  /\ _connected (sockets w r) = true
  /\ snd (sock_recv 260 (sockets w r)) = Some req.

(** The world once the frame is read and its transaction id kept. *)
Definition received_step (t : Z) (r : SockRef) (tid : Z) (w : World) : World :=
  update_server (with_req_tid (Some tid)) (recv_step t r (stamp_step r w)).

(** The transaction id field of a frame or ADU. *)
Definition transaction_id (frame : list byte) : option Z :=
  match frame with
  | hi :: lo :: _ => Some (unpack_H hi lo)
  | _ => None
  end.

(** Two worlds that differ at most in socket objects other than [r]. *)
Definition agree_on (r : SockRef) (w1 w2 : World) : Prop :=
  server w1 = server w2 /\ next_sock w1 = next_sock w2
  /\ link_status w1 = link_status w2 /\ monotonic w1 = monotonic w2
  /\ sockets w1 r = sockets w2 r.

(** The cursor is a valid index whenever the pool is not empty. *)
Definition cursor_in_pool (w : World) : Prop :=
  _socklist (server w) = []
  \/ (_socknum (server w) < length (_socklist (server w)))%nat.

(** The worlds the server can be in: created by [__init__], then any
    sequence of [bind], [get_request], responses and changes of the
    surroundings. *)
Inductive reachable : World -> Prop :=
  | reach_init (socks : SockRef -> Socket) (n : SockRef) (l : bool) (m : float) :
      reachable (mkWorld TCPServer_init socks n l m)
  | reach_bind (ip : option string) (port maxc : Z) (w : World) :
      reachable w -> reachable (Tcp.bind ip port maxc w)
  | reach_get_request (ual : option (list Z)) (t : Z) (w : World) :
      reachable w -> reachable (fst (get_request ual t w))
  | reach_send (pdu : list byte) (sa : Z) (w : World) :
      reachable w -> reachable (fst (_send pdu sa w))
  | reach_env (e : Env) (w : World) :
      reachable w -> reachable (apply_env e w).

(** The slots hold distinct, allocated socket objects. *)
Definition pool_wf (w : World) : Prop :=
  NoDup (_socklist (server w))
  /\ forall i cur, _socklist (server w) !! i = Some cur ->
       exists r, cur = Some r /\ (r < next_sock w)%nat.

(** Slot [i] holds socket [r], which is closed and not connected, as
    [close()] leaves it. *)
Definition slot_closed (i : nat) (r : SockRef) (w : World) : Prop :=
  _socklist (server w) !! i = Some (Some r)
  /\ _socket_closed (sockets w r) = true
  /\ _connected (sockets w r) = false.


(** Between [w] and [w'] slot [i] got a newly created socket that is
    bound to the local address and listening. *)
Definition recreated (i : nat) (w w' : World) : Prop :=
  _socklist (server w') !! i = Some (Some (next_sock w))
  /\ sockets w' (next_sock w)
     = sock_listen (sock_bind (_local_ip (server w), _local_port (server w))
                              new_socket).

End WithCodec.

End Tcp.

(** * Concrete states for the examples *)

Section RunStates.
Import IocModbus.

(** Counter 1 enabled and at 70000 counts. *)
Definition run_counting : World :=
  mkWorld
    (Hal.mkState (Some (Hal.mkCounter 70000)) None None None None
                 Hal.PinDeinit Hal.PinInput Hal.PinInput Hal.PinInput
                 Hal.PinInput)
    (mkRegisters (<[COUNT1_EN_ADD := 1]> (COILS register_definitions))
                 (IREGS register_definitions)).

(** Counter 1 enabled and its reset coil just written to 1. *)
Definition run_reset : World :=
  mkWorld (hal run_counting)
    (mkRegisters (<[COUNT1_RST_ADD := 1]> (COILS (client run_counting)))
                 (IREGS (client run_counting))).

(** The state after start-up. *)
Definition run_start : World := mkWorld Hal.init register_definitions.

End RunStates.

Section TcpRunStates.
Import Tcp.

(** A stand-in for the absent PDU decoder, used for the concrete runs
    only: the request is the raw unit id and PDU, a function code
    outside the eight supported ones is a [ModbusException] with code
    IllegalFunction, and a PDU without a function code raises. *)
Definition run_Request_init (b : list byte) : @Decoded (list byte) :=
  match b with
  | _ :: fc :: _ =>
      if existsb (Z.eqb (byte_to_Z fc)) [1; 2; 3; 4; 5; 6; 15; 16]
      then DecodedRequest b
      else ModbusException (byte_to_Z fc) 1
  | _ => DecodeRaises IndexError
  end.

(** A stand-in for [functions.response], for the concrete runs only. *)
Definition run_response (fc ra rq : Z) (rd : list Z)
    (vals : option (list Z)) (signed : bool) : list byte :=
  [pack_B fc; pack_B rq].

(** A new server bound with [max_connections = n]. *)
Definition run_bound (n : Z) : World :=
  Tcp.bind None 502 n
    (mkWorld TCPServer_init (fun _ => new_socket) 0%nat true 0%float).

(** A client has connected to socket 0 and sent [frame]. *)
Definition client_sends (frame : list byte) : Env :=
  mkEnv true 1%float
    (fun socks r =>
       if Nat.eqb r 0%nat
       then mkSocket true false false (bound (socks r)) false None
                     [RecvData frame] []
       else socks r).

Definition link_down_at (now : float) : Env := mkEnv false now (fun socks => socks).

Definition link_up_at (now : float) : Env := mkEnv true now (fun socks => socks).

(** ReadInputRegisters(0x0400, 2) for unit 0xff, transaction 7. *)
Definition frame_read : list byte :=
  [x00; x07; x00; x00; x00; x06; xff; x04; x04; x00; x00; x02].

(** The same frame with protocol id 1. *)
Definition frame_protocol_1 : list byte :=
  [x00; x07; x00; x01; x00; x06; xff; x04; x04; x00; x00; x02].

(** The same frame with the unsupported function code 0x63. *)
Definition frame_function_63 : list byte :=
  [x00; x07; x00; x00; x00; x06; xff; x63; x04; x00; x00; x02].

Definition run_received (frame : list byte) : World :=
  apply_env (client_sends frame) (run_bound 2).


(** The only slot was polled with the link up when the clock read
    [stamp]; now the clock reads [now] and the link is down. *)
Definition run_link_down_since (stamp now : float) : World :=
  apply_env (link_down_at now)
    (fst (get_request run_Request_init None 0
            (apply_env (link_up_at stamp) (run_bound 1)))).

End TcpRunStates.

(** * Further definitions *)

(** ** iriv_ioc_hal.py: the pins of the counter channels *)

Section HalPins.
Import Hal.

(** The digital input object of a counter channel. *)
Definition pin_of (channel : Z) (h : State) : option Pin :=
  if channel =? 1 then Some (din1 h)
  else if channel =? 3 then Some (din3 h)
  else if channel =? 5 then Some (din5 h)
  else if channel =? 7 then Some (din7 h)
  else if channel =? 9 then Some (din9 h)
  else None.

(** A channel has either its counter or its digital input: the pin
    object is released exactly while the counter exists. *)
Definition hal_consistent (h : State) : Prop :=
  forall c, counter_channel c ->
    (counter_of c h = None <-> pin_of c h = Some PinInput).

End HalPins.

(** ** iriv_ioc_modbus.py: the hooks as sequences of blocks *)

Section HookBlocks.
Import IocModbus.

(** The channels in the order the hooks go through them. *)
Definition counter_channels : list Z := [1; 3; 5; 7; 9].

(** Statements run one after the other. *)
Fixpoint run_blocks (blocks : list (M World unit)) : M World unit :=
  match blocks with
  | [] => ret tt
  | b :: bs => b >>> run_blocks bs
  end.

(** The block of [counter_rst_set_cb] for a channel. *)
Definition rst_block_of (c : Z) : M World unit :=
  counter_rst_block (rst_add c) c (h_add c).

(** What a channel shows of the state: its reset coil, its value
    registers and its counter object. *)
Definition channel_view (c : Z) (w : World)
  : option Z * option (list Z) * option Hal.Counter :=
  (COILS (client w) !! rst_add c, IREGS (client w) !! h_add c,
   Hal.counter_of c (hal w)).

End HookBlocks.

(** ** iriv_ioc_modbus.py: [din_get_cb] *)

Module IocDin.
Import IocModbus.

Definition DI0_ADD : Z := 0x0000.
Definition DI1_ADD : Z := 0x0001.
Definition DI2_ADD : Z := 0x0002.
Definition DI3_ADD : Z := 0x0003.
Definition DI4_ADD : Z := 0x0004.
Definition DI5_ADD : Z := 0x0005.
Definition DI6_ADD : Z := 0x0006.
Definition DI7_ADD : Z := 0x0007.
Definition DI8_ADD : Z := 0x0008.
Definition DI9_ADD : Z := 0x0009.
Definition DI10_ADD : Z := 0x000a.

(** The state [din_get_cb] runs in: the state of the counter hooks,
    the discrete input space of the table (modelled from the spec as
    the coils are: one bit per entry, keyed by address) and the level
    the hardware presents on each digital input. *)
Record DinWorld : Type := mkDinWorld {
  base : World;
  ISTS : gmap Z Z;
  level : Z -> bool
}.

(** A call of the counter hooks' state inside the larger state. *)
Definition lift {A} (m : M World A) : M DinWorld A :=
  fun d => let (w, o) := m (base d) in (mkDinWorld w (ISTS d) (level d), o).

(** Modelled from the spec: [client.set_ist(address, value)] stores the
    bit. *)
Definition set_ist (address value : Z) : M DinWorld unit :=
  modify (fun d => mkDinWorld (base d) (<[address := value]> (ISTS d))
                              (level d)).

(** [Hal.dinN.value] for a pin without counter function: the pin
    object is never released. *)
Definition din_value (n : Z) : M DinWorld Z :=
  fun d => (d, Ret (Z.b2z (level d n))).

(** [Hal.dinN.value] for a pin with counter function: reading a pin
    object released by [deinit()] raises. *)
Definition din_counter_value (n : Z) : M DinWorld Z :=
  fun d => match pin_of n (hal (base d)) with
           | Some Hal.PinInput => (d, Ret (Z.b2z (level d n)))
           | _ => (d, Raise OtherError)
           end.

(** One of the six statements for a pin without counter function. *)
Definition din_plain (n address : Z) : M DinWorld unit :=
  let* v := din_value n in set_ist address v.

(** One of the five [if]/[else] statements for a pin with counter
    function. *)
Definition din_counter_block (en_add n address : Z) : M DinWorld unit :=
  let* en := lift (get_coil en_add) in
  if en =? 0 then
    let* v := din_counter_value n in set_ist address v
  else set_ist address 0.

(** Call back when reading DIN. *)
Definition din_get_cb (reg_type : string) (address : Z) (val : list Z)
  : M DinWorld unit :=
  din_plain 0 DI0_ADD >>>
  din_plain 2 DI2_ADD >>>
  din_plain 4 DI4_ADD >>>
  din_plain 6 DI6_ADD >>>
  din_plain 8 DI8_ADD >>>
  din_plain 10 DI10_ADD >>>
  din_counter_block COUNT1_EN_ADD 1 DI1_ADD >>>
  din_counter_block COUNT3_EN_ADD 3 DI3_ADD >>>
  din_counter_block COUNT5_EN_ADD 5 DI5_ADD >>>
  din_counter_block COUNT7_EN_ADD 7 DI7_ADD >>>
  din_counter_block COUNT9_EN_ADD 9 DI9_ADD.

(** The discrete input address of pin [n]. *)
Definition di_add (n : Z) : Z := n.

(** The bit [din_get_cb] stores for a pin with counter function. *)
Definition din_counter_bit (d : DinWorld) (c : Z) : option Z :=
  match COILS (client (base d)) !! en_add c with
  | Some en => Some (if en =? 0 then Z.b2z (level d c) else 0)
  | None => None
  end.

(** No statement of [din_get_cb] reads a released pin object. *)
Definition din_pins_readable (d : DinWorld) : Prop :=
  forall c, Hal.counter_channel c ->
    COILS (client (base d)) !! en_add c = Some 0 ->
    pin_of c (hal (base d)) = Some Hal.PinInput.

End IocDin.

(** ** A state for the reset hook *)

Section RunStatesReset.
Import IocModbus.

(** Counter 1 enabled and at 70000 counts, counters 3 and 5 disabled,
    and the reset coils of channels 1, 3 and 5 written to 1. *)
Definition run_reset_disabled : World :=
  mkWorld (hal run_counting)
    (mkRegisters
       (<[COUNT5_RST_ADD := 1]>
          (<[COUNT3_RST_ADD := 1]>
             (<[COUNT1_RST_ADD := 1]> (COILS (client run_counting)))))
       (IREGS (client run_counting))).

End RunStatesReset.

(** ** A state for the digital input hook *)

Section RunStatesDin.
Import IocModbus IocDin.

(** The discrete inputs of [register_definitions]. *)
Definition ists_definitions : gmap Z Z :=
  list_to_map
    [ (DI0_ADD, 0); (DI1_ADD, 0); (DI2_ADD, 0); (DI3_ADD, 0); (DI4_ADD, 0);
      (DI5_ADD, 0); (DI6_ADD, 0); (DI7_ADD, 0); (DI8_ADD, 0); (DI9_ADD, 0);
      (DI10_ADD, 0) ].

(** Counter 1 enabled, and inputs 1, 2 and 3 high. *)
Definition run_din : DinWorld :=
  mkDinWorld run_counting ists_definitions
             (fun n => (n =? 1) || (n =? 2) || (n =? 3)).

End RunStatesDin.

(** ** umodbus/tcp.py: the bound status *)

Section TcpBound.
Import Tcp.

(** [TCPServer.get_is_bound], and the [is_bound] property, which has
    the same body. *)
Definition get_is_bound (w : World) : bool := _is_bound (server w).

(** [ModbusTCP.get_bound_status]: [get_is_bound] of the interface
    inside a [try]; the call reads an attribute that [__init__] has
    set and does not raise, so the [except] branch is never taken. *)
Definition get_bound_status (w : World) : bool := get_is_bound w.

(** Every slot of the socket list holds a socket object, none holds
    [None]. *)
Definition slots_hold_sockets (w : World) : Prop :=
  forall i cur, _socklist (server w) !! i = Some cur -> is_Some cur.

End TcpBound.

(** ** More frames *)

Section TcpFrames.
Import Tcp.

(** Four bytes: less than a header. *)
Definition frame_short : list byte := [x00; x07; x00; x00].

(** A header with length field 0 and nothing after it. *)
Definition frame_no_unit : list byte := [x00; x07; x00; x00; x00; x00].

End TcpFrames.

(** * umodbus/tcp.py : class TCP *)

(** The client side.  The constructor is not embedded: it stores the
    socket, sets [trans_id_ctr] to 0 and then calls
    [socket.getaddrinfo], a name the module does not import; the
    methods are embedded on an object in any state. *)

Module TcpClient.
Import Tcp.

(** Modelled from the spec: [Const.ERROR_BIAS] ([umodbus/const.py] is
    not among the sources); the function code of an exception PDU is
    the request's function code with bit 0x80 set. *)
Definition ERROR_BIAS : Z := 0x80.

(** What the methods raise: the four [ValueError]s of
    [_validate_resp_hdr], the error of [struct.unpack] on a buffer
    that has not the size of the format, the [IndexError] of
    [modbus_pdu[0]] and what [recv] raises. *)
Inductive ClientError : Type :=
  | WrongTransactionID
  | InvalidProtocolID
  | WrongSlaveID
  | SlaveException (rec_fc : Z)
  | StructError
  | PduIndexError
  | RecvError.

Inductive Result (A : Type) : Type :=
  | Ok (a : A)
  | Err (e : ClientError).
Arguments Ok {A} a.
Arguments Err {A} e.

(** The object: its socket, of which [send] and [recv] are used, and
    the transaction counter. *)
Record TCP : Type := mkTCP {
  _sock : Socket;
  trans_id_ctr : Z
}.

(** [struct.unpack('>HHHBB', b)]: needs exactly eight bytes, raises
    otherwise. *)
Definition unpack_HHHBB (b : list byte) : option (Z * Z * Z * Z * Z) :=
  match b with
  | [b0; b1; b2; b3; b4; b5; b6; b7] =>
      Some (unpack_H b0 b1, unpack_H b2 b3, unpack_H b4 b5,
            byte_to_Z b6, byte_to_Z b7)
  | _ => None
  end.

(** Create a Modbus header.  [struct.pack] as in [TCPServer._send]:
    each value gives the low bits its format has room for. *)
Definition _create_mbap_hdr (slave_addr : Z) (modbus_pdu : list byte)
    (self : TCP) : TCP * (list byte * Z) :=
  let trans_id := trans_id_ctr self in
  let self := mkTCP (_sock self) (trans_id_ctr self + 1) in
  let mbap_hdr := pack_H trans_id ++ pack_H 0
                  ++ pack_H (Z.of_nat (length modbus_pdu) + 1)
                  ++ [pack_B slave_addr] in
  (self, (mbap_hdr, trans_id)).

(** Validate the response header. *)
Definition _validate_resp_hdr (response : list byte)
    (trans_id slave_addr function_code : Z) (count : bool)
  : Result (list byte) :=
  match unpack_HHHBB (take (MBAP_HDR_LENGTH + 1) response) with
  | None => Err StructError
  | Some (rec_tid, rec_pid, rec_len, rec_uid, rec_fc) =>
      if negb (trans_id =? rec_tid) then Err WrongTransactionID
      else if negb (rec_pid =? 0) then Err InvalidProtocolID
      else if negb (slave_addr =? rec_uid) then Err WrongSlaveID
      else if rec_fc =? function_code + ERROR_BIAS
      then Err (SlaveException rec_fc)
      else
        let hdr_length := if count then (MBAP_HDR_LENGTH + 2)%nat
                          else (MBAP_HDR_LENGTH + 1)%nat in
        Ok (drop hdr_length response)
  end.

(** Send a modbus message and receive the response. *)
Definition _send_receive (slave_addr : Z) (modbus_pdu : list byte)
    (count : bool) (self : TCP) : TCP * Result (list byte) :=
  let '(self, (mbap_hdr, trans_id)) :=
    _create_mbap_hdr slave_addr modbus_pdu self in
  let self := mkTCP (sock_send (mbap_hdr ++ modbus_pdu) (_sock self))
                    (trans_id_ctr self) in
  let (s', got) := sock_recv 256 (_sock self) in
  let self := mkTCP s' (trans_id_ctr self) in
  match got with
  | None => (self, Err RecvError)
  | Some response =>
      match modbus_pdu with
      | [] => (self, Err PduIndexError)
      | function_code :: _ =>
          (self, _validate_resp_hdr response trans_id slave_addr
                   (byte_to_Z function_code) count)
      end
  end.

(** ** Vocabulary of the properties *)

(** The values [struct.pack] takes as they are. *)
Definition fits_H (z : Z) : Prop := 0 <= z < 2 ^ 16.
Definition fits_B (z : Z) : Prop := 0 <= z < 2 ^ 8.

End TcpClient.

(** ** States of the client for the examples *)

Section TcpClientRunStates.
Import Tcp TcpClient.

(** The PDU of ReadInputRegisters(0x0400, 2). *)
Definition pdu_read : list byte := [x04; x04; x00; x00; x02].

(** The same with the unsupported function code 0x63. *)
Definition pdu_function_63 : list byte := [x63; x04; x00; x00; x02].

(** The response PDU to [pdu_read]: four bytes, the words 0 and 2. *)
Definition pdu_read_response : list byte := [x04; x04; x00; x00; x00; x02].

(** A client at transaction 7 whose peer answers with [answer]. *)
Definition run_client (answer : list byte) : TCP :=
  mkTCP (mkSocket true false false None false (Some 5) [RecvData answer] [])
        7.

(** A server that has received [frame_read] on socket 0. *)
Definition run_server_received : World :=
  fst (get_request run_Request_init (Some [255]) 0 (run_received frame_read)).

End TcpClientRunStates.

(** * Verified properties *)

(** ** The monad *)

Lemma bind_Ret_inv {S A B} (m : M S A) (k : A -> M S B) (s s' : S) (b : B) :
  bindM m k s = (s', Ret b) ->
  exists s1 a, m s = (s1, Ret a) /\ k a s1 = (s', Ret b).
Proof.
  unfold bindM. destruct (m s) as [s1 [a|e]]; intros H; [eauto | discriminate].
Qed.

Lemma bind_Ret {S A B} (m : M S A) (k : A -> M S B) (s s1 : S) (a : A) :
  m s = (s1, Ret a) -> bindM m k s = k a s1.
Proof. unfold bindM. intros ->. reflexivity. Qed.

Lemma pair_with_snd {A B} (p : A * B) (b : B) : snd p = b -> p = (fst p, b).
Proof. destruct p. cbn. intros ->. reflexivity. Qed.

(** ** iriv_ioc_hal.py: enabling and disabling counters *)

Section HalFacts.
Import Hal.

Ltac channel_cases c :=
  destruct (Z.eqb_spec c 1); [subst c|];
  [|destruct (Z.eqb_spec c 3); [subst c|]];
  [| |destruct (Z.eqb_spec c 5); [subst c|]];
  [| | |destruct (Z.eqb_spec c 7); [subst c|]];
  [| | | |destruct (Z.eqb_spec c 9); [subst c|]].

Ltac split_counters :=
  repeat match goal with
         | |- context [is_None ?x] =>
             destruct x eqn:?; cbn [is_None andb negb]
         end.

Lemma counter_of_None_outside (c : Z) (h : State) :
  ~ counter_channel c -> counter_of c h = None.
Proof.
  intros Hc. unfold counter_of, counter_channel in *.
  channel_cases c; try (exfalso; lia). reflexivity.
Qed.

Lemma en_counter_true_iff (c : Z) (h : State) :
  snd (en_counter c h) = true <-> counter_channel c /\ counter_of c h = None.
Proof.
  unfold en_counter, counter_of, counter_channel.
  channel_cases c; cbn; split_counters; cbn;
    intuition (try congruence; try lia).
Qed.

Lemma dis_counter_true_iff (c : Z) (h : State) :
  snd (dis_counter c h) = true <-> counter_channel c /\ counter_of c h <> None.
Proof.
  unfold dis_counter, counter_of, counter_channel.
  channel_cases c; cbn; split_counters; cbn;
    intuition (try congruence; try lia).
Qed.

Lemma en_counter_false_same (c : Z) (h : State) :
  snd (en_counter c h) = false -> fst (en_counter c h) = h.
Proof.
  unfold en_counter.
  channel_cases c; cbn; split_counters; cbn; congruence.
Qed.

Lemma dis_counter_false_same (c : Z) (h : State) :
  snd (dis_counter c h) = false -> fst (dis_counter c h) = h.
Proof.
  unfold dis_counter.
  channel_cases c; cbn; split_counters; cbn; congruence.
Qed.

Lemma en_counter_true_counter (c : Z) (h : State) :
  snd (en_counter c h) = true ->
  counter_of c (fst (en_counter c h)) = Some new_counter.
Proof.
  unfold en_counter, counter_of.
  channel_cases c; cbn; split_counters; cbn; congruence.
Qed.

Lemma dis_counter_true_counter (c : Z) (h : State) :
  snd (dis_counter c h) = true ->
  counter_of c (fst (dis_counter c h)) = None.
Proof.
  unfold dis_counter, counter_of.
  channel_cases c; cbn; split_counters; cbn; congruence.
Qed.

Lemma en_counter_other (c c' : Z) (h : State) :
  c' <> c -> counter_of c' (fst (en_counter c h)) = counter_of c' h.
Proof.
  intros Hne. unfold en_counter, counter_of.
  channel_cases c; cbn; split_counters; cbn; try reflexivity;
    channel_cases c'; cbn; congruence.
Qed.

Lemma dis_counter_other (c c' : Z) (h : State) :
  c' <> c -> counter_of c' (fst (dis_counter c h)) = counter_of c' h.
Proof.
  intros Hne. unfold dis_counter, counter_of.
  channel_cases c; cbn; split_counters; cbn; try reflexivity;
    channel_cases c'; cbn; congruence.
Qed.

Lemma en_counter_is_Some (c : Z) (h : State) :
  counter_channel c -> is_Some (counter_of c (fst (en_counter c h))).
Proof.
  intros Hc. destruct (snd (en_counter c h)) eqn:E.
  - rewrite en_counter_true_counter by exact E. eauto.
  - rewrite en_counter_false_same by exact E.
    destruct (counter_of c h) eqn:Hh; [eauto|].
    assert (snd (en_counter c h) = true) by (apply en_counter_true_iff; auto).
    congruence.
Qed.

(** C9: [en_counter(c)] returns True exactly when [c] is one of
    1, 3, 5, 7, 9 and that channel's counter object is [None], and a
    call that returns False leaves the whole HAL state as it was;
    [dis_counter(c)] returns True exactly when [c] is one of those
    channels and its counter object is not [None], and likewise
    changes nothing when it returns False; so a second consecutive
    [en_counter(c)] (or [dis_counter(c)]) returns False. *)
Theorem en_dis_counter_return_value (c : Z) (h : State) :
  (snd (en_counter c h) = true <->
     counter_channel c /\ counter_of c h = None)
  /\ (snd (en_counter c h) = false -> fst (en_counter c h) = h)
  /\ (snd (dis_counter c h) = true <->
        counter_channel c /\ counter_of c h <> None)
  /\ (snd (dis_counter c h) = false -> fst (dis_counter c h) = h)
  /\ snd (en_counter c (fst (en_counter c h))) = false
  /\ snd (dis_counter c (fst (dis_counter c h))) = false.
Proof.
  split; [apply en_counter_true_iff|].
  split; [apply en_counter_false_same|].
  split; [apply dis_counter_true_iff|].
  split; [apply dis_counter_false_same|].
  split.
  - destruct (snd (en_counter c (fst (en_counter c h)))) eqn:E2; [|reflexivity].
    apply en_counter_true_iff in E2 as [Hc Hnone].
    destruct (snd (en_counter c h)) eqn:E1.
    + rewrite en_counter_true_counter in Hnone by exact E1. discriminate.
    + rewrite en_counter_false_same in Hnone by exact E1.
      assert (snd (en_counter c h) = true)
        by (apply en_counter_true_iff; auto).
      congruence.
  - destruct (snd (dis_counter c (fst (dis_counter c h)))) eqn:E2; [|reflexivity].
    apply dis_counter_true_iff in E2 as [Hc Hsome].
    destruct (snd (dis_counter c h)) eqn:E1.
    + rewrite dis_counter_true_counter in Hsome by exact E1. congruence.
    + rewrite dis_counter_false_same in Hsome by exact E1.
      assert (snd (dis_counter c h) = true)
        by (apply dis_counter_true_iff; auto).
      congruence.
Qed.

End HalFacts.

(** ** iriv_ioc_modbus.py: the counter hooks *)

Section IocFacts.
Import IocModbus.

Lemma get_coil_Some (a v : Z) (w : World) :
  COILS (client w) !! a = Some v -> get_coil a w = (w, Ret v).
Proof. unfold get_coil. intros ->. reflexivity. Qed.

Lemma stored_pair_not_standard (count : Z) :
  2 ^ 16 <= count -> stored_pair count <> standard_split count.
Proof.
  intros Hge Heq. unfold stored_pair, standard_split in Heq.
  injection Heq as Heq.
  rewrite !Z.shiftr_div_pow2 in Heq by lia.
  change (2 ^ 16) with (2 ^ 8 * 2 ^ 8) in Heq.
  rewrite <- Z.div_div in Heq by lia.
  assert (Hq : 2 ^ 8 <= count / 2 ^ 8).
  { apply Z.div_le_lower_bound; lia. }
  pose proof (Z.div_lt (count / 2 ^ 8) (2 ^ 8)) as Hlt.
  lia.
Qed.

(** *** [counter_get_cb] *)

Lemma counter_get_block_spec (ea c ha v : Z) (w : World) :
  COILS (client w) !! ea = Some v ->
  (v = 1 -> is_Some (Hal.counter_of c (hal w))) ->
  exists w', counter_get_block ea c ha w = (w', Ret tt)
    /\ hal w' = hal w
    /\ COILS (client w') = COILS (client w)
    /\ IREGS (client w') =
         get_block_iregs v (Hal.counter_of c (hal w)) ha (IREGS (client w)).
Proof.
  intros Hv Hcnt. unfold counter_get_block, get_block_iregs.
  rewrite (bind_Ret _ _ _ _ _ (get_coil_Some _ _ _ Hv)).
  destruct (Z.eqb_spec v 1) as [->|Hne]; cbn [when].
  - destruct (Hcnt eq_refl) as [k Hk].
    unfold bindM, Hal_counter. rewrite Hk. eexists. repeat split.
  - eexists. repeat split.
Qed.

Lemma get_block_iregs_other (v : Z) (cnt : option Hal.Counter) (ha a : Z)
    (m : gmap Z (list Z)) :
  a <> ha -> get_block_iregs v cnt ha m !! a = m !! a.
Proof.
  intros Hne. unfold get_block_iregs.
  destruct (v =? 1), cnt; try reflexivity.
  apply lookup_insert_ne. congruence.
Qed.

Lemma get_block_iregs_same (k : Hal.Counter) (ha : Z) (m : gmap Z (list Z)) :
  get_block_iregs 1 (Some k) ha m !! ha = Some (stored_pair (Hal.count k)).
Proof. unfold get_block_iregs. cbn. apply lookup_insert_eq. Qed.

Ltac channel_split H :=
  destruct H as [->|[->|[->|[->| ->]]]].

Lemma channel_1 : Hal.counter_channel 1. Proof. unfold Hal.counter_channel. lia. Qed.
Lemma channel_3 : Hal.counter_channel 3. Proof. unfold Hal.counter_channel. lia. Qed.
Lemma channel_5 : Hal.counter_channel 5. Proof. unfold Hal.counter_channel. lia. Qed.
Lemma channel_7 : Hal.counter_channel 7. Proof. unfold Hal.counter_channel. lia. Qed.
Lemma channel_9 : Hal.counter_channel 9. Proof. unfold Hal.counter_channel. lia. Qed.

(** The hook completes when the enabled channels have their counter
    objects; it changes neither the HAL nor the coils, stores the
    pair of every enabled channel and leaves every other input
    register entry alone. *)
Lemma counter_get_cb_spec (reg_type : string) (address : Z) (val : list Z)
    (w : World) :
  en_coils_defined w -> enabled_counters_present w ->
  exists w', counter_get_cb reg_type address val w = (w', Ret tt)
    /\ hal w' = hal w
    /\ COILS (client w') = COILS (client w)
    /\ (forall c k, Hal.counter_channel c ->
          COILS (client w) !! en_add c = Some 1 ->
          Hal.counter_of c (hal w) = Some k ->
          IREGS (client w') !! h_add c = Some (stored_pair (Hal.count k)))
    /\ (forall c, Hal.counter_channel c ->
          COILS (client w) !! en_add c <> Some 1 ->
          IREGS (client w') !! h_add c = IREGS (client w) !! h_add c)
    /\ (forall a, (forall c, Hal.counter_channel c -> a <> h_add c) ->
          IREGS (client w') !! a = IREGS (client w) !! a).
Proof.
  intros Hdef Hpres. unfold counter_get_cb.
  destruct (Hdef 1 channel_1) as [v1 Hv1].
  destruct (Hdef 3 channel_3) as [v3 Hv3].
  destruct (Hdef 5 channel_5) as [v5 Hv5].
  destruct (Hdef 7 channel_7) as [v7 Hv7].
  destruct (Hdef 9 channel_9) as [v9 Hv9].
  pose proof (Hpres 1 channel_1) as P1.
  pose proof (Hpres 3 channel_3) as P3.
  pose proof (Hpres 5 channel_5) as P5.
  pose proof (Hpres 7 channel_7) as P7.
  pose proof (Hpres 9 channel_9) as P9.
  cbn [en_add Z.eqb Pos.eqb] in *.
  destruct (counter_get_block_spec COUNT1_EN_ADD 1 COUNT1_H_ADD v1 w Hv1)
    as (w1 & E1 & Hh1 & Hc1 & Hi1); [intros ->; auto|].
  destruct (counter_get_block_spec COUNT3_EN_ADD 3 COUNT3_H_ADD v3 w1)
    as (w2 & E2 & Hh2 & Hc2 & Hi2);
    [congruence | rewrite Hh1; intros ->; auto |].
  destruct (counter_get_block_spec COUNT5_EN_ADD 5 COUNT5_H_ADD v5 w2)
    as (w3 & E3 & Hh3 & Hc3 & Hi3);
    [congruence | rewrite Hh2, Hh1; intros ->; auto |].
  destruct (counter_get_block_spec COUNT7_EN_ADD 7 COUNT7_H_ADD v7 w3)
    as (w4 & E4 & Hh4 & Hc4 & Hi4);
    [congruence | rewrite Hh3, Hh2, Hh1; intros ->; auto |].
  destruct (counter_get_block_spec COUNT9_EN_ADD 9 COUNT9_H_ADD v9 w4)
    as (w5 & E5 & Hh5 & Hc5 & Hi5);
    [congruence | rewrite Hh4, Hh3, Hh2, Hh1; intros ->; auto |].
  exists w5.
  rewrite (bind_Ret _ _ _ _ _ E1), (bind_Ret _ _ _ _ _ E2),
          (bind_Ret _ _ _ _ _ E3), (bind_Ret _ _ _ _ _ E4).
  split; [exact E5|].
  split; [congruence|].
  split; [congruence|].
  rewrite Hi5, Hi4, Hi3, Hi2, Hi1, Hh4, Hh3, Hh2, Hh1.
  split; [|split].
  - intros c k Hc Hen Hk.
    channel_split Hc; cbn [en_add h_add Z.eqb Pos.eqb] in *;
      rewrite ?Hk;
      repeat first
        [ rewrite get_block_iregs_other by (vm_compute; congruence)
        | match goal with
          | Hv : COILS _ !! ?a = Some ?v, Hen : COILS _ !! ?a = Some 1 |- _ =>
              assert (v = 1) by congruence; subst v; clear Hen
          end ];
      apply get_block_iregs_same.
  - intros c Hc Hen.
    channel_split Hc; cbn [en_add h_add Z.eqb Pos.eqb] in *;
      repeat rewrite get_block_iregs_other by (vm_compute; congruence);
      try reflexivity;
      unfold get_block_iregs at 1;
      match goal with
      | |- context [?v =? 1] =>
          destruct (Z.eqb_spec v 1); [exfalso; congruence|]
      end;
      repeat rewrite get_block_iregs_other by (vm_compute; congruence);
      reflexivity.
  - intros a Ha.
    pose proof (Ha 1 channel_1). pose proof (Ha 3 channel_3).
    pose proof (Ha 5 channel_5). pose proof (Ha 7 channel_7).
    pose proof (Ha 9 channel_9).
    cbn [h_add Z.eqb Pos.eqb] in *.
    rewrite !get_block_iregs_other by assumption. reflexivity.
Qed.

(** C1: for every counter channel whose enable coil is 1, the read
    hook [counter_get_cb] stores [count >> 8, count & 0xffff] in the
    channel's value registers (the high word is the count shifted
    right by 8, not by 16); whenever [count >= 2^16] the stored pair
    differs from the standard split [count >> 16, count & 0xffff]. *)
Theorem counter_get_cb_high_word_shift (reg_type : string) (address : Z)
    (val : list Z) (w : World) :
  en_coils_defined w -> enabled_counters_present w ->
  exists w', counter_get_cb reg_type address val w = (w', Ret tt)
    /\ forall c k, Hal.counter_channel c ->
         COILS (client w) !! en_add c = Some 1 ->
         Hal.counter_of c (hal w) = Some k ->
         IREGS (client w') !! h_add c
           = Some [Z.shiftr (Hal.count k) 8; Z.land (Hal.count k) 0xffff]
         /\ (2 ^ 16 <= Hal.count k ->
             IREGS (client w') !! h_add c
               <> Some [Z.shiftr (Hal.count k) 16;
                        Z.land (Hal.count k) 0xffff]).
Proof.
  intros Hdef Hpres.
  destruct (counter_get_cb_spec reg_type address val w Hdef Hpres)
    as (w' & E & _ & _ & Hst & _).
  exists w'. split; [exact E|].
  intros c k Hc Hen Hk. specialize (Hst c k Hc Hen Hk).
  split; [exact Hst|].
  intros Hge. rewrite Hst. intros Heq.
  apply (stored_pair_not_standard _ Hge).
  unfold standard_split. congruence.
Qed.

(** *** [counter_en_set_cb] *)

Lemma counter_en_block_spec (ea c ha v : Z) (w : World) :
  COILS (client w) !! ea = Some v ->
  exists w', counter_en_block ea c ha w = (w', Ret tt)
    /\ hal w' = en_block_hal v c (hal w)
    /\ COILS (client w') = COILS (client w)
    /\ IREGS (client w') = en_block_iregs v c (hal w) ha (IREGS (client w)).
Proof.
  intros Hv. unfold counter_en_block, en_block_hal, en_block_iregs.
  rewrite (bind_Ret _ _ _ _ _ (get_coil_Some _ _ _ Hv)).
  destruct (v =? 1); unfold bindM, Hal_en_counter, Hal_dis_counter.
  - destruct (Hal.en_counter c (hal w)) as [h [|]]; cbn;
      eexists; repeat split.
  - destruct (Hal.dis_counter c (hal w)) as [h r]; cbn.
    eexists; repeat split.
Qed.

Lemma en_block_hal_other (v c c' : Z) (h : Hal.State) :
  c' <> c -> Hal.counter_of c' (en_block_hal v c h) = Hal.counter_of c' h.
Proof.
  intros Hne. unfold en_block_hal.
  destruct (v =? 1); [apply en_counter_other | apply dis_counter_other];
    exact Hne.
Qed.

Lemma en_block_hal_enabled (c : Z) (h : Hal.State) :
  Hal.counter_channel c -> is_Some (Hal.counter_of c (en_block_hal 1 c h)).
Proof. intros Hc. unfold en_block_hal. cbn. apply en_counter_is_Some, Hc. Qed.

Lemma en_block_hal_fresh (c : Z) (h : Hal.State) :
  Hal.counter_channel c -> Hal.counter_of c h = None ->
  Hal.counter_of c (en_block_hal 1 c h) = Some Hal.new_counter
  /\ snd (Hal.en_counter c h) = true.
Proof.
  intros Hc Hn.
  assert (E : snd (Hal.en_counter c h) = true)
    by (apply en_counter_true_iff; auto).
  split; [|exact E]. unfold en_block_hal. cbn.
  apply en_counter_true_counter, E.
Qed.

Lemma en_block_iregs_other (v c : Z) (h : Hal.State) (ha a : Z)
    (m : gmap Z (list Z)) :
  a <> ha -> en_block_iregs v c h ha m !! a = m !! a.
Proof.
  intros Hne. unfold en_block_iregs.
  destruct ((v =? 1) && snd (Hal.en_counter c h)); [|reflexivity].
  apply lookup_insert_ne. congruence.
Qed.

Lemma en_block_iregs_fresh (c : Z) (h : Hal.State) (ha : Z)
    (m : gmap Z (list Z)) :
  snd (Hal.en_counter c h) = true ->
  en_block_iregs 1 c h ha m !! ha = Some [0; 0].
Proof.
  intros E. unfold en_block_iregs. rewrite E. cbn. apply lookup_insert_eq.
Qed.

(** The enable hook always completes on a table that has the enable
    coils; afterwards every channel whose coil is 1 has a counter
    object, and a channel enabled from the disabled state has a new
    counter and cleared value registers. *)
Lemma counter_en_set_cb_spec (reg_type : string) (address : Z) (val : list Z)
    (w : World) :
  en_coils_defined w ->
  exists w', counter_en_set_cb reg_type address val w = (w', Ret tt)
    /\ COILS (client w') = COILS (client w)
    /\ (forall c, Hal.counter_channel c ->
          COILS (client w) !! en_add c = Some 1 ->
          is_Some (Hal.counter_of c (hal w')))
    /\ (forall c, Hal.counter_channel c ->
          COILS (client w) !! en_add c = Some 1 ->
          Hal.counter_of c (hal w) = None ->
          Hal.counter_of c (hal w') = Some Hal.new_counter
          /\ IREGS (client w') !! h_add c = Some [0; 0]).
Proof.
  intros Hdef. unfold counter_en_set_cb.
  destruct (Hdef 1 channel_1) as [v1 Hv1].
  destruct (Hdef 3 channel_3) as [v3 Hv3].
  destruct (Hdef 5 channel_5) as [v5 Hv5].
  destruct (Hdef 7 channel_7) as [v7 Hv7].
  destruct (Hdef 9 channel_9) as [v9 Hv9].
  cbn [en_add Z.eqb Pos.eqb] in *.
  destruct (counter_en_block_spec COUNT1_EN_ADD 1 COUNT1_H_ADD v1 w Hv1)
    as (w1 & E1 & Hh1 & Hc1 & Hi1).
  destruct (counter_en_block_spec COUNT3_EN_ADD 3 COUNT3_H_ADD v3 w1)
    as (w2 & E2 & Hh2 & Hc2 & Hi2); [congruence|].
  destruct (counter_en_block_spec COUNT5_EN_ADD 5 COUNT5_H_ADD v5 w2)
    as (w3 & E3 & Hh3 & Hc3 & Hi3); [congruence|].
  destruct (counter_en_block_spec COUNT7_EN_ADD 7 COUNT7_H_ADD v7 w3)
    as (w4 & E4 & Hh4 & Hc4 & Hi4); [congruence|].
  destruct (counter_en_block_spec COUNT9_EN_ADD 9 COUNT9_H_ADD v9 w4)
    as (w5 & E5 & Hh5 & Hc5 & Hi5); [congruence|].
  exists w5.
  rewrite (bind_Ret _ _ _ _ _ E1), (bind_Ret _ _ _ _ _ E2),
          (bind_Ret _ _ _ _ _ E3), (bind_Ret _ _ _ _ _ E4).
  split; [exact E5|].
  split; [congruence|].
  rewrite Hi5, Hi4, Hi3, Hi2, Hi1, Hh5, Hh4, Hh3, Hh2, Hh1.
  split.
  - intros c Hc Hen.
    pose proof Hc as Hc'.
    channel_split Hc; cbn [en_add Z.eqb Pos.eqb] in *;
      match goal with
      | Hv : COILS _ !! ?a = Some ?v, Hen : COILS _ !! ?a = Some 1 |- _ =>
          assert (v = 1) by congruence; subst v
      end;
      rewrite ?en_block_hal_other by lia;
      apply en_block_hal_enabled, Hc'.
  - intros c Hc Hen Hnone.
    pose proof Hc as Hc'.
    channel_split Hc; cbn [en_add h_add Z.eqb Pos.eqb] in *;
      match goal with
      | Hv : COILS _ !! ?a = Some ?v, Hen : COILS _ !! ?a = Some 1 |- _ =>
          assert (v = 1) by congruence; subst v
      end;
      rewrite ?en_block_hal_other by lia;
      rewrite ?en_block_iregs_other by (vm_compute; congruence);
      match goal with
      | |- Hal.counter_of ?c (en_block_hal 1 ?c ?h) = _ /\ _ =>
          assert (Hh : Hal.counter_of c h = None)
            by (rewrite ?en_block_hal_other by lia; exact Hnone);
          destruct (en_block_hal_fresh c h Hc' Hh) as [F1 F2];
          split; [exact F1 | apply en_block_iregs_fresh, F2]
      end.
Qed.

Lemma en_coils_defined_set_coil (a v : Z) (w w' : World) :
  set_coil a v w = (w', Ret tt) -> en_coils_defined w -> en_coils_defined w'.
Proof.
  unfold set_coil, modify. intros [= <-] Hdef c Hc. cbn.
  destruct (decide (a = en_add c)) as [->|Hne].
  - rewrite lookup_insert_eq. eauto.
  - rewrite lookup_insert_ne by exact Hne. apply Hdef, Hc.
Qed.

(** C7: writing 1 to coil COUNT1_EN (0x0300) while counter 1 is
    disabled ([Hal.count1] is [None]) makes the on-write hook enable
    counter 1 in the HAL and set the value registers at 0x0400..0x0401
    to [0, 0]; a ReadInputRegisters(address=0x0400, count=2) that
    follows returns [0, 0]. *)
Theorem enable_counter1_clears_value (w : World) :
  en_coils_defined w ->
  Hal.count1 (hal w) = None ->
  exists w1,
    write_single_coil COUNT1_EN_ADD 1 w = (w1, Ret (Values tt))
    /\ Hal.count1 (hal w1) = Some Hal.new_counter
    /\ IREGS (client w1) !! COUNT1_H_ADD = Some [0; 0]
    /\ exists w2,
         read_input_registers COUNT1_H_ADD 2 w1 = (w2, Ret (Values [0; 0])).
Proof.
  intros Hdef Hnone. unfold write_single_coil.
  destruct (Hdef 1 channel_1) as [v1 Hv1]. cbn [en_add Z.eqb Pos.eqb] in Hv1.
  rewrite Hv1. cbn [Z.eqb Pos.eqb orb].
  destruct (set_coil COUNT1_EN_ADD 1 w) as [w0 r0] eqn:E0.
  assert (r0 = Ret tt) by (unfold set_coil, modify in E0; congruence).
  subst r0.
  pose proof (en_coils_defined_set_coil _ _ _ _ E0 Hdef) as Hdef0.
  assert (Hen0 : COILS (client w0) !! en_add 1 = Some 1).
  { unfold set_coil, modify in E0. injection E0 as <-. cbn.
    apply lookup_insert_eq. }
  assert (Hh0 : hal w0 = hal w).
  { unfold set_coil, modify in E0. injection E0 as <-. reflexivity. }
  destruct (counter_en_set_cb_spec "COILS" COUNT1_EN_ADD [1] w0 Hdef0)
    as (w1 & E1 & Hc1 & Hsome & Hfresh).
  destruct (Hfresh 1 channel_1 Hen0) as [Hk1 Hi1].
  { rewrite Hh0. exact Hnone. }
  exists w1.
  rewrite (bind_Ret _ _ _ _ _ E0).
  change (coil_on_set_cb COUNT1_EN_ADD) with (Some counter_en_set_cb).
  rewrite (bind_Ret _ _ _ _ _ E1).
  split; [reflexivity|].
  split; [exact Hk1|].
  cbn [h_add Z.eqb Pos.eqb] in Hi1.
  split; [exact Hi1|].
  unfold read_input_registers. rewrite Hi1.
  cbn [length Z.of_nat Z.eqb Pos.of_succ_nat Pos.succ Pos.eqb].
  change (ireg_on_get_cb COUNT1_H_ADD) with (Some counter_get_cb).
  destruct (counter_get_cb_spec "IREGS" COUNT1_H_ADD [0; 0] w1)
    as (w2 & E2 & _ & _ & Hst & _).
  { intros c Hc. rewrite Hc1. apply Hdef0, Hc. }
  { intros c Hc Hen. apply Hsome; [exact Hc|]. rewrite <- Hc1. exact Hen. }
  exists w2. rewrite (bind_Ret _ _ _ _ _ E2).
  assert (Hst1 : IREGS (client w2) !! COUNT1_H_ADD
                 = Some (stored_pair (Hal.count Hal.new_counter))).
  { apply (Hst 1 Hal.new_counter channel_1); [|exact Hk1].
    rewrite Hc1. exact Hen0. }
  rewrite Hst1. reflexivity.
Qed.

(** *** [counter_rst_set_cb] *)

(** What one block does, case by case. *)
Lemma counter_rst_block_cases (ra c ha : Z) (w : World) :
  match COILS (client w) !! ra with
  | None => counter_rst_block ra c ha w = (w, Raise KeyError)
  | Some v =>
      if v =? 1 then
        match Hal.counter_of c (hal w) with
        | None => snd (counter_rst_block ra c ha w) = Raise AttributeError
        | Some k =>
            counter_rst_block ra c ha w =
              (mkWorld (Hal.set_counter c (Some (Hal.reset k)) (hal w))
                       (mkRegisters (<[ra := 0]> (COILS (client w)))
                                    (<[ha := [0; 0]]> (IREGS (client w)))),
               Ret tt)
        end
      else counter_rst_block ra c ha w = (w, Ret tt)
  end.
Proof.
  unfold counter_rst_block, get_coil, Hal_counter_reset, Hal_counter,
    set_coil, set_ireg, modify, bindM.
  destruct (COILS (client w) !! ra) as [v|]; [|reflexivity].
  destruct (v =? 1); cbn [when]; [|reflexivity].
  cbn. destruct (Hal.counter_of c (hal w)); reflexivity.
Qed.

Lemma counter_rst_block_inv (ra c ha : Z) (w w' : World) :
  counter_rst_block ra c ha w = (w', Ret tt) ->
  exists v, COILS (client w) !! ra = Some v
    /\ (v = 1 -> is_Some (Hal.counter_of c (hal w)))
    /\ hal w' = rst_block_hal v c (hal w)
    /\ COILS (client w') = rst_block_coils v ra (COILS (client w))
    /\ IREGS (client w') = rst_block_iregs v ha (IREGS (client w)).
Proof.
  intros E. pose proof (counter_rst_block_cases ra c ha w) as H.
  unfold rst_block_hal, rst_block_coils, rst_block_iregs.
  destruct (COILS (client w) !! ra) as [v|]; [|congruence].
  exists v. split; [reflexivity|].
  destruct (v =? 1) eqn:Ev.
  - destruct (Hal.counter_of c (hal w)) as [k|].
    + rewrite E in H. injection H as ->. cbn. repeat split. eauto.
    + rewrite E in H. discriminate.
  - rewrite E in H. injection H as ->. repeat split.
    intros ->. discriminate.
Qed.

Lemma counter_rst_block_spec (ra c ha v : Z) (w : World) :
  COILS (client w) !! ra = Some v ->
  (v = 1 -> is_Some (Hal.counter_of c (hal w))) ->
  exists w', counter_rst_block ra c ha w = (w', Ret tt).
Proof.
  intros Hv Hk. pose proof (counter_rst_block_cases ra c ha w) as H.
  rewrite Hv in H. destruct (Z.eqb_spec v 1) as [Heq|Hne]; [|eauto].
  destruct (Hk Heq) as [k Ek]. rewrite Ek in H. eauto.
Qed.

Lemma rst_block_coils_other (v ra a : Z) (m : gmap Z Z) :
  a <> ra -> rst_block_coils v ra m !! a = m !! a.
Proof.
  intros Hne. unfold rst_block_coils. destruct (v =? 1); [|reflexivity].
  apply lookup_insert_ne. congruence.
Qed.

Lemma rst_block_coils_same (v ra : Z) (m : gmap Z Z) :
  m !! ra = Some v -> v = 0 \/ v = 1 ->
  rst_block_coils v ra m !! ra = Some 0.
Proof.
  intros Hv [-> | ->]; unfold rst_block_coils; cbn.
  - exact Hv.
  - apply lookup_insert_eq.
Qed.

Lemma rst_block_iregs_other (v ha a : Z) (m : gmap Z (list Z)) :
  a <> ha -> rst_block_iregs v ha m !! a = m !! a.
Proof.
  intros Hne. unfold rst_block_iregs. destruct (v =? 1); [|reflexivity].
  apply lookup_insert_ne. congruence.
Qed.

Lemma rst_block_iregs_same (ha : Z) (m : gmap Z (list Z)) :
  rst_block_iregs 1 ha m !! ha = Some [0; 0].
Proof. unfold rst_block_iregs. cbn. apply lookup_insert_eq. Qed.

Lemma rst_block_hal_other (v c c' : Z) (h : Hal.State) :
  c' <> c -> Hal.counter_of c' (rst_block_hal v c h) = Hal.counter_of c' h.
Proof.
  intros Hne. unfold rst_block_hal.
  destruct (v =? 1), (Hal.counter_of c h); try reflexivity.
  unfold Hal.set_counter, Hal.counter_of.
  repeat match goal with
         | |- context [?x =? ?y] => destruct (Z.eqb_spec x y)
         end;
    subst; cbn; first [reflexivity | lia | congruence].
Qed.

(** The reset hook completes when every channel whose reset coil is
    1 has its counter object. *)
Lemma counter_rst_set_cb_completes (reg_type : string) (address : Z)
    (val : list Z) (w : World) :
  rst_coils_defined w -> reset_counters_present w ->
  exists w', counter_rst_set_cb reg_type address val w = (w', Ret tt).
Proof.
  intros Hdef Hpres. unfold counter_rst_set_cb.
  destruct (Hdef 1 channel_1) as [v1 Hv1].
  destruct (Hdef 3 channel_3) as [v3 Hv3].
  destruct (Hdef 5 channel_5) as [v5 Hv5].
  destruct (Hdef 7 channel_7) as [v7 Hv7].
  destruct (Hdef 9 channel_9) as [v9 Hv9].
  pose proof (Hpres 1 channel_1) as P1.
  pose proof (Hpres 3 channel_3) as P3.
  pose proof (Hpres 5 channel_5) as P5.
  pose proof (Hpres 7 channel_7) as P7.
  pose proof (Hpres 9 channel_9) as P9.
  cbn [rst_add Z.eqb Pos.eqb] in *.
  destruct (counter_rst_block_spec COUNT1_RST_ADD 1 COUNT1_H_ADD v1 w Hv1)
    as (w1 & E1); [intros ->; auto|].
  destruct (counter_rst_block_inv _ _ _ _ _ E1)
    as (u1 & Hu1 & _ & Hh1 & Hc1 & _).
  destruct (counter_rst_block_spec COUNT3_RST_ADD 3 COUNT3_H_ADD v3 w1)
    as (w2 & E2).
  { rewrite Hc1, rst_block_coils_other by (vm_compute; congruence).
    exact Hv3. }
  { rewrite Hh1, rst_block_hal_other by lia. intros ->; auto. }
  destruct (counter_rst_block_inv _ _ _ _ _ E2)
    as (u2 & Hu2 & _ & Hh2 & Hc2 & _).
  destruct (counter_rst_block_spec COUNT5_RST_ADD 5 COUNT5_H_ADD v5 w2)
    as (w3 & E3).
  { rewrite Hc2, Hc1, !rst_block_coils_other by (vm_compute; congruence).
    exact Hv5. }
  { rewrite Hh2, Hh1, !rst_block_hal_other by lia. intros ->; auto. }
  destruct (counter_rst_block_inv _ _ _ _ _ E3)
    as (u3 & Hu3 & _ & Hh3 & Hc3 & _).
  destruct (counter_rst_block_spec COUNT7_RST_ADD 7 COUNT7_H_ADD v7 w3)
    as (w4 & E4).
  { rewrite Hc3, Hc2, Hc1, !rst_block_coils_other
      by (vm_compute; congruence).
    exact Hv7. }
  { rewrite Hh3, Hh2, Hh1, !rst_block_hal_other by lia. intros ->; auto. }
  destruct (counter_rst_block_inv _ _ _ _ _ E4)
    as (u4 & Hu4 & _ & Hh4 & Hc4 & _).
  destruct (counter_rst_block_spec COUNT9_RST_ADD 9 COUNT9_H_ADD v9 w4)
    as (w5 & E5).
  { rewrite Hc4, Hc3, Hc2, Hc1, !rst_block_coils_other
      by (vm_compute; congruence).
    exact Hv9. }
  { rewrite Hh4, Hh3, Hh2, Hh1, !rst_block_hal_other by lia.
    intros ->; auto. }
  exists w5.
  rewrite (bind_Ret _ _ _ _ _ E1), (bind_Ret _ _ _ _ _ E2),
          (bind_Ret _ _ _ _ _ E3), (bind_Ret _ _ _ _ _ E4).
  exact E5.
Qed.

(** C10: after the on-write hook [counter_rst_set_cb] has completed,
    every counter reset coil COUNTx_RST (0x0310..0x0314) reads 0, and
    for each of them that was 1 the value registers of its counter
    are [0, 0]: the reset coils clear themselves and do not stay 1. *)
Theorem counter_rst_set_cb_self_clearing (reg_type : string) (address : Z)
    (val : list Z) (w w' : World) :
  coils_are_bits w ->
  counter_rst_set_cb reg_type address val w = (w', Ret tt) ->
  forall c, Hal.counter_channel c ->
    COILS (client w') !! rst_add c = Some 0
    /\ (COILS (client w) !! rst_add c = Some 1 ->
        IREGS (client w') !! h_add c = Some [0; 0]).
Proof.
  intros Hbits E. unfold counter_rst_set_cb in E.
  apply bind_Ret_inv in E as (w1 & [] & E1 & E).
  apply bind_Ret_inv in E as (w2 & [] & E2 & E).
  apply bind_Ret_inv in E as (w3 & [] & E3 & E).
  apply bind_Ret_inv in E as (w4 & [] & E4 & E5).
  apply counter_rst_block_inv in E1 as (v1 & Hv1 & _ & _ & Hc1 & Hi1).
  apply counter_rst_block_inv in E2 as (v3 & Hv3 & _ & _ & Hc2 & Hi2).
  apply counter_rst_block_inv in E3 as (v5 & Hv5 & _ & _ & Hc3 & Hi3).
  apply counter_rst_block_inv in E4 as (v7 & Hv7 & _ & _ & Hc4 & Hi4).
  apply counter_rst_block_inv in E5 as (v9 & Hv9 & _ & _ & Hc5 & Hi5).
  rewrite Hc4, Hc3, Hc2, Hc1 in Hv9.
  rewrite Hc3, Hc2, Hc1 in Hv7.
  rewrite Hc2, Hc1 in Hv5.
  rewrite Hc1 in Hv3.
  repeat rewrite rst_block_coils_other in Hv3 by (vm_compute; congruence).
  repeat rewrite rst_block_coils_other in Hv5 by (vm_compute; congruence).
  repeat rewrite rst_block_coils_other in Hv7 by (vm_compute; congruence).
  repeat rewrite rst_block_coils_other in Hv9 by (vm_compute; congruence).
  pose proof (Hbits _ _ Hv1) as B1. pose proof (Hbits _ _ Hv3) as B3.
  pose proof (Hbits _ _ Hv5) as B5. pose proof (Hbits _ _ Hv7) as B7.
  pose proof (Hbits _ _ Hv9) as B9.
  rewrite Hc5, Hc4, Hc3, Hc2, Hc1, Hi5, Hi4, Hi3, Hi2, Hi1.
  intros c Hc.
  channel_split Hc; cbn [rst_add h_add Z.eqb Pos.eqb]; (split;
    [ rewrite ?rst_block_coils_other by (vm_compute; congruence);
      apply rst_block_coils_same; [|assumption];
      rewrite ?rst_block_coils_other by (vm_compute; congruence);
      assumption
    | intros Hone;
      match goal with
      | Hv : COILS _ !! ?a = Some ?v, Hone : COILS _ !! ?a = Some 1 |- _ =>
          assert (v = 1) by congruence; subst v
      end;
      rewrite ?rst_block_iregs_other by (vm_compute; congruence);
      apply rst_block_iregs_same ]).
Qed.

End IocFacts.

(** ** umodbus/tcp.py: the socket multiplexer *)

Section TcpFacts.
Import Tcp.

Context {Request : Type}.
Variable Request_init : list byte -> @Decoded Request.
Variable functions_response :
  Z -> Z -> Z -> list Z -> option (list Z) -> bool -> list byte.

Local Abbreviation get_request := (get_request Request_init).
Local Abbreviation get_request_read := (get_request_read Request_init).
Local Abbreviation get_request_parse := (get_request_parse Request_init).
Local Abbreviation get_request_decode := (get_request_decode Request_init).
Local Abbreviation reachable := (reachable Request_init).

(** *** Bytes *)

Lemma byte_to_Z_range (b : byte) : 0 <= byte_to_Z b < 256.
Proof.
  unfold byte_to_Z. pose proof (Byte.to_N_bounded b). lia.
Qed.

Lemma pack_B_byte_to_Z (b : byte) : pack_B (byte_to_Z b) = b.
Proof.
  unfold pack_B. pose proof (byte_to_Z_range b) as Hr.
  rewrite Z.mod_small by exact Hr.
  unfold byte_to_Z. rewrite N2Z.id, Byte.of_to_N. reflexivity.
Qed.

Lemma pack_H_unpack_H (hi lo : byte) : pack_H (unpack_H hi lo) = [hi; lo].
Proof.
  unfold pack_H, unpack_H.
  pose proof (byte_to_Z_range hi) as Hh. pose proof (byte_to_Z_range lo) as Hl.
  replace ((byte_to_Z hi * 256 + byte_to_Z lo) / 256) with (byte_to_Z hi)
    by (apply Z.div_unique with (r := byte_to_Z lo); lia).
  rewrite pack_B_byte_to_Z.
  f_equal. f_equal.
  unfold pack_B.
  replace ((byte_to_Z hi * 256 + byte_to_Z lo) mod 256) with (byte_to_Z lo)
    by (apply Z.mod_unique with (q := byte_to_Z hi); lia).
  unfold byte_to_Z. rewrite N2Z.id, Byte.of_to_N. reflexivity.
Qed.

(** *** Socket objects *)

Lemma sockets_on_sock_same (r : SockRef) (f : Socket -> Socket) (w : World) :
  sockets (on_sock r f w) r = f (sockets w r).
Proof. cbn. rewrite Nat.eqb_refl. reflexivity. Qed.

Lemma sockets_on_sock_other (r r' : SockRef) (f : Socket -> Socket)
    (w : World) :
  r' <> r -> sockets (on_sock r f w) r' = sockets w r'.
Proof.
  intros Hne. cbn. destruct (Nat.eqb_spec r' r); [contradiction|reflexivity].
Qed.

Lemma sock_recv_settimeout (n : nat) (t : Z) (s : Socket) :
  snd (sock_recv n (sock_settimeout t s)) = snd (sock_recv n s).
Proof.
  unfold sock_recv. cbn. destruct (rx s) as [|[d| |] q]; reflexivity.
Qed.

Lemma sock_recv_tx (n : nat) (s : Socket) :
  tx (fst (sock_recv n s)) = tx s.
Proof.
  unfold sock_recv. destruct (rx s) as [|[d| |] q]; reflexivity.
Qed.

(** *** The branches of [get_request] *)

Lemma cursor_step_eq (r : SockRef) (w : World) :
  (if (length (_socklist (server
          (update_server (with_socknum (S (_socknum (server
             (update_server (with_current_sock (Some r)) w)))))
             (update_server (with_current_sock (Some r)) w))))
       <=? _socknum (server
          (update_server (with_socknum (S (_socknum (server
             (update_server (with_current_sock (Some r)) w)))))
             (update_server (with_current_sock (Some r)) w))))%nat
   then update_server (with_socknum 0%nat)
          (update_server (with_socknum (S (_socknum (server
             (update_server (with_current_sock (Some r)) w)))))
             (update_server (with_current_sock (Some r)) w))
   else update_server (with_socknum (S (_socknum (server
             (update_server (with_current_sock (Some r)) w)))))
             (update_server (with_current_sock (Some r)) w))
  = cursor_step r w.
Proof.
  unfold cursor_step, next_socknum, update_server, set_server. cbn.
  destruct (length (_socklist (server w)) <=? S (_socknum (server w)))%nat;
    reflexivity.
Qed.

(** The same steps when the slot holds [None]. *)
Lemma cursor_step_eq_None (w : World) :
  (if (length (_socklist (server
          (update_server (with_socknum (S (_socknum (server
             (update_server (with_current_sock None) w)))))
             (update_server (with_current_sock None) w))))
       <=? _socknum (server
          (update_server (with_socknum (S (_socknum (server
             (update_server (with_current_sock None) w)))))
             (update_server (with_current_sock None) w))))%nat
   then update_server (with_socknum 0%nat)
          (update_server (with_socknum (S (_socknum (server
             (update_server (with_current_sock None) w)))))
             (update_server (with_current_sock None) w))
   else update_server (with_socknum (S (_socknum (server
             (update_server (with_current_sock None) w)))))
             (update_server (with_current_sock None) w))
  = set_server (with_socknum (next_socknum (server w))
                  (with_current_sock None (server w))) w.
Proof.
  unfold next_socknum, update_server, set_server. cbn.
  destruct (length (_socklist (server w)) <=? S (_socknum (server w)))%nat;
    reflexivity.
Qed.

Lemma get_request_empty (ual : option (list Z)) (t : Z) (w : World) :
  _socklist (server w) !! _socknum (server w) = None ->
  get_request ual t w = (w, Raise IndexError).
Proof. unfold Tcp.get_request. intros ->. reflexivity. Qed.

Lemma get_request_None_slot (ual : option (list Z)) (t : Z) (w : World) :
  _socklist (server w) !! _socknum (server w) = Some None ->
  snd (get_request ual t w) = Raise NotBoundError.
Proof.
  unfold Tcp.get_request. intros ->. cbn.
  destruct (length (_socklist (server w)) <=? S (_socknum (server w)))%nat;
    reflexivity.
Qed.

Lemma get_request_slot (ual : option (list Z)) (t : Z) (w : World)
    (r : SockRef) :
  _socklist (server w) !! _socknum (server w) = Some (Some r) ->
  get_request ual t w =
    if negb (link_status w) then
      ((if (5 <=? monotonic w - _link_timestamp (server w))%float
        then if negb (_socket_closed (sockets w r))
             then on_sock r sock_close (cursor_step r w)
             else cursor_step r w
        else cursor_step r w), Ret None)
    else
      let '(is_connected, is_closed) := status_of (sockets w r) in
      if negb is_connected then
        if is_closed
        then (recreate_step (_socknum (server w)) (stamp_step r w), Ret None)
        else (stamp_step r w, Ret None)
      else get_request_read ual t r (stamp_step r w).
Proof.
  intros Hslot. unfold Tcp.get_request. rewrite Hslot.
  cbv zeta. rewrite (cursor_step_eq r w).
  replace (_current_sock (server (cursor_step r w))) with (Some r)
    by reflexivity.
  replace (link_status (cursor_step r w)) with (link_status w) by reflexivity.
  destruct (link_status w); cbn [negb]; [|reflexivity].
  unfold status_of.
  replace (sockets (update_server (with_link_timestamp
             (monotonic (cursor_step r w))) (cursor_step r w)) r)
    with (sockets w r) by reflexivity.
  destruct (status_raises (sockets w r)); [reflexivity|].
  destruct (_connected (sockets w r)); cbn [negb]; [reflexivity|].
  destruct (_socket_closed (sockets w r)); reflexivity.
Qed.

Lemma get_request_read_eq (ual : option (list Z)) (t : Z) (r : SockRef)
    (w : World) :
  get_request_read ual t r w =
    match snd (sock_recv 260 (sockets w r)) with
    | None => (recv_step t r w, Ret None)
    | Some req =>
        if (length req =? 0)%nat then (recv_step t r w, Ret None)
        else
          match frame_header req with
          | None => (recv_step t r w, Ret None)
          | Some (tid, req_pid, req_len) =>
              get_request_parse ual req req_pid
                (frame_uid_and_pdu req req_len)
                (update_server (with_req_tid (Some tid)) (recv_step t r w))
          end
    end.
Proof.
  unfold Tcp.get_request_read, recv_step, frame_header, frame_uid_and_pdu.
  rewrite sockets_on_sock_same.
  rewrite <- (sock_recv_settimeout 260 t (sockets w r)).
  destruct (sock_recv 260 (sock_settimeout t (sockets w r))) as [s' got].
  cbn [fst snd]. destruct got as [req|]; [|reflexivity].
  destruct (length req =? 0)%nat; [reflexivity|].
  destruct (unpack_HHH (take (MBAP_HDR_LENGTH - 1) req)) as [[[tid pid] len]|];
    reflexivity.
Qed.

Lemma _send_eq (pdu : list byte) (sa tid : Z) (r : SockRef) (w : World) :
  _req_tid (server w) = Some tid ->
  _current_sock (server w) = Some r ->
  _send pdu sa w = (on_sock r (sock_send (adu_of tid sa pdu)) w, Ret tt).
Proof. unfold _send. intros -> ->. reflexivity. Qed.

Lemma get_request_parse_pid (ual : option (list Z)) (req : list byte)
    (pid : Z) (uap : list byte) (w : World) :
  pid <> 0 -> get_request_parse ual req pid uap w = (w, Ret None).
Proof.
  intros Hne. unfold Tcp.get_request_parse.
  destruct (Z.eqb_spec pid 0); [contradiction|reflexivity].
Qed.

Lemma get_request_parse_accepted (ual : option (list Z)) (req : list byte)
    (uap : list byte) (w : World) :
  unit_accepted ual uap ->
  get_request_parse ual req 0 uap w = get_request_decode req uap w.
Proof.
  intros Hacc. unfold Tcp.get_request_parse, unit_accepted in *.
  cbn [Z.eqb negb].
  destruct ual as [l|].
  - destruct uap as [|uid uap']; [contradiction|].
    unfold bindM, ret. rewrite Hacc. reflexivity.
  - reflexivity.
Qed.

Lemma get_request_decode_exception (req0 : byte) (req' uap : list byte)
    (fc ec tid : Z) (r : SockRef) (w : World) :
  Request_init uap = ModbusException fc ec ->
  _req_tid (server w) = Some tid ->
  _current_sock (server w) = Some r ->
  get_request_decode (req0 :: req') uap w =
    (on_sock r (sock_send (adu_of tid (byte_to_Z req0)
                             (exception_response fc ec))) w,
     Ret None).
Proof.
  intros Hdec Htid Hcur. unfold Tcp.get_request_decode. rewrite Hdec.
  unfold send_exception_response.
  rewrite (bind_Ret _ _ _ _ _ (_send_eq _ _ tid r _ Htid Hcur)).
  reflexivity.
Qed.

(** A successful parse comes from an accepted frame with protocol id
    0 and a PDU that decodes; it leaves the world as it is. *)
Lemma get_request_decode_Some (req uap : list byte) (w w' : World)
    (q : Request) :
  get_request_decode req uap w = (w', Ret (Some q)) ->
  w' = w /\ Request_init uap = DecodedRequest q.
Proof.
  unfold Tcp.get_request_decode.
  destruct (Request_init uap) as [q'|fc ec|e].
  - intros [= -> ->]. auto.
  - destruct req; [discriminate|].
    cbv [bindM ret raise send_exception_response _send].
    destruct (_req_tid (server w)); [|cbv beta iota; discriminate].
    destruct (_current_sock (server w)); cbv beta iota; discriminate.
  - discriminate.
Qed.

Lemma get_request_parse_Some (ual : option (list Z)) (req : list byte)
    (pid : Z) (uap : list byte) (w w' : World) (q : Request) :
  get_request_parse ual req pid uap w = (w', Ret (Some q)) ->
  w' = w /\ pid = 0 /\ unit_accepted ual uap
  /\ Request_init uap = DecodedRequest q.
Proof.
  unfold Tcp.get_request_parse, unit_accepted.
  destruct (Z.eqb_spec pid 0) as [->|Hne]; cbn [negb];
    [|unfold ret; discriminate].
  destruct ual as [l|].
  - destruct uap as [|uid uap']; [discriminate|].
    unfold bindM, ret.
    destruct (existsb (Z.eqb (byte_to_Z uid)) l) eqn:Hex; cbn [negb];
      [|discriminate].
    intros H. apply get_request_decode_Some in H as [-> H]. auto.
  - unfold bindM, ret.
    intros H. apply get_request_decode_Some in H as [-> H]. auto.
Qed.

(** *** A frame is received *)

Lemma frame_header_transaction_id (req : list byte) (tid pid len : Z) :
  frame_header req = Some (tid, pid, len) ->
  transaction_id req = Some tid
  /\ exists b0 b1 rest, req = b0 :: b1 :: rest /\ tid = unpack_H b0 b1.
Proof.
  unfold frame_header, unpack_HHH, transaction_id.
  destruct req as [|b0 [|b1 [|b2 [|b3 [|b4 [|b5 rest]]]]]]; cbn;
    try discriminate.
  rewrite take_0. intros [= <- _ _]. split; [reflexivity|]. eauto.
Qed.

Lemma transaction_id_adu_of (b0 b1 : byte) (sa : Z) (pdu : list byte) :
  transaction_id (adu_of (unpack_H b0 b1) sa pdu) = Some (unpack_H b0 b1)
  /\ take 2 (adu_of (unpack_H b0 b1) sa pdu) = [b0; b1].
Proof.
  unfold adu_of. rewrite pack_H_unpack_H. split; reflexivity.
Qed.

Lemma get_request_receives (ual : option (list Z)) (t : Z) (w : World)
    (r : SockRef) (req : list byte) (tid pid len : Z) :
  receives w r req ->
  frame_header req = Some (tid, pid, len) ->
  get_request ual t w =
    get_request_parse ual req pid (frame_uid_and_pdu req len)
      (received_step t r tid w).
Proof.
  intros (Hslot & Hlink & Hraise & Hconn & Hrecv) Hhdr.
  rewrite (get_request_slot ual t w r Hslot), Hlink. cbn [negb].
  unfold status_of. rewrite Hraise, Hconn. cbn [negb].
  rewrite get_request_read_eq.
  replace (sockets (stamp_step r w) r) with (sockets w r) by reflexivity.
  rewrite Hrecv.
  destruct req as [|b0 req']; [discriminate|]. cbn [length Nat.eqb].
  rewrite Hhdr. reflexivity.
Qed.

Lemma tx_received_step (t : Z) (r r' : SockRef) (tid : Z) (w : World) :
  tx (sockets (received_step t r tid w) r') = tx (sockets w r').
Proof.
  unfold received_step, recv_step. cbn.
  destruct (Nat.eqb r' r) eqn:E; [|reflexivity].
  apply Nat.eqb_eq in E. subst r'. rewrite sock_recv_tx. reflexivity.
Qed.

Lemma received_step_server (t : Z) (r : SockRef) (tid : Z) (w : World) :
  _req_tid (server (received_step t r tid w)) = Some tid
  /\ _current_sock (server (received_step t r tid w)) = Some r.
Proof. split; reflexivity. Qed.

(** C5: a received frame whose MBAP protocol id is not 0 makes
    [get_request] return [None] without raising, and nothing is sent
    on any socket. *)
Theorem nonzero_protocol_id_discarded (ual : option (list Z)) (t : Z)
    (w : World) (r : SockRef) (req : list byte) (tid pid len : Z) :
  receives w r req ->
  frame_header req = Some (tid, pid, len) ->
  pid <> 0 ->
  exists w', get_request ual t w = (w', Ret None)
    /\ forall r', tx (sockets w' r') = tx (sockets w r').
Proof.
  intros Hrecv Hhdr Hpid.
  rewrite (get_request_receives ual t w r req tid pid len Hrecv Hhdr).
  rewrite get_request_parse_pid by exact Hpid.
  eexists. split; [reflexivity|].
  intros r'. apply tx_received_step.
Qed.

(** C4: when the PDU of a received frame fails to decode (the
    [Request] constructor raises [ModbusException]), [get_request]
    sends an exception response on the socket the frame came from and
    returns [None]; the server loop then returns at once, so the
    dispatcher, the only code that reads or writes the Register Table
    and runs its hooks, is not invoked and the device state is
    untouched. *)
Theorem decode_failure_answered_before_registers (ual : option (list Z))
    (t : Z) (w : World) (r : SockRef) (req : list byte) (tid len : Z)
    (function_code exception_code : Z) :
  receives w r req ->
  frame_header req = Some (tid, 0, len) ->
  unit_accepted ual (frame_uid_and_pdu req len) ->
  Request_init (frame_uid_and_pdu req len)
    = ModbusException function_code exception_code ->
  exists w' req0,
    get_request ual t w = (w', Ret None)
    /\ head req = Some req0
    /\ tx (sockets w' r) =
         tx (sockets w r)
         ++ [adu_of tid (byte_to_Z req0)
               (exception_response function_code exception_code)]
    /\ (forall r', r' <> r -> tx (sockets w' r') = tx (sockets w r'))
    /\ forall (D : Type) (dispatch : Request -> M (World * D) unit) (d : D),
         process Request_init dispatch ual t (w, d) = ((w', d), Ret false).
Proof.
  intros Hrecv Hhdr Hacc Hdec.
  pose proof (get_request_receives ual t w r req tid 0 len Hrecv Hhdr) as E.
  rewrite (get_request_parse_accepted ual req _ _ Hacc) in E.
  destruct (frame_header_transaction_id req tid 0 len Hhdr)
    as (_ & b0 & b1 & rest & -> & _).
  destruct (received_step_server t r tid w) as [Htid Hcur].
  rewrite (get_request_decode_exception _ _ _ _ _ tid r _ Hdec Htid Hcur)
    in E.
  eexists. exists b0. split; [exact E|].
  split; [reflexivity|].
  split; [|split].
  - rewrite sockets_on_sock_same. cbn [sock_send tx].
    rewrite tx_received_step. reflexivity.
  - intros r' Hne. rewrite sockets_on_sock_other by exact Hne.
    apply tx_received_step.
  - intros D dispatch d. unfold process. rewrite E. reflexivity.
Qed.

(** C2: for a request frame that [get_request] has parsed, a response
    sent next with [send_response] or [send_exception_response] (both
    go through [_send]) carries the transaction id of that frame in
    its MBAP header and is written to the socket the frame was
    received on, and to no other socket, whatever the size of the
    pool. *)
Theorem response_echoes_transaction_id_on_same_socket
    (ual : option (list Z)) (t : Z) (w w1 : World) (q : Request) :
  get_request ual t w = (w1, Ret (Some q)) ->
  exists r req tid,
    receives w r req
    /\ transaction_id req = Some tid
    /\ (forall sa fc ra rq rd vals signed,
          let adu := adu_of tid sa (functions_response fc ra rq rd vals signed) in
          send_response functions_response sa fc ra rq rd vals signed w1
            = (on_sock r (sock_send adu) w1, Ret tt)
          /\ transaction_id adu = Some tid
          /\ take 2 adu = take 2 req)
    /\ (forall sa fc ec,
          let adu := adu_of tid sa (exception_response fc ec) in
          send_exception_response sa fc ec w1
            = (on_sock r (sock_send adu) w1, Ret tt)
          /\ transaction_id adu = Some tid
          /\ take 2 adu = take 2 req)
    /\ (forall adu,
          tx (sockets (on_sock r (sock_send adu) w1) r)
            = tx (sockets w1 r) ++ [adu]
          /\ forall r', r' <> r ->
               sockets (on_sock r (sock_send adu) w1) r' = sockets w1 r').
Proof.
  intros E.
  destruct (_socklist (server w) !! _socknum (server w)) as [[r|]|] eqn:Hslot.
  2: { pose proof (get_request_None_slot ual t w Hslot) as H.
       rewrite E in H. discriminate. }
  2: { rewrite (get_request_empty ual t w Hslot) in E. discriminate. }
  rewrite (get_request_slot ual t w r Hslot) in E.
  destruct (link_status w) eqn:Hlink; cbn [negb] in E; [|discriminate].
  unfold status_of in E.
  destruct (status_raises (sockets w r)) eqn:Hraise; cbn [negb] in E;
    [discriminate|].
  destruct (_connected (sockets w r)) eqn:Hconn; cbn [negb] in E.
  2: { destruct (_socket_closed (sockets w r)); discriminate. }
  rewrite get_request_read_eq in E.
  replace (sockets (stamp_step r w) r) with (sockets w r) in E by reflexivity.
  destruct (snd (sock_recv 260 (sockets w r))) as [req|] eqn:Hrecv;
    [|discriminate].
  destruct (length req =? 0)%nat; [discriminate|].
  destruct (frame_header req) as [[[tid pid] len]|] eqn:Hhdr; [|discriminate].
  apply get_request_parse_Some in E as (-> & _ & _ & _).
  destruct (frame_header_transaction_id req tid pid len Hhdr)
    as (Htid & b0 & b1 & rest & -> & ->).
  exists r, (b0 :: b1 :: rest), (unpack_H b0 b1).
  split; [repeat split; assumption|].
  split; [exact Htid|].
  fold (received_step t r (unpack_H b0 b1) w).
  destruct (received_step_server t r (unpack_H b0 b1) w) as [Hrt Hcur].
  split; [|split].
  - intros sa fc ra rq rd vals signed adu. subst adu.
    split; [apply _send_eq; assumption|].
    apply transaction_id_adu_of.
  - intros sa fc ec adu. subst adu.
    split; [apply _send_eq; assumption|].
    apply transaction_id_adu_of.
  - intros adu. split.
    + rewrite sockets_on_sock_same. reflexivity.
    + intros r' Hne. apply sockets_on_sock_other, Hne.
Qed.

(** *** What a call changes *)

Lemma _send_effect (pdu : list byte) (sa : Z) (w : World) :
  server (fst (_send pdu sa w)) = server w
  /\ next_sock (fst (_send pdu sa w)) = next_sock w
  /\ forall r', _current_sock (server w) <> Some r' ->
       sockets (fst (_send pdu sa w)) r' = sockets w r'.
Proof.
  unfold _send.
  destruct (_req_tid (server w)); [|auto].
  destruct (_current_sock (server w)) as [r|]; [|auto].
  cbn [fst]. repeat split.
  intros r' Hne. apply sockets_on_sock_other. congruence.
Qed.

Lemma get_request_decode_effect (req uap : list byte) (w : World) :
  server (fst (get_request_decode req uap w)) = server w
  /\ next_sock (fst (get_request_decode req uap w)) = next_sock w
  /\ forall r', _current_sock (server w) <> Some r' ->
       sockets (fst (get_request_decode req uap w)) r' = sockets w r'.
Proof.
  unfold Tcp.get_request_decode.
  destruct (Request_init uap) as [q|fc ec|e]; [cbn; auto| |cbn; auto].
  destruct req as [|req0 req']; [cbn; auto|].
  unfold send_exception_response, bindM.
  pose proof (_send_effect (exception_response fc ec) (byte_to_Z req0) w)
    as H.
  destruct (_send (exception_response fc ec) (byte_to_Z req0) w)
    as [w1 [[]|e]]; exact H.
Qed.

Lemma get_request_parse_effect (ual : option (list Z)) (req : list byte)
    (pid : Z) (uap : list byte) (w : World) :
  server (fst (get_request_parse ual req pid uap w)) = server w
  /\ next_sock (fst (get_request_parse ual req pid uap w)) = next_sock w
  /\ forall r', _current_sock (server w) <> Some r' ->
       sockets (fst (get_request_parse ual req pid uap w)) r' = sockets w r'.
Proof.
  unfold Tcp.get_request_parse.
  destruct (negb (pid =? 0)); [cbn; auto|].
  destruct ual as [l|].
  - destruct uap as [|uid uap']; [cbn; auto|].
    unfold bindM, ret.
    destruct (negb (existsb (Z.eqb (byte_to_Z uid)) l)); [cbn; auto|].
    apply get_request_decode_effect.
  - unfold bindM, ret. apply get_request_decode_effect.
Qed.

Lemma get_request_read_effect (ual : option (list Z)) (t : Z) (r : SockRef)
    (w : World) :
  _current_sock (server w) = Some r ->
  _socklist (server (fst (get_request_read ual t r w))) = _socklist (server w)
  /\ _socknum (server (fst (get_request_read ual t r w))) = _socknum (server w)
  /\ next_sock (fst (get_request_read ual t r w)) = next_sock w
  /\ forall r', r' <> r ->
       sockets (fst (get_request_read ual t r w)) r' = sockets w r'.
Proof.
  intros Hcur. rewrite get_request_read_eq.
  assert (Hrecv : forall r', r' <> r ->
            sockets (recv_step t r w) r' = sockets w r').
  { intros r' Hne. unfold recv_step.
    rewrite !sockets_on_sock_other by exact Hne. reflexivity. }
  destruct (snd (sock_recv 260 (sockets w r))) as [req|];
    [|cbn [fst]; auto].
  destruct (length req =? 0)%nat; [cbn [fst]; auto|].
  destruct (frame_header req) as [[[tid pid] len]|]; [|cbn [fst]; auto].
  destruct (get_request_parse_effect ual req pid (frame_uid_and_pdu req len)
              (update_server (with_req_tid (Some tid)) (recv_step t r w)))
    as (Hs & Hn & Hf).
  rewrite Hs, Hn. repeat split.
  intros r' Hne. rewrite Hf; [apply Hrecv, Hne|].
  cbn. rewrite Hcur. congruence.
Qed.

(** After a call that indexed the list successfully the cursor has
    advanced and the list has kept its length; no socket object
    other than the one in the slot has changed (a replacement is a new
    object). *)
Lemma get_request_effect (ual : option (list Z)) (t : Z) (w : World)
    (cur : option SockRef) :
  _socklist (server w) !! _socknum (server w) = Some cur ->
  _socknum (server (fst (get_request ual t w))) = next_socknum (server w)
  /\ length (_socklist (server (fst (get_request ual t w))))
     = length (_socklist (server w))
  /\ forall r', cur <> Some r' -> r' <> next_sock w ->
       sockets (fst (get_request ual t w)) r' = sockets w r'.
Proof.
  intros Hslot. destruct cur as [r|].
  2: { unfold Tcp.get_request. rewrite Hslot. cbv zeta.
       rewrite (cursor_step_eq_None w). cbn. auto. }
  rewrite (get_request_slot ual t w r Hslot).
  destruct (link_status w); cbn [negb].
  - destruct (status_of (sockets w r)) as [[|] [|]]; cbn [negb fst].
    + destruct (get_request_read_effect ual t r (stamp_step r w) eq_refl)
        as (Hl & Hn & _ & Hf).
      rewrite Hl, Hn. repeat split.
      intros r' Hne _. apply Hf. congruence.
    + destruct (get_request_read_effect ual t r (stamp_step r w) eq_refl)
        as (Hl & Hn & _ & Hf).
      rewrite Hl, Hn. repeat split.
      intros r' Hne _. apply Hf. congruence.
    + split; [reflexivity|]. split; [cbn; apply length_insert|].
      intros r' _ Hne. cbn.
      destruct (Nat.eqb_spec r' (next_sock w)); [contradiction|reflexivity].
    + repeat split.
  - destruct ((5 <=? monotonic w - _link_timestamp (server w))%float);
      [destruct (negb (_socket_closed (sockets w r)))|]; cbn [fst];
      repeat split.
    intros r' Hne _. rewrite sockets_on_sock_other by congruence.
    reflexivity.
Qed.

(** *** What a call reads *)

Lemma _send_agree (pdu : list byte) (sa : Z) (r : SockRef) (wa wb : World) :
  server wa = server wb -> sockets wa r = sockets wb r ->
  snd (_send pdu sa wa) = snd (_send pdu sa wb)
  /\ server (fst (_send pdu sa wa)) = server (fst (_send pdu sa wb))
  /\ sockets (fst (_send pdu sa wa)) r = sockets (fst (_send pdu sa wb)) r.
Proof.
  intros Hs Hr. unfold _send. rewrite Hs.
  destruct (_req_tid (server wb)); [|auto].
  destruct (_current_sock (server wb)) as [r0|]; [|auto].
  cbn. rewrite Hs, Hr. destruct (Nat.eqb r r0); auto.
Qed.

Lemma get_request_decode_agree (req uap : list byte) (r : SockRef)
    (wa wb : World) :
  server wa = server wb -> sockets wa r = sockets wb r ->
  snd (get_request_decode req uap wa) = snd (get_request_decode req uap wb)
  /\ server (fst (get_request_decode req uap wa))
     = server (fst (get_request_decode req uap wb))
  /\ sockets (fst (get_request_decode req uap wa)) r
     = sockets (fst (get_request_decode req uap wb)) r.
Proof.
  intros Hs Hr. unfold Tcp.get_request_decode.
  destruct (Request_init uap) as [q|fc ec|e]; [cbn; auto| |cbn; auto].
  destruct req as [|req0 req']; [cbn; auto|].
  unfold send_exception_response, bindM.
  pose proof (_send_agree (exception_response fc ec) (byte_to_Z req0)
                r wa wb Hs Hr) as H.
  destruct (_send (exception_response fc ec) (byte_to_Z req0) wa)
    as [wa' [[]|ea]];
  destruct (_send (exception_response fc ec) (byte_to_Z req0) wb)
    as [wb' [[]|eb]]; cbn in *; destruct H as (H1 & H2 & H3);
    try discriminate; auto.
  injection H1 as ->. auto.
Qed.

Lemma get_request_parse_agree (ual : option (list Z)) (req : list byte)
    (pid : Z) (uap : list byte) (r : SockRef) (wa wb : World) :
  server wa = server wb -> sockets wa r = sockets wb r ->
  snd (get_request_parse ual req pid uap wa)
    = snd (get_request_parse ual req pid uap wb)
  /\ server (fst (get_request_parse ual req pid uap wa))
     = server (fst (get_request_parse ual req pid uap wb))
  /\ sockets (fst (get_request_parse ual req pid uap wa)) r
     = sockets (fst (get_request_parse ual req pid uap wb)) r.
Proof.
  intros Hs Hr. unfold Tcp.get_request_parse.
  destruct (negb (pid =? 0)); [cbn; auto|].
  destruct ual as [l|].
  - destruct uap as [|uid uap']; [cbn; auto|].
    unfold bindM, ret.
    destruct (negb (existsb (Z.eqb (byte_to_Z uid)) l)); [cbn; auto|].
    apply get_request_decode_agree; assumption.
  - unfold bindM, ret. apply get_request_decode_agree; assumption.
Qed.

(** The outcome of a call, the server state it leaves and what it
    does to the socket in the indexed slot depend on no other socket
    object. *)
Lemma get_request_agree (ual : option (list Z)) (t : Z) (r : SockRef)
    (w1 w2 : World) :
  _socklist (server w1) !! _socknum (server w1) = Some (Some r) ->
  agree_on r w1 w2 ->
  snd (get_request ual t w1) = snd (get_request ual t w2)
  /\ server (fst (get_request ual t w1)) = server (fst (get_request ual t w2))
  /\ sockets (fst (get_request ual t w1)) r
     = sockets (fst (get_request ual t w2)) r.
Proof.
  intros Hslot (Hs & Hn & Hl & Hm & Hr).
  assert (Hslot2 : _socklist (server w2) !! _socknum (server w2)
                   = Some (Some r)) by (rewrite <- Hs; exact Hslot).
  rewrite (get_request_slot ual t w1 r Hslot),
          (get_request_slot ual t w2 r Hslot2).
  destruct w1 as [srv socks1 n1 l1 m1], w2 as [srv2 socks2 n2 l2 m2].
  cbn in Hs, Hn, Hl, Hm, Hr. subst srv2 n2 l2 m2.
  cbn [link_status monotonic server sockets]. rewrite <- Hr.
  destruct l1; cbn [negb].
  - destruct (status_of (socks1 r)) as [[|] [|]]; cbn [negb fst snd].
    + rewrite !get_request_read_eq. cbn [sockets stamp_step cursor_step
        update_server set_server]. rewrite <- Hr.
      destruct (snd (sock_recv 260 (socks1 r))) as [req|];
        [|cbn; rewrite !Nat.eqb_refl, <- Hr; auto].
      destruct (length req =? 0)%nat;
        [cbn; rewrite !Nat.eqb_refl, <- Hr; auto|].
      destruct (frame_header req) as [[[tid pid] len]|];
        [|cbn; rewrite !Nat.eqb_refl, <- Hr; auto].
      apply get_request_parse_agree; [reflexivity|].
      cbn. rewrite !Nat.eqb_refl, <- Hr. reflexivity.
    + rewrite !get_request_read_eq. cbn [sockets stamp_step cursor_step
        update_server set_server]. rewrite <- Hr.
      destruct (snd (sock_recv 260 (socks1 r))) as [req|];
        [|cbn; rewrite !Nat.eqb_refl, <- Hr; auto].
      destruct (length req =? 0)%nat;
        [cbn; rewrite !Nat.eqb_refl, <- Hr; auto|].
      destruct (frame_header req) as [[[tid pid] len]|];
        [|cbn; rewrite !Nat.eqb_refl, <- Hr; auto].
      apply get_request_parse_agree; [reflexivity|].
      cbn. rewrite !Nat.eqb_refl, <- Hr. reflexivity.
    + cbn. rewrite <- Hr. auto.
    + cbn. rewrite <- Hr. auto.
  - destruct ((5 <=? m1 - _link_timestamp srv)%float);
      [destruct (negb (_socket_closed (socks1 r)))|];
      cbn; rewrite ?Nat.eqb_refl, <- ?Hr; auto.
Qed.

(** *** The cursor *)

Lemma next_socknum_mod (srv : TCPServer) :
  (_socknum srv < length (_socklist srv))%nat ->
  next_socknum srv = (S (_socknum srv) mod length (_socklist srv))%nat
  /\ (next_socknum srv < length (_socklist srv))%nat.
Proof.
  intros Hlt. unfold next_socknum.
  destruct (Nat.leb_spec (length (_socklist srv)) (S (_socknum srv))).
  - assert (E : S (_socknum srv) = length (_socklist srv)) by lia.
    rewrite E, Nat.Div0.mod_same. split; [reflexivity | lia].
  - rewrite Nat.mod_small by lia. split; [reflexivity | lia].
Qed.

Lemma close_all_server (l : list (option SockRef)) (w : World) :
  server (close_all l w) = server w.
Proof.
  revert w. induction l as [|[r|] l IH]; intros w; cbn; [reflexivity| |];
    rewrite IH; reflexivity.
Qed.

Lemma open_all_server (n : nat) (w : World) :
  length (_socklist (server (open_all n w)))
    = (length (_socklist (server w)) + n)%nat
  /\ _socknum (server (open_all n w)) = _socknum (server w).
Proof.
  revert w. induction n as [|n IH]; intros w; cbn [open_all].
  - split; [lia | reflexivity].
  - cbn [sockpool_socket].
    match goal with
    | |- context [open_all n ?w'] => destruct (IH w') as [Hl Hn]
    end.
    rewrite Hl, Hn. cbn. rewrite length_app. cbn. split; [lia|reflexivity].
Qed.

Lemma bind_small (ip : option string) (port maxc : Z) (w : World) :
  maxc < 1 -> _socklist (server (Tcp.bind ip port maxc w)) = [].
Proof.
  intros Hlt. unfold Tcp.bind.
  destruct (Z.ltb_spec maxc 1); [reflexivity | lia].
Qed.

Lemma bind_cursor (ip : option string) (port maxc : Z) (w : World) :
  cursor_in_pool (Tcp.bind ip port maxc w).
Proof.
  unfold cursor_in_pool.
  destruct (Z.ltb_spec maxc 1) as [Hlt|Hge].
  - left. apply bind_small, Hlt.
  - right. unfold Tcp.bind.
    destruct (Z.ltb_spec maxc 1); [lia|].
    cbn [update_server set_server server with_is_bound with_socknum
         _socknum _socklist].
    match goal with
    | |- context [open_all ?n ?w'] => destruct (open_all_server n w') as [Hl _]
    end.
    rewrite Hl. cbn. lia.
Qed.

Lemma get_request_cursor (ual : option (list Z)) (t : Z) (w : World) :
  cursor_in_pool w -> cursor_in_pool (fst (get_request ual t w)).
Proof.
  intros Hc.
  destruct (_socklist (server w) !! _socknum (server w)) as [cur|] eqn:Hslot.
  - destruct (get_request_effect ual t w cur Hslot) as (Hn & Hl & _).
    apply lookup_lt_Some in Hslot.
    right. rewrite Hn, Hl. apply next_socknum_mod, Hslot.
  - rewrite (get_request_empty ual t w Hslot). exact Hc.
Qed.

Lemma reachable_cursor (w : World) : reachable w -> cursor_in_pool w.
Proof.
  induction 1 as [socks n l m|ip port maxc w _ _|ual t w _ IH|pdu sa w _ IH
                 |e w _ IH].
  - left. reflexivity.
  - apply bind_cursor.
  - apply get_request_cursor, IH.
  - unfold cursor_in_pool.
    destruct (_send_effect pdu sa w) as (-> & _). exact IH.
  - exact IH.
Qed.

(** *** Round robin *)

Lemma mod_below_twice (a n : nat) :
  (a < 2 * n)%nat ->
  (a mod n = if (a <? n)%nat then a else a - n)%nat.
Proof.
  intros Hlt. destruct (Nat.ltb_spec a n).
  - apply Nat.mod_small. lia.
  - symmetry. apply Nat.mod_unique with (q := 1%nat); lia.
Qed.

(** Starting anywhere, [n] steps of a cursor that advances by one
    modulo [n] visit every index below [n] exactly once. *)
Lemma rotation_Permutation (c n : nat) :
  (c < n)%nat ->
  (fun k => (c + k) mod n)%nat <$> seq 0 n ≡ₚ seq 0 n.
Proof.
  intros Hc. apply NoDup_Permutation.
  - apply NoDup_fmap_2_strong; [|apply NoDup_seq].
    intros x y Hx Hy. apply elem_of_seq in Hx, Hy.
    rewrite !mod_below_twice by lia.
    destruct (Nat.ltb_spec (c + x) n), (Nat.ltb_spec (c + y) n); lia.
  - apply NoDup_seq.
  - intros x. rewrite list_elem_of_fmap, elem_of_seq. split.
    + intros (k & -> & Hk). apply elem_of_seq in Hk.
      split; [lia|]. cbn. apply Nat.mod_upper_bound. lia.
    + intros [_ Hx]. cbn in Hx.
      exists (if (x <? c)%nat then x + n - c else x - c)%nat.
      rewrite elem_of_seq.
      destruct (Nat.ltb_spec x c); rewrite mod_below_twice by lia.
      * destruct (Nat.ltb_spec (c + (x + n - c)) n); lia.
      * destruct (Nat.ltb_spec (c + (x - c)) n); lia.
Qed.

Lemma polls_cons (ual : option (list Z)) (t : Z) (e : Env) (es : list Env)
    (w : World) :
  snd (polls Request_init ual t (e :: es) w)
  = _socknum (server w)
    :: snd (polls Request_init ual t es
              (fst (get_request ual t (apply_env e w)))).
Proof.
  cbn [polls].
  destruct (Tcp.get_request Request_init ual t (apply_env e w)) as [w2 o].
  cbn [fst].
  destruct (polls Request_init ual t es w2) as [w3 slots]. reflexivity.
Qed.

Lemma polls_slots (ual : option (list Z)) (t : Z) (es : list Env) (w : World) :
  (_socknum (server w) < length (_socklist (server w)))%nat ->
  snd (polls Request_init ual t es w)
  = (fun k => (_socknum (server w) + k)
                mod length (_socklist (server w)))%nat
      <$> seq 0 (length es).
Proof.
  revert w. induction es as [|e es IH]; intros w Hlt; [reflexivity|].
  rewrite polls_cons.
  assert (Hslot : is_Some (_socklist (server (apply_env e w))
                             !! _socknum (server (apply_env e w))))
    by (apply lookup_lt_is_Some; exact Hlt).
  destruct Hslot as [cur Hslot].
  destruct (get_request_effect ual t (apply_env e w) cur Hslot)
    as (Hn & Hl & _).
  destruct (next_socknum_mod (server w) Hlt) as [Hmod Hlt'].
  change (server (apply_env e w)) with (server w) in Hn, Hl.
  rewrite IH by (rewrite Hn, Hl; exact Hlt').
  rewrite Hn, Hl, Hmod.
  cbn [length seq fmap list_fmap].
  f_equal.
  - rewrite Nat.add_0_r. symmetry. apply Nat.mod_small, Hlt.
  - rewrite <- seq_shift, <- list_fmap_compose.
    apply list_fmap_ext. intros _ k _. cbn.
    rewrite Nat.Div0.add_mod_idemp_l. f_equal. lia.
Qed.

(** C8: when the socket list is empty, because [bind] was never
    called or was called with [max_connections < 1], [get_request]
    raises [IndexError] from indexing the list: it neither returns
    "no request" nor reaches the guard that raises 'Modbus TCP server
    not bound'. *)
Theorem get_request_empty_pool_IndexError (ual : option (list Z)) (t : Z)
    (w : World) (ip : option string) (port maxc : Z) :
  maxc < 1 ->
  get_request ual t (Tcp.bind ip port maxc w)
    = (Tcp.bind ip port maxc w, Raise IndexError)
  /\ get_request ual t (set_server TCPServer_init w)
     = (set_server TCPServer_init w, Raise IndexError)
  /\ forall w0, _socklist (server w0) = [] ->
       get_request ual t w0 = (w0, Raise IndexError).
Proof.
  intros Hlt.
  assert (H : forall w0, _socklist (server w0) = [] ->
                get_request ual t w0 = (w0, Raise IndexError)).
  { intros w0 Hnil. apply get_request_empty. rewrite Hnil. reflexivity. }
  split; [apply H, bind_small, Hlt|].
  split; [apply H; reflexivity|exact H].
Qed.

(** *** The pool of socket references *)

Lemma get_request_read_server (ual : option (list Z)) (t : Z) (r : SockRef)
    (w : World) :
  exists x, server (fst (get_request_read ual t r w))
            = with_req_tid x (server w).
Proof.
  rewrite get_request_read_eq.
  assert (Hid : server (recv_step t r w)
                = with_req_tid (_req_tid (server w)) (server w))
    by (destruct w as [[] ? ? ? ?]; reflexivity).
  destruct (snd (sock_recv 260 (sockets w r))) as [req|]; [|eauto].
  destruct (length req =? 0)%nat; [eauto|].
  destruct (frame_header req) as [[[tid pid] len]|]; [|eauto].
  destruct (get_request_parse_effect ual req pid (frame_uid_and_pdu req len)
              (update_server (with_req_tid (Some tid)) (recv_step t r w)))
    as (Hs & _).
  rewrite Hs. exists (Some tid). reflexivity.
Qed.

(** A call keeps the list and allocates nothing, or puts a newly
    allocated socket into the slot it indexed. *)
Lemma get_request_pool (ual : option (list Z)) (t : Z) (w : World)
    (cur : option SockRef) :
  _socklist (server w) !! _socknum (server w) = Some cur ->
  (_socklist (server (fst (get_request ual t w))) = _socklist (server w)
   /\ next_sock (fst (get_request ual t w)) = next_sock w)
  \/ (_socklist (server (fst (get_request ual t w)))
        = <[_socknum (server w) := Some (next_sock w)]> (_socklist (server w))
      /\ next_sock (fst (get_request ual t w)) = S (next_sock w)).
Proof.
  intros Hslot. destruct cur as [r|].
  2: { left. unfold Tcp.get_request. rewrite Hslot. cbv zeta.
       rewrite (cursor_step_eq_None w). cbn. auto. }
  rewrite (get_request_slot ual t w r Hslot).
  destruct (link_status w); cbn [negb].
  - destruct (status_of (sockets w r)) as [[|] [|]]; cbn [negb fst].
    + left.
      destruct (get_request_read_effect ual t r (stamp_step r w) eq_refl)
        as (Hl & _ & Hn & _). rewrite Hl, Hn. auto.
    + left.
      destruct (get_request_read_effect ual t r (stamp_step r w) eq_refl)
        as (Hl & _ & Hn & _). rewrite Hl, Hn. auto.
    + right. split; reflexivity.
    + left. split; reflexivity.
  - left.
    destruct ((5 <=? monotonic w - _link_timestamp (server w))%float);
      [destruct (negb (_socket_closed (sockets w r)))|]; cbn [fst];
      split; reflexivity.
Qed.

Lemma NoDup_insert_fresh {A} (l : list A) (i : nat) (x : A) :
  NoDup l -> x ∉ l -> NoDup (<[i := x]> l).
Proof.
  rewrite !NoDup_alt. intros Hnd Hx j1 j2 y H1 H2.
  apply list_lookup_insert_Some in H1, H2.
  destruct H1 as [(-> & -> & _)|[Hn1 H1]], H2 as [(-> & E & _)|[Hn2 H2]];
    try reflexivity.
  - exfalso. apply Hx. apply list_elem_of_lookup. eauto.
  - exfalso. subst y. apply Hx. apply list_elem_of_lookup. eauto.
  - eauto.
Qed.

Lemma get_request_wf (ual : option (list Z)) (t : Z) (w : World) :
  pool_wf w -> pool_wf (fst (get_request ual t w)).
Proof.
  intros [Hnd Hal].
  destruct (_socklist (server w) !! _socknum (server w)) as [cur|] eqn:Hslot.
  2: { rewrite (get_request_empty ual t w Hslot). split; assumption. }
  unfold pool_wf.
  destruct (get_request_pool ual t w cur Hslot) as [[-> ->]|[-> ->]].
  - split; assumption.
  - split.
    + apply NoDup_insert_fresh; [exact Hnd|].
      intros Hin. apply list_elem_of_lookup in Hin as [i Hi].
      destruct (Hal i _ Hi) as (r & [= <-] & Hlt). lia.
    + intros i c Hi. apply list_lookup_insert_Some in Hi.
      destruct Hi as [(_ & <- & _)|[_ Hi]].
      * eexists. split; [reflexivity|lia].
      * destruct (Hal i c Hi) as (r & -> & Hlt).
        exists r. split; [reflexivity|lia].
Qed.

Lemma close_all_next_sock (l : list (option SockRef)) (w : World) :
  next_sock (close_all l w) = next_sock w.
Proof.
  revert w. induction l as [|[r|] l IH]; intros w; cbn; [reflexivity| |];
    rewrite IH; reflexivity.
Qed.

Lemma open_all_pool (n : nat) (w : World) :
  _socklist (server (open_all n w))
    = _socklist (server w) ++ (Some <$> seq (next_sock w) n)
  /\ next_sock (open_all n w) = (next_sock w + n)%nat.
Proof.
  revert w. induction n as [|n IH]; intros w; cbn [open_all].
  - cbn. rewrite app_nil_r. split; [reflexivity|lia].
  - cbn [sockpool_socket].
    match goal with
    | |- context [open_all n ?w'] => destruct (IH w') as [Hl Hn]
    end.
    rewrite Hl, Hn. cbn. rewrite <- app_assoc. split; [reflexivity|lia].
Qed.

Lemma bind_wf (ip : option string) (port maxc : Z) (w : World) :
  pool_wf (Tcp.bind ip port maxc w).
Proof.
  unfold Tcp.bind, pool_wf.
  destruct (maxc <? 1).
  - cbn. split; [apply NoDup_nil_2|]. intros i c Hi.
    rewrite lookup_nil in Hi. discriminate.
  - cbn [update_server set_server server with_is_bound with_socknum
         _socklist next_sock].
    match goal with
    | |- context [open_all ?n ?w'] => destruct (open_all_pool n w') as [Hl Hn]
    end.
    rewrite Hl, Hn. cbn [update_server set_server server with_local
      with_socklist with_current_sock _socklist next_sock app].
    split.
    + apply NoDup_fmap_2; [intros x y [=]; assumption|apply NoDup_seq].
    + intros i c Hi. apply list_lookup_fmap_Some in Hi as (r & -> & Hr).
      apply lookup_seq in Hr as [-> Hlt].
      eexists. split; [reflexivity|lia].
Qed.

Lemma reachable_wf (w : World) : reachable w -> pool_wf w.
Proof.
  induction 1 as [socks n l m|ip port maxc w _ _|ual t w _ IH|pdu sa w _ IH
                 |e w _ IH].
  - split; [apply NoDup_nil_2|]. intros i c Hi.
    cbn in Hi. rewrite lookup_nil in Hi. discriminate.
  - apply bind_wf.
  - apply get_request_wf, IH.
  - unfold pool_wf.
    destruct (_send_effect pdu sa w) as (-> & -> & _). exact IH.
  - exact IH.
Qed.

(** *** Link down: closing and recreating *)

Lemma get_request_link_down (ual : option (list Z)) (t : Z) (w : World)
    (r : SockRef) :
  _socklist (server w) !! _socknum (server w) = Some (Some r) ->
  link_status w = false ->
  snd (get_request ual t w) = Ret None
  /\ _socklist (server (fst (get_request ual t w))) = _socklist (server w)
  /\ _link_timestamp (server (fst (get_request ual t w)))
     = _link_timestamp (server w)
  /\ ((5 <=? monotonic w - _link_timestamp (server w))%float = false ->
      forall r', sockets (fst (get_request ual t w)) r' = sockets w r')
  /\ ((5 <=? monotonic w - _link_timestamp (server w))%float = true ->
      _socket_closed (sockets (fst (get_request ual t w)) r) = true
      /\ ((_socket_closed (sockets w r) = true ->
           _connected (sockets w r) = false) ->
          _connected (sockets (fst (get_request ual t w)) r) = false))
  /\ (_socket_closed (sockets w r) = true ->
      _connected (sockets w r) = false ->
      _socket_closed (sockets (fst (get_request ual t w)) r) = true
      /\ _connected (sockets (fst (get_request ual t w)) r) = false).
Proof.
  intros Hslot Hlink.
  rewrite (get_request_slot ual t w r Hslot), Hlink. cbn [negb fst snd].
  split; [reflexivity|].
  split.
  { destruct ((5 <=? monotonic w - _link_timestamp (server w))%float);
      [destruct (negb (_socket_closed (sockets w r)))|]; reflexivity. }
  split.
  { destruct ((5 <=? monotonic w - _link_timestamp (server w))%float);
      [destruct (negb (_socket_closed (sockets w r)))|]; reflexivity. }
  split; [|split].
  - intros Hlt r'. rewrite Hlt. reflexivity.
  - intros Hge. rewrite Hge.
    destruct (_socket_closed (sockets w r)) eqn:Hcl; cbn [negb].
    + split; [exact Hcl|]. intros Hco. exact (Hco eq_refl).
    + rewrite sockets_on_sock_same. split; reflexivity.
  - intros Hcl Hco.
    destruct ((5 <=? monotonic w - _link_timestamp (server w))%float);
      rewrite ?Hcl; cbn [negb]; split; assumption.
Qed.


Lemma polls_cons_fst (ual : option (list Z)) (t : Z) (e : Env)
    (es : list Env) (w : World) :
  fst (polls Request_init ual t (e :: es) w)
  = fst (polls Request_init ual t es
           (fst (get_request ual t (apply_env e w)))).
Proof.
  cbn [polls].
  destruct (Tcp.get_request Request_init ual t (apply_env e w)) as [w2 o].
  cbn [fst].
  destruct (polls Request_init ual t es w2) as [w3 slots]. reflexivity.
Qed.


(** A poll that finds the link up and the socket of its slot closed
    replaces the socket. *)
Lemma get_request_recreates (ual : option (list Z)) (t : Z) (i : nat)
    (r : SockRef) (w : World) :
  slot_closed i r w -> _socknum (server w) = i -> link_status w = true ->
  snd (get_request ual t w) = Ret None
  /\ recreated i w (fst (get_request ual t w)).
Proof.
  intros (Hi & Hcl & Hco) <- Hlink.
  rewrite (get_request_slot ual t w r Hi), Hlink. cbn [negb].
  replace (status_of (sockets w r)) with (false, true)
    by (unfold status_of; rewrite Hcl, Hco;
        destruct (status_raises (sockets w r)); reflexivity).
  cbn [negb fst snd]. split; [reflexivity|]. unfold recreated. split.
  - cbn. apply list_lookup_insert_eq. eapply lookup_lt_Some, Hi.
  - cbn. rewrite !Nat.eqb_refl. reflexivity.
Qed.

(** A poll that finds the link up records the time. *)
Lemma get_request_link_up_timestamp (ual : option (list Z)) (t : Z)
    (w : World) (r : SockRef) :
  _socklist (server w) !! _socknum (server w) = Some (Some r) ->
  link_status w = true ->
  _link_timestamp (server (fst (get_request ual t w))) = monotonic w.
Proof.
  intros Hslot Hlink.
  rewrite (get_request_slot ual t w r Hslot), Hlink. cbn [negb].
  destruct (status_of (sockets w r)) as [[|] [|]]; cbn [negb fst];
    try reflexivity;
    destruct (get_request_read_server ual t r (stamp_step r w)) as [x ->];
    reflexivity.
Qed.


End TcpFacts.

(** * Concrete runs *)

Section Runs.
Import IocModbus.

(** 70000 = 0x11170: the hook stores 0x111 = 273 and 0x1170 = 4464,
    where the standard split has 1 and 4464. *)
Example run_counting_stored :
  IREGS (client (fst (counter_get_cb "IREGS" COUNT1_H_ADD [0; 0] run_counting)))
    !! COUNT1_H_ADD = Some [273; 4464].
Proof. vm_compute. reflexivity. Qed.

(** Enabling counter 1 and reading its value after two counted edges. *)
Example run_enable_pulse_read :
  snd (read_input_registers COUNT1_H_ADD 2
         (pulse 1 (pulse 1 (fst (write_single_coil COUNT1_EN_ADD 1
                                   run_start)))))
  = Ret (Values [0; 2]).
Proof. vm_compute. reflexivity. Qed.

(** Setting the reset coil of a disabled counter: the hook raises. *)
Example run_reset_disabled_raises :
  snd (write_single_coil COUNT1_RST_ADD 1 run_start) = Raise AttributeError.
Proof. vm_compute. reflexivity. Qed.

Lemma counter_get_cb_high_word_shift_witness :
  exists w', counter_get_cb "IREGS" COUNT1_H_ADD [0; 0] run_counting
             = (w', Ret tt)
    /\ forall c k, Hal.counter_channel c ->
         COILS (client run_counting) !! en_add c = Some 1 ->
         Hal.counter_of c (hal run_counting) = Some k ->
         IREGS (client w') !! h_add c
           = Some [Z.shiftr (Hal.count k) 8; Z.land (Hal.count k) 0xffff]
         /\ (2 ^ 16 <= Hal.count k ->
             IREGS (client w') !! h_add c
               <> Some [Z.shiftr (Hal.count k) 16;
                        Z.land (Hal.count k) 0xffff]).
Proof.
  apply (counter_get_cb_high_word_shift "IREGS" COUNT1_H_ADD [0; 0]
           run_counting).
  - intros c [->|[->|[->|[->| ->]]]]; vm_compute; eauto.
  - intros c [->|[->|[->|[->| ->]]]] Hen; vm_compute in Hen;
      try discriminate; vm_compute; eauto.
Defined.

Lemma enable_counter1_clears_value_witness :
  exists w1,
    write_single_coil COUNT1_EN_ADD 1 run_start = (w1, Ret (Values tt))
    /\ Hal.count1 (hal w1) = Some Hal.new_counter
    /\ IREGS (client w1) !! COUNT1_H_ADD = Some [0; 0]
    /\ exists w2,
         read_input_registers COUNT1_H_ADD 2 w1 = (w2, Ret (Values [0; 0])).
Proof.
  apply (enable_counter1_clears_value run_start).
  - intros c [->|[->|[->|[->| ->]]]]; vm_compute; eauto.
  - reflexivity.
Defined.

Lemma counter_rst_set_cb_self_clearing_witness :
  COILS (client (fst (counter_rst_set_cb "COILS" COUNT1_RST_ADD [1]
                        run_reset))) !! rst_add 1 = Some 0
  /\ (COILS (client run_reset) !! rst_add 1 = Some 1 ->
      IREGS (client (fst (counter_rst_set_cb "COILS" COUNT1_RST_ADD [1]
                            run_reset))) !! h_add 1 = Some [0; 0]).
Proof.
  apply (counter_rst_set_cb_self_clearing "COILS" COUNT1_RST_ADD [1]
           run_reset).
  - apply (bool_decide_unpack _). vm_compute. exact I.
  - vm_compute. reflexivity.
  - left. reflexivity.
Defined.

End Runs.

Section TcpRuns.
Import Tcp.

Lemma response_echoes_transaction_id_on_same_socket_witness :
  exists r req tid,
    receives (run_received frame_read) r req
    /\ transaction_id req = Some tid
    /\ (forall sa fc ra rq rd vals signed,
          let adu := adu_of tid sa (run_response fc ra rq rd vals signed) in
          send_response run_response sa fc ra rq rd vals signed
            (fst (get_request run_Request_init (Some [255]) 0
                    (run_received frame_read)))
            = (on_sock r (sock_send adu)
                 (fst (get_request run_Request_init (Some [255]) 0
                         (run_received frame_read))), Ret tt)
          /\ transaction_id adu = Some tid
          /\ take 2 adu = take 2 req)
    /\ (forall sa fc ec,
          let adu := adu_of tid sa (exception_response fc ec) in
          send_exception_response sa fc ec
            (fst (get_request run_Request_init (Some [255]) 0
                    (run_received frame_read)))
            = (on_sock r (sock_send adu)
                 (fst (get_request run_Request_init (Some [255]) 0
                         (run_received frame_read))), Ret tt)
          /\ transaction_id adu = Some tid
          /\ take 2 adu = take 2 req)
    /\ (forall adu,
          tx (sockets (on_sock r (sock_send adu)
                 (fst (get_request run_Request_init (Some [255]) 0
                         (run_received frame_read)))) r)
            = tx (sockets (fst (get_request run_Request_init (Some [255]) 0
                                  (run_received frame_read))) r) ++ [adu]
          /\ forall r', r' <> r ->
               sockets (on_sock r (sock_send adu)
                 (fst (get_request run_Request_init (Some [255]) 0
                         (run_received frame_read)))) r'
               = sockets (fst (get_request run_Request_init (Some [255]) 0
                                 (run_received frame_read))) r').
Proof.
  apply (response_echoes_transaction_id_on_same_socket run_Request_init
           run_response (Some [255]) 0 (run_received frame_read)
           (fst (get_request run_Request_init (Some [255]) 0
                   (run_received frame_read)))
           (drop 6 frame_read)).
  apply pair_with_snd. vm_compute. reflexivity.
Defined.

Lemma nonzero_protocol_id_discarded_witness :
  exists w',
    get_request run_Request_init (Some [255]) 0
      (run_received frame_protocol_1) = (w', Ret None)
    /\ forall r', tx (sockets w' r')
                  = tx (sockets (run_received frame_protocol_1) r').
Proof.
  apply (nonzero_protocol_id_discarded run_Request_init (Some [255]) 0
           (run_received frame_protocol_1) 0%nat frame_protocol_1 7 1 6).
  - repeat split; vm_compute; reflexivity.
  - reflexivity.
  - discriminate.
Defined.

Lemma decode_failure_answered_before_registers_witness :
  exists w' req0,
    get_request run_Request_init (Some [255]) 0
      (run_received frame_function_63) = (w', Ret None)
    /\ head frame_function_63 = Some req0
    /\ tx (sockets w' 0%nat) =
         tx (sockets (run_received frame_function_63) 0%nat)
         ++ [adu_of 7 (byte_to_Z req0) (exception_response 99 1)]
    /\ (forall r', r' <> 0%nat ->
          tx (sockets w' r')
          = tx (sockets (run_received frame_function_63) r'))
    /\ forall (D : Type) (dispatch : list byte -> M (World * D) unit) (d : D),
         process run_Request_init dispatch (Some [255]) 0
           (run_received frame_function_63, d) = ((w', d), Ret false).
Proof.
  apply (decode_failure_answered_before_registers run_Request_init
           (Some [255]) 0 (run_received frame_function_63) 0%nat
           frame_function_63 7 6 99 1).
  - repeat split; vm_compute; reflexivity.
  - reflexivity.
  - reflexivity.
  - reflexivity.
Defined.

Lemma get_request_empty_pool_IndexError_witness :
  get_request run_Request_init None 0 (Tcp.bind None 502 0 (run_bound 2))
    = (Tcp.bind None 502 0 (run_bound 2), Raise IndexError)
  /\ get_request run_Request_init None 0
       (set_server TCPServer_init (run_bound 2))
     = (set_server TCPServer_init (run_bound 2), Raise IndexError)
  /\ forall w0, _socklist (server w0) = [] ->
       get_request run_Request_init None 0 w0 = (w0, Raise IndexError).
Proof.
  apply (get_request_empty_pool_IndexError run_Request_init None 0
           (run_bound 2) None 502 0).
  reflexivity.
Defined.



End TcpRuns.

(** * Further properties *)

(** ** iriv_ioc_hal.py *)

Section HalMore.
Import Hal.

Ltac channel_cases' c :=
  destruct (Z.eqb_spec c 1); [subst c|];
  [|destruct (Z.eqb_spec c 3); [subst c|]];
  [| |destruct (Z.eqb_spec c 5); [subst c|]];
  [| | |destruct (Z.eqb_spec c 7); [subst c|]];
  [| | | |destruct (Z.eqb_spec c 9); [subst c|]].

Ltac split_counters' :=
  repeat match goal with
         | |- context [is_None ?x] =>
             destruct x eqn:?; cbn [is_None andb negb]
         end.

Lemma en_counter_pin_other (c c' : Z) (h : State) :
  c' <> c -> pin_of c' (fst (en_counter c h)) = pin_of c' h.
Proof.
  intros Hne. unfold en_counter, pin_of.
  channel_cases' c; cbn; split_counters'; cbn; try reflexivity;
    channel_cases' c'; cbn; congruence.
Qed.

Lemma dis_counter_pin_other (c c' : Z) (h : State) :
  c' <> c -> pin_of c' (fst (dis_counter c h)) = pin_of c' h.
Proof.
  intros Hne. unfold dis_counter, pin_of.
  channel_cases' c; cbn; split_counters'; cbn; try reflexivity;
    channel_cases' c'; cbn; congruence.
Qed.

Lemma en_counter_pin_same (c : Z) (h : State) :
  snd (en_counter c h) = true ->
  pin_of c (fst (en_counter c h)) = Some PinDeinit.
Proof.
  unfold en_counter, pin_of.
  channel_cases' c; cbn; split_counters'; cbn; congruence.
Qed.

Lemma dis_counter_pin_same (c : Z) (h : State) :
  snd (dis_counter c h) = true ->
  pin_of c (fst (dis_counter c h)) = Some PinInput.
Proof.
  unfold dis_counter, pin_of.
  channel_cases' c; cbn; split_counters'; cbn; congruence.
Qed.

Lemma en_counter_consistent (c : Z) (h : State) :
  hal_consistent h -> hal_consistent (fst (en_counter c h)).
Proof.
  intros Hc c' Hc'.
  destruct (Z.eq_dec c' c) as [->|Hne].
  - destruct (snd (en_counter c h)) eqn:E.
    + rewrite (en_counter_true_counter c h E), (en_counter_pin_same c h E).
      split; discriminate.
    + rewrite (en_counter_false_same c h E). apply Hc, Hc'.
  - rewrite en_counter_other, en_counter_pin_other by exact Hne.
    apply Hc, Hc'.
Qed.

Lemma dis_counter_consistent (c : Z) (h : State) :
  hal_consistent h -> hal_consistent (fst (dis_counter c h)).
Proof.
  intros Hc c' Hc'.
  destruct (Z.eq_dec c' c) as [->|Hne].
  - destruct (snd (dis_counter c h)) eqn:E.
    + rewrite (dis_counter_true_counter c h E), (dis_counter_pin_same c h E).
      split; reflexivity.
    + rewrite (dis_counter_false_same c h E). apply Hc, Hc'.
  - rewrite dis_counter_other, dis_counter_pin_other by exact Hne.
    apply Hc, Hc'.
Qed.

(** X1: from the state after start-up, every sequence of
    [en_counter] and [dis_counter] calls keeps each counter channel
    in one of two states: counter object present and pin object
    released, or no counter and the pin an input; and a call for
    channel [c] changes neither the counter nor the pin of any other
    channel. *)
Theorem en_dis_counter_keep_channels_consistent (c : Z) (h : State) :
  hal_consistent init
  /\ (hal_consistent h ->
      hal_consistent (fst (en_counter c h))
      /\ hal_consistent (fst (dis_counter c h)))
  /\ forall c', c' <> c ->
       counter_of c' (fst (en_counter c h)) = counter_of c' h
       /\ pin_of c' (fst (en_counter c h)) = pin_of c' h
       /\ counter_of c' (fst (dis_counter c h)) = counter_of c' h
       /\ pin_of c' (fst (dis_counter c h)) = pin_of c' h.
Proof.
  split.
  { intros c0 [->|[->|[->|[->| ->]]]]; cbn; split; reflexivity. }
  split.
  { intros Hc. split;
      [apply en_counter_consistent|apply dis_counter_consistent]; exact Hc. }
  intros c' Hne.
  rewrite en_counter_other, en_counter_pin_other, dis_counter_other,
    dis_counter_pin_other by exact Hne.
  repeat split.
Qed.

(** X2: enabling a disabled counter and disabling it again gives
    back the state before, both calls returning True; disabling an
    enabled counter and enabling it again does not bring its count
    back: the channel has a new counter that starts at zero. *)
Theorem en_dis_counter_round_trips (c : Z) (h : State) :
  counter_channel c ->
  (counter_of c h = None -> pin_of c h = Some PinInput ->
   snd (en_counter c h) = true
   /\ dis_counter c (fst (en_counter c h)) = (h, true))
  /\ (forall k, counter_of c h = Some k ->
      snd (dis_counter c h) = true
      /\ snd (en_counter c (fst (dis_counter c h))) = true
      /\ counter_of c (fst (en_counter c (fst (dis_counter c h))))
         = Some new_counter).
Proof.
  intros Hc. split.
  - intros Hn Hp. destruct h as [c1 c3 c5 c7 c9 d1 d3 d5 d7 d9].
    unfold counter_of, pin_of in Hn, Hp. cbn in Hn, Hp.
    destruct Hc as [->|[->|[->|[->| ->]]]]; cbn in Hn, Hp; subst;
      injection Hp as ->; split; reflexivity.
  - intros k Hk.
    assert (E1 : snd (dis_counter c h) = true)
      by (apply dis_counter_true_iff; split; [exact Hc|congruence]).
    assert (E2 : snd (en_counter c (fst (dis_counter c h))) = true).
    { apply en_counter_true_iff. split; [exact Hc|].
      apply dis_counter_true_counter, E1. }
    split; [exact E1|]. split; [exact E2|].
    apply en_counter_true_counter, E2.
Qed.

End HalMore.

Lemma en_dis_counter_round_trips_witness :
  (Hal.counter_of 1 Hal.init = None -> pin_of 1 Hal.init = Some Hal.PinInput ->
   snd (Hal.en_counter 1 Hal.init) = true
   /\ Hal.dis_counter 1 (fst (Hal.en_counter 1 Hal.init)) = (Hal.init, true))
  /\ (forall k, Hal.counter_of 1 Hal.init = Some k ->
      snd (Hal.dis_counter 1 Hal.init) = true
      /\ snd (Hal.en_counter 1 (fst (Hal.dis_counter 1 Hal.init))) = true
      /\ Hal.counter_of 1 (fst (Hal.en_counter 1
                                  (fst (Hal.dis_counter 1 Hal.init))))
         = Some Hal.new_counter).
Proof.
  apply (en_dis_counter_round_trips 1 Hal.init).
  left. reflexivity.
Defined.

(** ** iriv_ioc_modbus.py: more on the counter hooks *)

Section IocMore.
Import IocModbus.

Ltac channel_split' H :=
  destruct H as [->|[->|[->|[->| ->]]]].

Lemma en_block_hal_disabled (v c : Z) (h : Hal.State) :
  Hal.counter_channel c -> v <> 1 ->
  Hal.counter_of c (en_block_hal v c h) = None.
Proof.
  intros Hc Hv. unfold en_block_hal.
  destruct (Z.eqb_spec v 1); [contradiction|].
  destruct (snd (Hal.dis_counter c h)) eqn:E.
  - apply dis_counter_true_counter, E.
  - rewrite (dis_counter_false_same c h E).
    destruct (Hal.counter_of c h) eqn:Hk; [|reflexivity].
    assert (snd (Hal.dis_counter c h) = true)
      by (apply dis_counter_true_iff; split; [exact Hc|congruence]).
    congruence.
Qed.

Lemma en_block_hal_consistent (v c : Z) (h : Hal.State) :
  hal_consistent h -> hal_consistent (en_block_hal v c h).
Proof.
  intros Hc. unfold en_block_hal.
  destruct (v =? 1);
    [apply en_counter_consistent|apply dis_counter_consistent]; exact Hc.
Qed.

Lemma en_block_iregs_kept (v c : Z) (h : Hal.State) (ha a : Z)
    (m : gmap Z (list Z)) :
  ~ (v = 1 /\ Hal.counter_of c h = None) ->
  en_block_iregs v c h ha m !! a = m !! a.
Proof.
  intros Hno. unfold en_block_iregs.
  destruct (Z.eqb_spec v 1) as [->|Hv]; cbn [andb]; [|reflexivity].
  destruct (snd (Hal.en_counter c h)) eqn:E; [|reflexivity].
  apply en_counter_true_iff in E as [_ E]. exfalso. auto.
Qed.

(** The hook as the composition of its five blocks. *)
Lemma counter_en_set_cb_chain (reg_type : string) (address : Z)
    (val : list Z) (w : World) :
  en_coils_defined w ->
  exists v1 v3 v5 v7 v9 w',
    COILS (client w) !! COUNT1_EN_ADD = Some v1
    /\ COILS (client w) !! COUNT3_EN_ADD = Some v3
    /\ COILS (client w) !! COUNT5_EN_ADD = Some v5
    /\ COILS (client w) !! COUNT7_EN_ADD = Some v7
    /\ COILS (client w) !! COUNT9_EN_ADD = Some v9
    /\ counter_en_set_cb reg_type address val w = (w', Ret tt)
    /\ COILS (client w') = COILS (client w)
    /\ let h1 := en_block_hal v1 1 (hal w) in
       let h2 := en_block_hal v3 3 h1 in
       let h3 := en_block_hal v5 5 h2 in
       let h4 := en_block_hal v7 7 h3 in
       hal w' = en_block_hal v9 9 h4
       /\ IREGS (client w')
          = en_block_iregs v9 9 h4 COUNT9_H_ADD
              (en_block_iregs v7 7 h3 COUNT7_H_ADD
                 (en_block_iregs v5 5 h2 COUNT5_H_ADD
                    (en_block_iregs v3 3 h1 COUNT3_H_ADD
                       (en_block_iregs v1 1 (hal w) COUNT1_H_ADD
                          (IREGS (client w)))))).
Proof.
  intros Hdef. unfold counter_en_set_cb.
  destruct (Hdef 1 channel_1) as [v1 Hv1].
  destruct (Hdef 3 channel_3) as [v3 Hv3].
  destruct (Hdef 5 channel_5) as [v5 Hv5].
  destruct (Hdef 7 channel_7) as [v7 Hv7].
  destruct (Hdef 9 channel_9) as [v9 Hv9].
  cbn [en_add Z.eqb Pos.eqb] in *.
  destruct (counter_en_block_spec COUNT1_EN_ADD 1 COUNT1_H_ADD v1 w Hv1)
    as (w1 & E1 & Hh1 & Hc1 & Hi1).
  destruct (counter_en_block_spec COUNT3_EN_ADD 3 COUNT3_H_ADD v3 w1)
    as (w2 & E2 & Hh2 & Hc2 & Hi2); [congruence|].
  destruct (counter_en_block_spec COUNT5_EN_ADD 5 COUNT5_H_ADD v5 w2)
    as (w3 & E3 & Hh3 & Hc3 & Hi3); [congruence|].
  destruct (counter_en_block_spec COUNT7_EN_ADD 7 COUNT7_H_ADD v7 w3)
    as (w4 & E4 & Hh4 & Hc4 & Hi4); [congruence|].
  destruct (counter_en_block_spec COUNT9_EN_ADD 9 COUNT9_H_ADD v9 w4)
    as (w5 & E5 & Hh5 & Hc5 & Hi5); [congruence|].
  exists v1, v3, v5, v7, v9, w5.
  rewrite (bind_Ret _ _ _ _ _ E1), (bind_Ret _ _ _ _ _ E2),
          (bind_Ret _ _ _ _ _ E3), (bind_Ret _ _ _ _ _ E4).
  repeat (split; [assumption|]).
  split; [congruence|].
  cbv zeta. rewrite Hi5, Hi4, Hi3, Hi2, Hi1, Hh5, Hh4, Hh3, Hh2, Hh1.
  split; reflexivity.
Qed.

(** A block whose channel already is as its coil says changes
    nothing. *)
Lemma counter_en_block_stable (ea c ha v : Z) (w : World) :
  Hal.counter_channel c ->
  COILS (client w) !! ea = Some v ->
  (v = 1 -> is_Some (Hal.counter_of c (hal w))) ->
  (v <> 1 -> Hal.counter_of c (hal w) = None) ->
  counter_en_block ea c ha w = (w, Ret tt).
Proof.
  intros Hc Hv H1 H0. unfold counter_en_block.
  rewrite (bind_Ret _ _ _ _ _ (get_coil_Some _ _ _ Hv)).
  destruct w as [h cl]. cbn [hal client] in *.
  destruct (Z.eqb_spec v 1) as [->|Hne].
  - unfold bindM, Hal_en_counter. cbn [hal client].
    destruct (Hal.en_counter c h) as [h' r] eqn:E.
    assert (Er : snd (Hal.en_counter c h) = false).
    { destruct (snd (Hal.en_counter c h)) eqn:Er; [|reflexivity].
      apply en_counter_true_iff in Er as [_ Er].
      destruct (H1 eq_refl) as [k Hk]. congruence. }
    pose proof (en_counter_false_same c h Er) as Hs.
    rewrite E in Er, Hs. cbn in Er, Hs. subst. reflexivity.
  - unfold bindM, Hal_dis_counter. cbn [hal client].
    destruct (Hal.dis_counter c h) as [h' r] eqn:E.
    assert (Er : snd (Hal.dis_counter c h) = false).
    { destruct (snd (Hal.dis_counter c h)) eqn:Er; [|reflexivity].
      apply dis_counter_true_iff in Er as [_ Er].
      rewrite (H0 Hne) in Er. contradiction. }
    pose proof (dis_counter_false_same c h Er) as Hs.
    rewrite E in Hs. cbn in Hs. subst. reflexivity.
Qed.

(** After the hook a channel has a counter exactly when its enable
    coil is 1. *)
Lemma counter_en_set_cb_counters (reg_type : string) (address : Z)
    (val : list Z) (w : World) :
  en_coils_defined w ->
  exists w', counter_en_set_cb reg_type address val w = (w', Ret tt)
    /\ COILS (client w') = COILS (client w)
    /\ (forall c, Hal.counter_channel c ->
          (is_Some (Hal.counter_of c (hal w'))
           <-> COILS (client w) !! en_add c = Some 1))
    /\ (hal_consistent (hal w) -> hal_consistent (hal w')).
Proof.
  intros Hdef.
  destruct (counter_en_set_cb_chain reg_type address val w Hdef)
    as (v1 & v3 & v5 & v7 & v9 & w' & Hv1 & Hv3 & Hv5 & Hv7 & Hv9 & E & Hc
        & Hh & _).
  cbv zeta in Hh.
  exists w'. split; [exact E|]. split; [exact Hc|]. split.
  - intros c Hch. pose proof Hch as Hch'. rewrite Hh.
    channel_split' Hch; cbn [en_add Z.eqb Pos.eqb];
      rewrite ?en_block_hal_other by lia;
      match goal with
      | Hv : COILS _ !! ?a = Some ?v
        |- is_Some (Hal.counter_of ?c (en_block_hal ?v ?c ?h)) <-> _ =>
          rewrite Hv; destruct (Z.eq_dec v 1) as [->|Hne];
          [ split; [reflexivity|intros _; apply en_block_hal_enabled, Hch']
          | rewrite (en_block_hal_disabled v c h Hch' Hne);
            split; [intros [? ?]; discriminate|congruence] ]
      end.
  - intros Hcons. rewrite Hh. repeat apply en_block_hal_consistent.
    exact Hcons.
Qed.

(** X3: on a table that has the enable coils, [counter_en_set_cb]
    always completes and brings the HAL in line with the coils: a
    channel has a counter object afterwards exactly when its enable
    coil is 1.  It keeps the coils, keeps each channel either counting
    or an input, and running it a second time changes nothing. *)
Theorem counter_en_set_cb_synchronises (reg_type : string) (address : Z)
    (val : list Z) (w : World) :
  en_coils_defined w ->
  exists w', counter_en_set_cb reg_type address val w = (w', Ret tt)
    /\ COILS (client w') = COILS (client w)
    /\ (forall c, Hal.counter_channel c ->
          (is_Some (Hal.counter_of c (hal w'))
           <-> COILS (client w) !! en_add c = Some 1))
    /\ (hal_consistent (hal w) -> hal_consistent (hal w'))
    /\ counter_en_set_cb reg_type address val w' = (w', Ret tt).
Proof.
  intros Hdef.
  destruct (counter_en_set_cb_counters reg_type address val w Hdef)
    as (w' & E & Hc & Hsync & Hcons).
  destruct (Hdef 1 channel_1) as [v1 Hv1].
  destruct (Hdef 3 channel_3) as [v3 Hv3].
  destruct (Hdef 5 channel_5) as [v5 Hv5].
  destruct (Hdef 7 channel_7) as [v7 Hv7].
  destruct (Hdef 9 channel_9) as [v9 Hv9].
  cbn [en_add Z.eqb Pos.eqb] in Hv1, Hv3, Hv5, Hv7, Hv9.
  exists w'. split; [exact E|]. split; [exact Hc|].
  split; [exact Hsync|]. split; [exact Hcons|].
  unfold counter_en_set_cb.
  assert (Hst : forall ea c ha v, Hal.counter_channel c ->
            COILS (client w) !! ea = Some v -> ea = en_add c ->
            counter_en_block ea c ha w' = (w', Ret tt)).
  { intros ea c ha v Hch Hv ->. apply (counter_en_block_stable _ c ha v w' Hch).
    - rewrite Hc. exact Hv.
    - intros ->. apply Hsync; assumption.
    - intros Hne. destruct (Hal.counter_of c (hal w')) eqn:Hk; [|reflexivity].
      exfalso. apply Hne.
      assert (Hs : is_Some (Hal.counter_of c (hal w'))) by (rewrite Hk; eauto).
      apply Hsync in Hs; [|exact Hch]. congruence. }
  rewrite (bind_Ret _ _ _ _ _
             (Hst COUNT1_EN_ADD 1 COUNT1_H_ADD v1 channel_1 Hv1 eq_refl)).
  rewrite (bind_Ret _ _ _ _ _
             (Hst COUNT3_EN_ADD 3 COUNT3_H_ADD v3 channel_3 Hv3 eq_refl)).
  rewrite (bind_Ret _ _ _ _ _
             (Hst COUNT5_EN_ADD 5 COUNT5_H_ADD v5 channel_5 Hv5 eq_refl)).
  rewrite (bind_Ret _ _ _ _ _
             (Hst COUNT7_EN_ADD 7 COUNT7_H_ADD v7 channel_7 Hv7 eq_refl)).
  exact (Hst COUNT9_EN_ADD 9 COUNT9_H_ADD v9 channel_9 Hv9 eq_refl).
Qed.

(** X4: [counter_en_set_cb] clears the value registers of the
    channels it newly enables only: a channel that was counting
    already, or whose coil is not 1, keeps its value registers, as
    does every input register that is not a counter value. *)
Theorem counter_en_set_cb_keeps_running_counts (reg_type : string)
    (address : Z) (val : list Z) (w : World) :
  en_coils_defined w ->
  exists w', counter_en_set_cb reg_type address val w = (w', Ret tt)
    /\ (forall c, Hal.counter_channel c ->
          ~ (COILS (client w) !! en_add c = Some 1
             /\ Hal.counter_of c (hal w) = None) ->
          IREGS (client w') !! h_add c = IREGS (client w) !! h_add c)
    /\ (forall c k, Hal.counter_channel c ->
          COILS (client w) !! en_add c = Some 1 ->
          Hal.counter_of c (hal w) = Some k ->
          Hal.counter_of c (hal w') = Some k)
    /\ (forall a, (forall c, Hal.counter_channel c -> a <> h_add c) ->
          IREGS (client w') !! a = IREGS (client w) !! a).
Proof.
  intros Hdef.
  destruct (counter_en_set_cb_chain reg_type address val w Hdef)
    as (v1 & v3 & v5 & v7 & v9 & w' & Hv1 & Hv3 & Hv5 & Hv7 & Hv9 & E & Hc
        & Hh & Hi).
  cbv zeta in Hh, Hi.
  exists w'. split; [exact E|]. rewrite Hi, Hh. split; [|split].
  - intros c Hch Hno.
    channel_split' Hch; cbn [en_add h_add Z.eqb Pos.eqb] in *;
      rewrite ?en_block_iregs_other by (vm_compute; congruence);
      (rewrite en_block_iregs_kept;
       [rewrite ?en_block_iregs_other by (vm_compute; congruence);
        reflexivity|]);
      rewrite ?en_block_hal_other by lia;
      intros [-> Hn]; apply Hno; split; assumption.
  - intros c k Hch Hen Hk.
    channel_split' Hch; cbn [en_add Z.eqb Pos.eqb] in *;
      rewrite ?en_block_hal_other by lia;
      match goal with
      | Hv : COILS _ !! ?a = Some ?v, Hen : COILS _ !! ?a = Some 1 |- _ =>
          assert (v = 1) by congruence; subst v
      end;
      unfold en_block_hal at 1; cbn [Z.eqb Pos.eqb];
      (rewrite en_counter_false_same;
       [rewrite ?en_block_hal_other by lia; exact Hk|]);
      match goal with
      | |- snd (Hal.en_counter ?c ?h) = false =>
          destruct (snd (Hal.en_counter c h)) eqn:Er; [|reflexivity];
          apply en_counter_true_iff in Er as [_ Er];
          rewrite ?en_block_hal_other in Er by lia; congruence
      end.
  - intros a Ha.
    pose proof (Ha 1 channel_1). pose proof (Ha 3 channel_3).
    pose proof (Ha 5 channel_5). pose proof (Ha 7 channel_7).
    pose proof (Ha 9 channel_9).
    cbn [h_add Z.eqb Pos.eqb] in *.
    rewrite !en_block_iregs_other by assumption. reflexivity.
Qed.

End IocMore.

Lemma counter_en_set_cb_synchronises_witness :
  exists w', IocModbus.counter_en_set_cb "COILS" IocModbus.COUNT1_EN_ADD [1]
               run_counting = (w', Ret tt)
    /\ IocModbus.COILS (IocModbus.client w')
       = IocModbus.COILS (IocModbus.client run_counting)
    /\ (forall c, Hal.counter_channel c ->
          (is_Some (Hal.counter_of c (IocModbus.hal w'))
           <-> IocModbus.COILS (IocModbus.client run_counting)
                 !! IocModbus.en_add c = Some 1))
    /\ (hal_consistent (IocModbus.hal run_counting) ->
        hal_consistent (IocModbus.hal w'))
    /\ IocModbus.counter_en_set_cb "COILS" IocModbus.COUNT1_EN_ADD [1] w'
       = (w', Ret tt).
Proof.
  apply (counter_en_set_cb_synchronises "COILS" IocModbus.COUNT1_EN_ADD [1]
           run_counting).
  intros c [->|[->|[->|[->| ->]]]]; vm_compute; eauto.
Defined.

Lemma counter_en_set_cb_keeps_running_counts_witness :
  exists w', IocModbus.counter_en_set_cb "COILS" IocModbus.COUNT1_EN_ADD [1]
               run_counting = (w', Ret tt)
    /\ (forall c, Hal.counter_channel c ->
          ~ (IocModbus.COILS (IocModbus.client run_counting)
               !! IocModbus.en_add c = Some 1
             /\ Hal.counter_of c (IocModbus.hal run_counting) = None) ->
          IocModbus.IREGS (IocModbus.client w') !! IocModbus.h_add c
          = IocModbus.IREGS (IocModbus.client run_counting)
              !! IocModbus.h_add c)
    /\ (forall c k, Hal.counter_channel c ->
          IocModbus.COILS (IocModbus.client run_counting)
            !! IocModbus.en_add c = Some 1 ->
          Hal.counter_of c (IocModbus.hal run_counting) = Some k ->
          Hal.counter_of c (IocModbus.hal w') = Some k)
    /\ (forall a, (forall c, Hal.counter_channel c ->
                     a <> IocModbus.h_add c) ->
          IocModbus.IREGS (IocModbus.client w') !! a
          = IocModbus.IREGS (IocModbus.client run_counting) !! a).
Proof.
  apply (counter_en_set_cb_keeps_running_counts "COILS"
           IocModbus.COUNT1_EN_ADD [1] run_counting).
  intros c [->|[->|[->|[->| ->]]]]; vm_compute; eauto.
Defined.

(** ** iriv_ioc_modbus.py: the reset hook, block by block *)

Section RstBlocks.
Import IocModbus.

Lemma bind_Raise {S A B} (m : M S A) (k : A -> M S B) (s s1 : S) (e : Exn) :
  m s = (s1, Raise e) -> bindM m k s = (s1, Raise e).
Proof. unfold bindM. intros ->. reflexivity. Qed.

Lemma bind_ret_tt {S} (m : M S unit) (s : S) : bindM m (fun _ => ret tt) s = m s.
Proof. unfold bindM, ret. destruct (m s) as [s1 [[]|e]]; reflexivity. Qed.

Lemma counter_rst_set_cb_blocks (reg_type : string) (address : Z)
    (val : list Z) (w : World) :
  counter_rst_set_cb reg_type address val w
  = run_blocks (map rst_block_of counter_channels) w.
Proof.
  unfold counter_rst_set_cb, counter_channels, rst_block_of.
  cbn [map run_blocks rst_add h_add Z.eqb Pos.eqb].
  unfold bindM at 1 5.
  destruct (counter_rst_block COUNT1_RST_ADD 1 COUNT1_H_ADD w)
    as [w1 [[]|e]]; [|reflexivity].
  unfold bindM at 1 4.
  destruct (counter_rst_block COUNT3_RST_ADD 3 COUNT3_H_ADD w1)
    as [w2 [[]|e]]; [|reflexivity].
  unfold bindM at 1 3.
  destruct (counter_rst_block COUNT5_RST_ADD 5 COUNT5_H_ADD w2)
    as [w3 [[]|e]]; [|reflexivity].
  unfold bindM at 1 2.
  destruct (counter_rst_block COUNT7_RST_ADD 7 COUNT7_H_ADD w3)
    as [w4 [[]|e]]; [|reflexivity].
  symmetry. apply bind_ret_tt.
Qed.

Lemma rst_add_inj (c c' : Z) :
  Hal.counter_channel c -> Hal.counter_channel c' ->
  rst_add c = rst_add c' -> c = c'.
Proof.
  intros [->|[->|[->|[->| ->]]]] [->|[->|[->|[->| ->]]]];
    vm_compute; congruence.
Qed.

Lemma h_add_inj (c c' : Z) :
  Hal.counter_channel c -> Hal.counter_channel c' ->
  h_add c = h_add c' -> c = c'.
Proof.
  intros [->|[->|[->|[->| ->]]]] [->|[->|[->|[->| ->]]]];
    vm_compute; congruence.
Qed.

Lemma en_add_not_rst_add (c c' : Z) :
  Hal.counter_channel c -> Hal.counter_channel c' -> en_add c <> rst_add c'.
Proof.
  intros [->|[->|[->|[->| ->]]]] [->|[->|[->|[->| ->]]]];
    vm_compute; congruence.
Qed.

(** A block that completes: the view of its own channel and of the
    others, and the addresses of no channel. *)
Lemma rst_block_of_ok (c v : Z) (w : World) :
  Hal.counter_channel c ->
  COILS (client w) !! rst_add c = Some v ->
  (v = 1 -> is_Some (Hal.counter_of c (hal w))) ->
  exists w', rst_block_of c w = (w', Ret tt)
    /\ (v <> 1 -> w' = w)
    /\ (v = 1 -> exists k, Hal.counter_of c (hal w) = Some k
                   /\ channel_view c w'
                      = (Some 0, Some [0; 0], Some (Hal.reset k)))
    /\ (forall c', Hal.counter_channel c' -> c' <> c ->
          channel_view c' w' = channel_view c' w)
    /\ (forall a, a <> rst_add c ->
          COILS (client w') !! a = COILS (client w) !! a)
    /\ (forall a, a <> h_add c ->
          IREGS (client w') !! a = IREGS (client w) !! a).
Proof.
  intros Hc Hv Hk. unfold rst_block_of.
  pose proof (counter_rst_block_cases (rst_add c) c (h_add c) w) as H.
  rewrite Hv in H.
  destruct (Z.eqb_spec v 1) as [->|Hne].
  - destruct (Hk eq_refl) as [k Ek]. rewrite Ek in H.
    eexists. split; [exact H|].
    split; [intros Hn; contradiction|].
    split.
    { intros _. exists k. split; [exact Ek|].
      unfold channel_view. cbn [client hal COILS IREGS].
      rewrite !lookup_insert_eq. f_equal.
      clear - Hc. unfold Hal.set_counter, Hal.counter_of.
      destruct Hc as [->|[->|[->|[->| ->]]]]; reflexivity. }
    split.
    { intros c' Hc' Hne. unfold channel_view. cbn [client hal COILS IREGS].
      rewrite !lookup_insert_ne
        by (intros Heq; apply Hne; symmetry;
            first [apply rst_add_inj; assumption
                  |apply h_add_inj; assumption]).
      f_equal.
      apply (rst_block_hal_other 1 c c' (hal w)) in Hne.
      unfold rst_block_hal in Hne. rewrite Ek in Hne.
      cbn [Z.eqb Pos.eqb] in Hne. exact Hne. }
    split; intros a Ha; cbn [client COILS IREGS];
      rewrite lookup_insert_ne by congruence; reflexivity.
  - eexists. split; [exact H|].
    split; [reflexivity|].
    split; [intros; contradiction|].
    repeat split.
Qed.

(** A block whose counter object is missing: the coil is cleared
    and [reset()] raises. *)
Lemma rst_block_of_fails (c : Z) (w : World) :
  COILS (client w) !! rst_add c = Some 1 ->
  Hal.counter_of c (hal w) = None ->
  rst_block_of c w
  = (mkWorld (hal w)
       (mkRegisters (<[rst_add c := 0]> (COILS (client w)))
                    (IREGS (client w))),
     Raise AttributeError).
Proof.
  intros Hv Hn.
  unfold rst_block_of, counter_rst_block, get_coil, Hal_counter_reset,
    Hal_counter, set_coil, set_ireg, modify, bindM.
  rewrite Hv. cbn. rewrite Hn. reflexivity.
Qed.

End RstBlocks.

Section RstRuns.
Import IocModbus.

Lemma channel_view_parts (c : Z) (w w' : World) :
  channel_view c w' = channel_view c w ->
  COILS (client w') !! rst_add c = COILS (client w) !! rst_add c
  /\ IREGS (client w') !! h_add c = IREGS (client w) !! h_add c
  /\ Hal.counter_of c (hal w') = Hal.counter_of c (hal w).
Proof. unfold channel_view. intros [= H1 H2 H3]. auto. Qed.

Lemma run_blocks_app (a b : list (M World unit)) (w : World) :
  run_blocks (a ++ b) w = (run_blocks a >>> run_blocks b) w.
Proof.
  revert w. induction a as [|m a IH]; intros w; [reflexivity|].
  cbn [app run_blocks]. unfold bindM at 1 2 3.
  destruct (m w) as [w1 [[]|e]]; [|reflexivity].
  rewrite IH. reflexivity.
Qed.

(** The blocks of a list of distinct channels, when each channel
    whose reset coil is 1 has its counter object. *)
Lemma run_rst_blocks_ok (cs : list Z) :
  NoDup cs -> (forall c, c ∈ cs -> Hal.counter_channel c) ->
  forall w,
    (forall c, c ∈ cs -> is_Some (COILS (client w) !! rst_add c)) ->
    (forall c, c ∈ cs -> COILS (client w) !! rst_add c = Some 1 ->
       is_Some (Hal.counter_of c (hal w))) ->
    exists w', run_blocks (map rst_block_of cs) w = (w', Ret tt)
      /\ (forall c, c ∈ cs -> COILS (client w) !! rst_add c = Some 1 ->
            exists k, Hal.counter_of c (hal w) = Some k
              /\ channel_view c w' = (Some 0, Some [0; 0], Some (Hal.reset k)))
      /\ (forall c, Hal.counter_channel c ->
            c ∉ cs \/ COILS (client w) !! rst_add c <> Some 1 ->
            channel_view c w' = channel_view c w)
      /\ (forall a, (forall c, Hal.counter_channel c -> a <> rst_add c) ->
            COILS (client w') !! a = COILS (client w) !! a)
      /\ (forall a, (forall c, Hal.counter_channel c -> a <> h_add c) ->
            IREGS (client w') !! a = IREGS (client w) !! a).
Proof.
  induction cs as [|c0 cs IH]; intros Hnd Hch w Hdef Hpres.
  - exists w. split; [reflexivity|]. split.
    { intros c Hin. apply elem_of_nil in Hin. contradiction. }
    repeat split.
  - apply NoDup_cons in Hnd as [Hnotin Hnd].
    assert (Hc0 : Hal.counter_channel c0) by (apply Hch; left).
    destruct (Hdef c0) as [v0 Hv0]; [left|].
    destruct (rst_block_of_ok c0 v0 w Hc0 Hv0) as
      (w1 & E1 & Fno & Fyes & Foth & Fco & Fir).
    { intros ->. apply Hpres; [left|exact Hv0]. }
    assert (Hview : forall c, c ∈ cs -> channel_view c w1 = channel_view c w).
    { intros c Hin. apply Foth; [apply Hch; right; exact Hin|].
      intros ->. contradiction. }
    destruct (IH Hnd (fun c Hin => Hch c (list_elem_of_further _ _ _ Hin)) w1)
      as (w' & E & Hyes & Hno & Hco & Hir).
    { intros c Hin. destruct (channel_view_parts c _ _ (Hview c Hin)) as (-> & _).
      apply Hdef. right. exact Hin. }
    { intros c Hin Hone.
      destruct (channel_view_parts c _ _ (Hview c Hin)) as (H1 & _ & ->).
      apply Hpres; [right; exact Hin|]. rewrite <- H1. exact Hone. }
    exists w'. cbn [map run_blocks]. rewrite (bind_Ret _ _ _ _ _ E1).
    split; [exact E|]. split; [|split; [|split]].
    + intros c Hin Hone. apply elem_of_cons in Hin as [->|Hin].
      * assert (v0 = 1) by congruence. subst v0.
        destruct (Fyes eq_refl) as (k & Hk & Hv). exists k.
        split; [exact Hk|]. rewrite <- Hv. apply Hno; [exact Hc0|].
        left. exact Hnotin.
      * destruct (channel_view_parts c _ _ (Hview c Hin)) as (H1 & _ & H3).
        destruct (Hyes c Hin) as (k & Hk & Hv); [rewrite H1; exact Hone|].
        exists k. split; [rewrite <- H3; exact Hk|exact Hv].
    + intros c Hc Hcase.
      destruct (Z.eq_dec c c0) as [->|Hne].
      * assert (Hv1 : v0 <> 1).
        { destruct Hcase as [Hn|Hn]; [exfalso; apply Hn; left|congruence]. }
        rewrite <- (Fno Hv1). apply Hno; [exact Hc|]. left. exact Hnotin.
      * rewrite <- (Foth c Hc Hne). apply Hno; [exact Hc|].
        destruct (channel_view_parts c _ _ (Foth c Hc Hne)) as (H1 & _).
        destruct Hcase as [Hn|Hn].
        -- left. intros Hin. apply Hn. right. exact Hin.
        -- right. rewrite H1. exact Hn.
    + intros a Ha. rewrite (Hco a Ha). apply Fco, Ha, Hc0.
    + intros a Ha. rewrite (Hir a Ha). apply Fir, Ha, Hc0.
Qed.

(** The blocks of [pre], then the block of a channel whose reset
    coil is 1 and whose counter object is missing. *)
Lemma run_rst_blocks_fail (pre post : list Z) (c : Z) (w : World) :
  NoDup (pre ++ c :: post) ->
  (forall c0, c0 ∈ pre ++ c :: post -> Hal.counter_channel c0) ->
  (forall c0, c0 ∈ pre -> is_Some (COILS (client w) !! rst_add c0)) ->
  (forall c0, c0 ∈ pre -> COILS (client w) !! rst_add c0 = Some 1 ->
     is_Some (Hal.counter_of c0 (hal w))) ->
  COILS (client w) !! rst_add c = Some 1 ->
  Hal.counter_of c (hal w) = None ->
  exists w', run_blocks (map rst_block_of (pre ++ c :: post)) w
             = (w', Raise AttributeError)
    /\ channel_view c w'
       = (Some 0, IREGS (client w) !! h_add c, None)
    /\ (forall c2, c2 ∈ post -> channel_view c2 w' = channel_view c2 w)
    /\ (forall c0, c0 ∈ pre -> COILS (client w) !! rst_add c0 = Some 1 ->
          exists k, Hal.counter_of c0 (hal w) = Some k
            /\ channel_view c0 w'
               = (Some 0, Some [0; 0], Some (Hal.reset k))).
Proof.
  intros Hnd Hch Hdef Hpres Hone Hnone.
  apply NoDup_app in Hnd as (Hnd1 & Hdisj & Hnd2).
  apply NoDup_cons in Hnd2 as [Hcpost _].
  assert (Hc : Hal.counter_channel c)
    by (apply Hch, elem_of_app; right; left).
  assert (Hcpre : c ∉ pre) by (intros Hin; apply (Hdisj c Hin); left).
  destruct (run_rst_blocks_ok pre Hnd1
              (fun c0 Hin => Hch c0 (proj2 (elem_of_app _ _ _)
                                       (or_introl Hin))) w Hdef Hpres)
    as (w1 & E1 & Hyes & Hno & _ & _).
  destruct (channel_view_parts c _ _ (Hno c Hc (or_introl Hcpre)))
    as (H1 & H2 & H3).
  eexists. rewrite map_app, run_blocks_app.
  rewrite (bind_Ret _ _ _ _ _ E1). cbn [map run_blocks].
  rewrite (bind_Raise _ _ _ _ _
             (rst_block_of_fails c w1 ltac:(rewrite H1; exact Hone)
                ltac:(rewrite H3; exact Hnone))).
  split; [reflexivity|]. split; [|split].
  - unfold channel_view. cbn [client hal COILS IREGS].
    rewrite lookup_insert_eq, H2, H3, Hnone. reflexivity.
  - intros c2 Hin.
    assert (Hc2 : Hal.counter_channel c2)
      by (apply Hch, elem_of_app; right; right; exact Hin).
    assert (Hne : c2 <> c) by (intros ->; contradiction).
    rewrite <- (Hno c2 Hc2).
    + unfold channel_view. cbn [client hal COILS IREGS].
      rewrite lookup_insert_ne
        by (intros Heq; apply Hne; symmetry; apply rst_add_inj; assumption).
      reflexivity.
    + left. intros Hin2. apply (Hdisj c2 Hin2). right. exact Hin.
  - intros c0 Hin Hone0. destruct (Hyes c0 Hin Hone0) as (k & Hk & Hv).
    exists k. split; [exact Hk|]. rewrite <- Hv.
    assert (Hne : c0 <> c) by (intros ->; contradiction).
    assert (Hc0 : Hal.counter_channel c0)
      by (apply Hch, elem_of_app; left; exact Hin).
    unfold channel_view. cbn [client hal COILS IREGS].
    rewrite lookup_insert_ne
      by (intros Heq; apply Hne; symmetry; apply rst_add_inj; assumption).
    reflexivity.
Qed.

End RstRuns.

Section RstMore.
Import IocModbus.

Lemma counter_channels_NoDup : NoDup counter_channels.
Proof. apply (bool_decide_unpack _). vm_compute. exact I. Qed.

Lemma elem_of_counter_channels (c : Z) :
  c ∈ counter_channels <-> Hal.counter_channel c.
Proof.
  unfold counter_channels, Hal.counter_channel.
  rewrite !elem_of_cons, elem_of_nil. tauto.
Qed.

Ltac solve_channel_lists :=
  match goal with
  | |- NoDup _ => apply (bool_decide_unpack _); vm_compute; exact I
  | |- forall c0, c0 ∈ _ -> Hal.counter_channel c0 =>
      let H := fresh in
      intros ? H; apply elem_of_counter_channels;
      unfold counter_channels; cbn [app] in H |- *;
      rewrite ?elem_of_cons, ?elem_of_nil in H |- *; tauto
  end.

(** X5: when a reset coil is 1 for a channel whose counter is
    disabled, [counter_rst_set_cb] raises [AttributeError] at that
    channel, the first such in the order 1, 3, 5, 7, 9.  Its reset
    coil is cleared already, its value registers are as before; the
    channels before it are reset and their coils cleared; the
    channels after it are not looked at, so a reset coil that is 1
    there stays 1. *)
Theorem counter_rst_set_cb_missing_counter (reg_type : string) (address : Z)
    (val : list Z) (w : World) (c : Z) :
  Hal.counter_channel c ->
  (forall c0, Hal.counter_channel c0 -> c0 < c ->
     is_Some (COILS (client w) !! rst_add c0)) ->
  (forall c0, Hal.counter_channel c0 -> c0 < c ->
     COILS (client w) !! rst_add c0 = Some 1 ->
     is_Some (Hal.counter_of c0 (hal w))) ->
  COILS (client w) !! rst_add c = Some 1 ->
  Hal.counter_of c (hal w) = None ->
  exists w', counter_rst_set_cb reg_type address val w
             = (w', Raise AttributeError)
    /\ COILS (client w') !! rst_add c = Some 0
    /\ IREGS (client w') !! h_add c = IREGS (client w) !! h_add c
    /\ (forall c2, Hal.counter_channel c2 -> c < c2 ->
          COILS (client w') !! rst_add c2 = COILS (client w) !! rst_add c2
          /\ IREGS (client w') !! h_add c2 = IREGS (client w) !! h_add c2
          /\ Hal.counter_of c2 (hal w') = Hal.counter_of c2 (hal w))
    /\ (forall c0, Hal.counter_channel c0 -> c0 < c ->
          COILS (client w) !! rst_add c0 = Some 1 ->
          COILS (client w') !! rst_add c0 = Some 0
          /\ IREGS (client w') !! h_add c0 = Some [0; 0]).
Proof.
  intros Hc Hdef Hpres Hone Hnone.
  rewrite counter_rst_set_cb_blocks.
  assert (Hsplit : exists pre post,
            counter_channels = pre ++ c :: post
            /\ (forall c0, c0 ∈ pre <-> Hal.counter_channel c0 /\ c0 < c)
            /\ (forall c2, c2 ∈ post <-> Hal.counter_channel c2 /\ c < c2)).
  { unfold counter_channels, Hal.counter_channel.
    destruct Hc as [->|[->|[->|[->| ->]]]];
      [exists [], [3; 5; 7; 9] | exists [1], [5; 7; 9] | exists [1; 3], [7; 9]
      |exists [1; 3; 5], [9] | exists [1; 3; 5; 7], []];
      (split; [reflexivity|]); split; intros x;
      rewrite ?elem_of_cons, ?elem_of_nil; lia. }
  destruct Hsplit as (pre & post & Hcs & Hpre & Hpost).
  rewrite Hcs.
  destruct (run_rst_blocks_fail pre post c w) as (w' & E & Hv & Hafter & Hbefore).
  - rewrite <- Hcs. apply counter_channels_NoDup.
  - intros c0 Hin. rewrite <- Hcs in Hin.
    apply elem_of_counter_channels, Hin.
  - intros c0 Hin. apply Hpre in Hin as [H1 H2]. apply Hdef; assumption.
  - intros c0 Hin. apply Hpre in Hin as [H1 H2]. apply Hpres; assumption.
  - exact Hone.
  - exact Hnone.
  - exists w'. split; [exact E|].
    unfold channel_view in Hv. injection Hv as Hv1 Hv2 Hv3.
    split; [exact Hv1|]. split; [exact Hv2|]. split.
    + intros c2 Hc2 Hlt.
      apply channel_view_parts, Hafter, Hpost. auto.
    + intros c0 Hc0 Hlt Hone0.
      destruct (Hbefore c0) as (k & _ & Hk); [apply Hpre; auto|exact Hone0|].
      unfold channel_view in Hk. injection Hk as H1 H2 _. auto.
Qed.

(** X6: when [counter_rst_set_cb] completes, the counter of every
    channel whose reset coil was 1 is at zero and the enable coils
    are as before; [counter_get_cb] run next completes and leaves
    [0, 0] in the value registers of those channels. *)
Theorem counter_rst_then_get_reads_zero (reg_type : string) (address : Z)
    (val : list Z) (w : World) :
  rst_coils_defined w -> reset_counters_present w ->
  en_coils_defined w -> enabled_counters_present w ->
  exists w1 w2,
    counter_rst_set_cb reg_type address val w = (w1, Ret tt)
    /\ counter_get_cb reg_type address val w1 = (w2, Ret tt)
    /\ forall c, Hal.counter_channel c ->
         COILS (client w1) !! en_add c = COILS (client w) !! en_add c
         /\ (COILS (client w) !! rst_add c = Some 1 ->
             (exists k, Hal.counter_of c (hal w1) = Some k
                        /\ Hal.count k = 0)
             /\ IREGS (client w2) !! h_add c = Some [0; 0]).
Proof.
  intros Hrdef Hrpres Hedef Hepres.
  destruct (run_rst_blocks_ok counter_channels counter_channels_NoDup
              (fun c Hin => proj1 (elem_of_counter_channels c) Hin) w)
    as (w1 & E1 & Hyes & Hno & Hco & _).
  { intros c Hin. apply Hrdef, elem_of_counter_channels, Hin. }
  { intros c Hin. apply Hrpres, elem_of_counter_channels, Hin. }
  assert (Hen : forall c, Hal.counter_channel c ->
            COILS (client w1) !! en_add c = COILS (client w) !! en_add c).
  { intros c Hc. apply Hco. intros c' Hc'. apply en_add_not_rst_add; assumption. }
  assert (Hcnt : forall c, Hal.counter_channel c ->
            is_Some (Hal.counter_of c (hal w)) ->
            is_Some (Hal.counter_of c (hal w1))).
  { intros c Hc Hs.
    destruct (decide (COILS (client w) !! rst_add c = Some 1)) as [Hone|Hn].
    - destruct (Hyes c) as (k & _ & Hv);
        [apply elem_of_counter_channels, Hc|exact Hone|].
      unfold channel_view in Hv. injection Hv as _ _ ->. eauto.
    - destruct (channel_view_parts c _ _ (Hno c Hc (or_intror Hn)))
        as (_ & _ & ->). exact Hs. }
  destruct (counter_get_cb_spec reg_type address val w1)
    as (w2 & E2 & _ & _ & Hst & Hkeep & _).
  { intros c Hc. rewrite (Hen c Hc). apply Hedef, Hc. }
  { intros c Hc Hone. apply Hcnt; [exact Hc|]. apply Hepres; [exact Hc|].
    rewrite <- (Hen c Hc). exact Hone. }
  exists w1, w2. rewrite counter_rst_set_cb_blocks.
  split; [exact E1|]. split; [exact E2|].
  intros c Hc. split; [apply Hen, Hc|].
  intros Hone.
  destruct (Hyes c) as (k & Hk & Hv);
    [apply elem_of_counter_channels, Hc|exact Hone|].
  unfold channel_view in Hv. injection Hv as _ Hv2 Hv3.
  split; [exists (Hal.reset k); split; [exact Hv3|reflexivity]|].
  destruct (decide (COILS (client w1) !! en_add c = Some 1)) as [He|He].
  - rewrite (Hst c (Hal.reset k) Hc He Hv3). reflexivity.
  - rewrite (Hkeep c Hc He). exact Hv2.
Qed.

Lemma stored_pair_words (count : Z) :
  stored_pair count = [count / 2 ^ 8; count mod 2 ^ 16].
Proof.
  unfold stored_pair. rewrite Z.shiftr_div_pow2 by lia.
  change 0xffff with (Z.ones 16). rewrite Z.land_ones by lia. reflexivity.
Qed.

Lemma standard_split_words (count : Z) :
  standard_split count = [count / 2 ^ 16; count mod 2 ^ 16].
Proof.
  unfold standard_split. rewrite Z.shiftr_div_pow2 by lia.
  change 0xffff with (Z.ones 16). rewrite Z.land_ones by lia. reflexivity.
Qed.

(** X7: for an enabled channel with a count that is not negative,
    the two words [counter_get_cb] stores are the standard split of
    the count exactly when the count is below 256; the low word is
    always a 16-bit value and the high word is one exactly when the
    count is below 2^24; and the count is the high word times 256
    plus the low eight bits of the low word, so the pair loses
    nothing. *)
Theorem counter_get_cb_pair_arithmetic (reg_type : string) (address : Z)
    (val : list Z) (w : World) :
  en_coils_defined w -> enabled_counters_present w ->
  exists w', counter_get_cb reg_type address val w = (w', Ret tt)
    /\ forall c k, Hal.counter_channel c ->
         COILS (client w) !! en_add c = Some 1 ->
         Hal.counter_of c (hal w) = Some k ->
         0 <= Hal.count k ->
         exists hi lo,
           IREGS (client w') !! h_add c = Some [hi; lo]
           /\ ([hi; lo] = standard_split (Hal.count k)
               <-> Hal.count k < 2 ^ 8)
           /\ 0 <= lo < 2 ^ 16
           /\ (0 <= hi < 2 ^ 16 <-> Hal.count k < 2 ^ 24)
           /\ Hal.count k = hi * 2 ^ 8 + lo mod 2 ^ 8.
Proof.
  intros Hdef Hpres.
  destruct (counter_get_cb_spec reg_type address val w Hdef Hpres)
    as (w' & E & _ & _ & Hst & _).
  exists w'. split; [exact E|].
  intros c k Hc Hen Hk Hpos. set (n := Hal.count k) in *.
  exists (n / 2 ^ 8), (n mod 2 ^ 16).
  split; [rewrite (Hst c k Hc Hen Hk); f_equal; apply stored_pair_words|].
  rewrite standard_split_words.
  assert (H8 : 0 <= n / 2 ^ 8) by (apply Z.div_pos; lia).
  assert (Hdd : n / 2 ^ 16 = n / 2 ^ 8 / 2 ^ 8)
    by (rewrite Z.div_div by lia; reflexivity).
  split; [|split; [|split]].
  - split.
    + intros [= Heq]. rewrite Hdd in Heq.
      destruct (Z_lt_le_dec n (2 ^ 8)) as [Hlt|Hge]; [exact Hlt|exfalso].
      assert (1 <= n / 2 ^ 8) by (apply Z.div_le_lower_bound; lia).
      pose proof (Z.div_lt (n / 2 ^ 8) (2 ^ 8)). lia.
    + intros Hlt. rewrite Hdd, (Z.div_small n (2 ^ 8)) by lia. reflexivity.
  - apply Z.mod_pos_bound. lia.
  - split.
    + intros [_ Hhi].
      pose proof (Z.mul_succ_div_gt n (2 ^ 8) ltac:(lia)). lia.
    + intros Hlt. split; [exact H8|].
      apply Z.div_lt_upper_bound; lia.
  - pose proof (Z.div_mod n (2 ^ 8) ltac:(lia)) as Hdm.
    assert (Hmm : (n mod 2 ^ 16) mod 2 ^ 8 = n mod 2 ^ 8).
    { change (2 ^ 16) with (2 ^ 8 * 2 ^ 8).
      rewrite Z.rem_mul_r by lia.
      rewrite (Z.mul_comm (2 ^ 8)), Z.mod_add by lia.
      apply Z.mod_mod. lia. }
    rewrite Hmm. lia.
Qed.

End RstMore.


Section RstMoreRuns.
Import IocModbus.

Lemma counter_rst_set_cb_missing_counter_witness :
  exists w', counter_rst_set_cb "COILS" COUNT3_RST_ADD [1] run_reset_disabled
             = (w', Raise AttributeError)
    /\ COILS (client w') !! rst_add 3 = Some 0
    /\ IREGS (client w') !! h_add 3
       = IREGS (client run_reset_disabled) !! h_add 3
    /\ (forall c2, Hal.counter_channel c2 -> 3 < c2 ->
          COILS (client w') !! rst_add c2
          = COILS (client run_reset_disabled) !! rst_add c2
          /\ IREGS (client w') !! h_add c2
             = IREGS (client run_reset_disabled) !! h_add c2
          /\ Hal.counter_of c2 (hal w')
             = Hal.counter_of c2 (hal run_reset_disabled))
    /\ (forall c0, Hal.counter_channel c0 -> c0 < 3 ->
          COILS (client run_reset_disabled) !! rst_add c0 = Some 1 ->
          COILS (client w') !! rst_add c0 = Some 0
          /\ IREGS (client w') !! h_add c0 = Some [0; 0]).
Proof.
  apply (counter_rst_set_cb_missing_counter "COILS" COUNT3_RST_ADD [1]
           run_reset_disabled 3).
  - right. left. reflexivity.
  - intros c0 [->|[->|[->|[->| ->]]]] Hlt; try lia. vm_compute. eauto.
  - intros c0 [->|[->|[->|[->| ->]]]] Hlt _; try lia. vm_compute. eauto.
  - vm_compute. reflexivity.
  - reflexivity.
Defined.

(** In that state the reset coil of channel 5 is still 1 after the
    hook has raised, and counter 1 is back at zero. *)
Example run_reset_disabled_leaves_later_coil :
  let w' := fst (counter_rst_set_cb "COILS" COUNT3_RST_ADD [1]
                   run_reset_disabled) in
  COILS (client w') !! COUNT5_RST_ADD = Some 1
  /\ COILS (client w') !! COUNT3_RST_ADD = Some 0
  /\ Hal.count1 (hal w') = Some (Hal.mkCounter 0).
Proof. vm_compute. auto. Qed.

Lemma counter_rst_then_get_reads_zero_witness :
  exists w1 w2,
    counter_rst_set_cb "COILS" COUNT1_RST_ADD [1] run_reset = (w1, Ret tt)
    /\ counter_get_cb "IREGS" COUNT1_H_ADD [0; 0] w1 = (w2, Ret tt)
    /\ forall c, Hal.counter_channel c ->
         COILS (client w1) !! en_add c = COILS (client run_reset) !! en_add c
         /\ (COILS (client run_reset) !! rst_add c = Some 1 ->
             (exists k, Hal.counter_of c (hal w1) = Some k
                        /\ Hal.count k = 0)
             /\ IREGS (client w2) !! h_add c = Some [0; 0]).
Proof.
  apply (counter_rst_then_get_reads_zero "COILS" COUNT1_RST_ADD [1]
           run_reset).
  - intros c [->|[->|[->|[->| ->]]]]; vm_compute; eauto.
  - intros c [->|[->|[->|[->| ->]]]] Hen; vm_compute in Hen;
      try discriminate; vm_compute; eauto.
  - intros c [->|[->|[->|[->| ->]]]]; vm_compute; eauto.
  - intros c [->|[->|[->|[->| ->]]]] Hen; vm_compute in Hen;
      try discriminate; vm_compute; eauto.
Defined.

Lemma counter_get_cb_pair_arithmetic_witness :
  exists w', counter_get_cb "IREGS" COUNT1_H_ADD [0; 0] run_counting
             = (w', Ret tt)
    /\ forall c k, Hal.counter_channel c ->
         COILS (client run_counting) !! en_add c = Some 1 ->
         Hal.counter_of c (hal run_counting) = Some k ->
         0 <= Hal.count k ->
         exists hi lo,
           IREGS (client w') !! h_add c = Some [hi; lo]
           /\ ([hi; lo] = standard_split (Hal.count k)
               <-> Hal.count k < 2 ^ 8)
           /\ 0 <= lo < 2 ^ 16
           /\ (0 <= hi < 2 ^ 16 <-> Hal.count k < 2 ^ 24)
           /\ Hal.count k = hi * 2 ^ 8 + lo mod 2 ^ 8.
Proof.
  apply (counter_get_cb_pair_arithmetic "IREGS" COUNT1_H_ADD [0; 0]
           run_counting).
  - intros c [->|[->|[->|[->| ->]]]]; vm_compute; eauto.
  - intros c [->|[->|[->|[->| ->]]]] Hen; vm_compute in Hen;
      try discriminate; vm_compute; eauto.
Defined.

End RstMoreRuns.


(** ** iriv_ioc_modbus.py: the digital input hook *)

Section DinFacts.
Import IocModbus IocDin.

Lemma din_plain_eq (n a : Z) (d : DinWorld) :
  din_plain n a d
  = (mkDinWorld (base d) (<[a := Z.b2z (level d n)]> (ISTS d)) (level d),
     Ret tt).
Proof. reflexivity. Qed.

Lemma din_counter_block_eq (ea n a v : Z) (d : DinWorld) :
  COILS (client (base d)) !! ea = Some v ->
  (v = 0 -> pin_of n (hal (base d)) = Some Hal.PinInput) ->
  din_counter_block ea n a d
  = (mkDinWorld (base d)
       (<[a := if v =? 0 then Z.b2z (level d n) else 0]> (ISTS d)) (level d),
     Ret tt).
Proof.
  intros Hv Hpin. unfold din_counter_block, lift, bindM.
  rewrite (get_coil_Some _ _ _ Hv). destruct d as [w i l]. cbn [base ISTS level] in *.
  destruct (Z.eqb_spec v 0) as [->|Hne]; [|reflexivity].
  unfold din_counter_value. cbn [base]. rewrite (Hpin eq_refl). reflexivity.
Qed.

(** The state [din_get_cb] leaves, statement by statement. *)
Lemma din_get_cb_run (reg_type : string) (address : Z) (val : list Z)
    (d : DinWorld) (v1 v3 v5 v7 v9 : Z) :
  COILS (client (base d)) !! COUNT1_EN_ADD = Some v1 ->
  COILS (client (base d)) !! COUNT3_EN_ADD = Some v3 ->
  COILS (client (base d)) !! COUNT5_EN_ADD = Some v5 ->
  COILS (client (base d)) !! COUNT7_EN_ADD = Some v7 ->
  COILS (client (base d)) !! COUNT9_EN_ADD = Some v9 ->
  din_pins_readable d ->
  din_get_cb reg_type address val d
  = (mkDinWorld (base d)
       (<[DI9_ADD := if v9 =? 0 then Z.b2z (level d 9) else 0]>
        (<[DI7_ADD := if v7 =? 0 then Z.b2z (level d 7) else 0]>
         (<[DI5_ADD := if v5 =? 0 then Z.b2z (level d 5) else 0]>
          (<[DI3_ADD := if v3 =? 0 then Z.b2z (level d 3) else 0]>
           (<[DI1_ADD := if v1 =? 0 then Z.b2z (level d 1) else 0]>
            (<[DI10_ADD := Z.b2z (level d 10)]>
             (<[DI8_ADD := Z.b2z (level d 8)]>
              (<[DI6_ADD := Z.b2z (level d 6)]>
               (<[DI4_ADD := Z.b2z (level d 4)]>
                (<[DI2_ADD := Z.b2z (level d 2)]>
                 (<[DI0_ADD := Z.b2z (level d 0)]> (ISTS d))))))))))))
       (level d),
     Ret tt).
Proof.
  intros Hv1 Hv3 Hv5 Hv7 Hv9 Hread.
  pose proof (Hread 1 channel_1) as Hp1.
  pose proof (Hread 3 channel_3) as Hp3.
  pose proof (Hread 5 channel_5) as Hp5.
  pose proof (Hread 7 channel_7) as Hp7.
  pose proof (Hread 9 channel_9) as Hp9.
  cbn [en_add Z.eqb Pos.eqb] in *.
  unfold din_get_cb.
  repeat (rewrite (bind_Ret _ _ _ _ _ (din_plain_eq _ _ _));
          cbn [base ISTS level]).
  rewrite (fun k d0 H1 H2 => bind_Ret _ k d0 _ _
             (din_counter_block_eq COUNT1_EN_ADD 1 DI1_ADD v1 d0 H1 H2))
    by (cbn [base]; first [assumption | intros ->; auto]).
  cbn [base ISTS level].
  rewrite (fun k d0 H1 H2 => bind_Ret _ k d0 _ _
             (din_counter_block_eq COUNT3_EN_ADD 3 DI3_ADD v3 d0 H1 H2))
    by (cbn [base]; first [assumption | intros ->; auto]).
  cbn [base ISTS level].
  rewrite (fun k d0 H1 H2 => bind_Ret _ k d0 _ _
             (din_counter_block_eq COUNT5_EN_ADD 5 DI5_ADD v5 d0 H1 H2))
    by (cbn [base]; first [assumption | intros ->; auto]).
  cbn [base ISTS level].
  rewrite (fun k d0 H1 H2 => bind_Ret _ k d0 _ _
             (din_counter_block_eq COUNT7_EN_ADD 7 DI7_ADD v7 d0 H1 H2))
    by (cbn [base]; first [assumption | intros ->; auto]).
  cbn [base ISTS level].
  rewrite (din_counter_block_eq COUNT9_EN_ADD 9 DI9_ADD v9)
    by (cbn [base]; first [assumption | intros ->; auto]).
  cbn [base ISTS level].
  reflexivity.
Qed.

Ltac din_addresses :=
  unfold di_add, DI0_ADD, DI1_ADD, DI2_ADD, DI3_ADD, DI4_ADD, DI5_ADD,
    DI6_ADD, DI7_ADD, DI8_ADD, DI9_ADD, DI10_ADD.

(** X8: [din_get_cb] completes whenever the enable coils are defined
    and every channel whose enable coil is 0 has its pin object; it
    changes only the eleven discrete inputs: an input without counter
    function holds the level of its pin, an input with counter
    function holds the level of its pin when its enable coil is 0 and
    0 for any other coil value. *)
Theorem din_get_cb_stores_levels (reg_type : string) (address : Z)
    (val : list Z) (d : DinWorld) :
  en_coils_defined (base d) -> din_pins_readable d ->
  exists d', din_get_cb reg_type address val d = (d', Ret tt)
    /\ base d' = base d
    /\ (forall n, n ∈ [0; 2; 4; 6; 8; 10] ->
          ISTS d' !! di_add n = Some (Z.b2z (level d n)))
    /\ (forall c, Hal.counter_channel c ->
          ISTS d' !! di_add c = din_counter_bit d c)
    /\ (forall a, ~ (0 <= a <= 10) -> ISTS d' !! a = ISTS d !! a).
Proof.
  intros Hdef Hread.
  destruct (Hdef 1 channel_1) as [v1 Hv1].
  destruct (Hdef 3 channel_3) as [v3 Hv3].
  destruct (Hdef 5 channel_5) as [v5 Hv5].
  destruct (Hdef 7 channel_7) as [v7 Hv7].
  destruct (Hdef 9 channel_9) as [v9 Hv9].
  cbn [en_add Z.eqb Pos.eqb] in *.
  rewrite (din_get_cb_run reg_type address val d v1 v3 v5 v7 v9)
    by assumption.
  eexists. split; [reflexivity|]. cbn [base ISTS level].
  split; [reflexivity|]. din_addresses.
  split; [|split].
  - intros n Hn. rewrite !elem_of_cons, elem_of_nil in Hn.
    destruct Hn as [->|[->|[->|[->|[->|[->|[]]]]]]];
      repeat (rewrite lookup_insert_ne by lia);
      apply lookup_insert_eq.
  - intros c Hc. unfold din_counter_bit.
    destruct Hc as [->|[->|[->|[->| ->]]]]; cbn [en_add Z.eqb Pos.eqb];
      repeat (rewrite lookup_insert_ne by lia);
      rewrite lookup_insert_eq;
      match goal with Hv : COILS _ !! ?a = Some _ |- context [COILS _ !! ?a] =>
        rewrite Hv end; reflexivity.
  - intros a Ha. repeat (rewrite lookup_insert_ne by lia). reflexivity.
Qed.

(** X9: after [counter_en_set_cb] has run on a state in which every
    channel is either counting or an input, [din_get_cb] completes:
    no pin read by it has been released to a counter.  The input of a
    channel that is counting then reads 0, whatever the level of its
    pin. *)
Theorem din_get_cb_after_counter_en_set_cb (reg_type : string)
    (address : Z) (val : list Z) (d : DinWorld) :
  en_coils_defined (base d) -> hal_consistent (hal (base d)) ->
  exists d1 d2,
    lift (counter_en_set_cb reg_type address val) d = (d1, Ret tt)
    /\ din_get_cb reg_type address val d1 = (d2, Ret tt)
    /\ forall c, Hal.counter_channel c ->
         is_Some (Hal.counter_of c (hal (base d2))) ->
         ISTS d2 !! di_add c = Some 0.
Proof.
  intros Hdef Hcons.
  destruct (counter_en_set_cb_counters reg_type address val (base d) Hdef)
    as (w' & E & Hc & Hsync & Hcons').
  specialize (Hcons' Hcons).
  set (d1 := mkDinWorld w' (ISTS d) (level d)).
  destruct (Hdef 1 channel_1) as [v1 Hv1].
  destruct (Hdef 3 channel_3) as [v3 Hv3].
  destruct (Hdef 5 channel_5) as [v5 Hv5].
  destruct (Hdef 7 channel_7) as [v7 Hv7].
  destruct (Hdef 9 channel_9) as [v9 Hv9].
  cbn [en_add Z.eqb Pos.eqb] in Hv1, Hv3, Hv5, Hv7, Hv9.
  assert (Hread : din_pins_readable d1).
  { intros c Hch H0. cbn [d1 base] in *. apply (Hcons' c Hch).
    destruct (Hal.counter_of c (hal w')) eqn:Hk; [|reflexivity].
    assert (Hs : is_Some (Hal.counter_of c (hal w'))) by (rewrite Hk; eauto).
    apply (Hsync c Hch) in Hs. rewrite Hc in H0. congruence. }
  exists d1. eexists. split.
  { unfold lift. rewrite E. reflexivity. }
  split.
  { apply (din_get_cb_run reg_type address val d1 v1 v3 v5 v7 v9);
      cbn [d1 base]; rewrite ?Hc; assumption. }
  cbn [base ISTS level d1]. intros c Hch Hk.
  apply (Hsync c Hch) in Hk. din_addresses.
  destruct Hch as [->|[->|[->|[->| ->]]]]; cbn [en_add Z.eqb Pos.eqb] in Hk;
    repeat (rewrite lookup_insert_ne by lia);
    rewrite lookup_insert_eq;
    match goal with Hv : COILS _ !! ?a = Some ?v, Hk : COILS _ !! ?a = Some 1
                    |- _ => assert (v = 1) by congruence; subst v end;
    reflexivity.
Qed.

End DinFacts.

Section DinRuns.
Import IocModbus IocDin.

Lemma din_get_cb_stores_levels_witness :
  exists d', din_get_cb "ISTS" DI0_ADD [0] run_din = (d', Ret tt)
    /\ base d' = base run_din
    /\ (forall n, n ∈ [0; 2; 4; 6; 8; 10] ->
          ISTS d' !! di_add n = Some (Z.b2z (level run_din n)))
    /\ (forall c, Hal.counter_channel c ->
          ISTS d' !! di_add c = din_counter_bit run_din c)
    /\ (forall a, ~ (0 <= a <= 10) -> ISTS d' !! a = ISTS run_din !! a).
Proof.
  apply (din_get_cb_stores_levels "ISTS" DI0_ADD [0] run_din).
  - intros c [->|[->|[->|[->| ->]]]]; vm_compute; eauto.
  - intros c [->|[->|[->|[->| ->]]]] Hen; vm_compute in Hen;
      try discriminate; reflexivity.
Defined.

(** In that state input 1 is high but counting and reads 0; inputs 2
    and 3 read 1. *)
Example run_din_bits :
  let d' := fst (din_get_cb "ISTS" DI0_ADD [0] run_din) in
  ISTS d' !! DI1_ADD = Some 0 /\ ISTS d' !! DI2_ADD = Some 1
  /\ ISTS d' !! DI3_ADD = Some 1 /\ ISTS d' !! DI4_ADD = Some 0.
Proof. vm_compute. auto. Qed.

Lemma din_get_cb_after_counter_en_set_cb_witness :
  exists d1 d2,
    lift (counter_en_set_cb "COILS" COUNT1_EN_ADD [1]) run_din = (d1, Ret tt)
    /\ din_get_cb "ISTS" DI0_ADD [0] d1 = (d2, Ret tt)
    /\ forall c, Hal.counter_channel c ->
         is_Some (Hal.counter_of c (hal (base d2))) ->
         ISTS d2 !! di_add c = Some 0.
Proof.
  apply (din_get_cb_after_counter_en_set_cb "COILS" COUNT1_EN_ADD [1]
           run_din).
  - intros c [->|[->|[->|[->| ->]]]]; vm_compute; eauto.
  - intros c [->|[->|[->|[->| ->]]]]; vm_compute; split; congruence.
Defined.

End DinRuns.


(** ** umodbus/tcp.py: more on [bind] *)

Section BindFacts.
Import Tcp.

Lemma sock_close_twice (s : Socket) : sock_close (sock_close s) = sock_close s.
Proof. reflexivity. Qed.

Lemma close_all_sockets (l : list (option SockRef)) (w : World) (r : SockRef) :
  sockets (close_all l w) r
  = if bool_decide (Some r ∈ l) then sock_close (sockets w r) else sockets w r.
Proof.
  revert w. induction l as [|[r0|] l IH]; intros w; cbn [close_all].
  - reflexivity.
  - rewrite IH. unfold on_sock. cbn [sockets].
    destruct (Nat.eqb_spec r r0) as [->|Hne].
    + rewrite (bool_decide_eq_true_2 (Some r0 ∈ Some r0 :: l))
        by (apply elem_of_cons; left; reflexivity).
      destruct (bool_decide (Some r0 ∈ l)); reflexivity.
    + destruct (bool_decide (Some r ∈ l)) eqn:E.
      * apply bool_decide_eq_true_1 in E.
        rewrite bool_decide_eq_true_2
          by (apply elem_of_cons; right; exact E).
        reflexivity.
      * apply bool_decide_eq_false_1 in E.
        rewrite bool_decide_eq_false_2; [reflexivity|].
        rewrite elem_of_cons. intros [Heq|Hin]; [|auto]. congruence.
  - rewrite IH.
    destruct (bool_decide (Some r ∈ l)) eqn:E.
    * apply bool_decide_eq_true_1 in E.
      rewrite bool_decide_eq_true_2
        by (apply elem_of_cons; right; exact E).
      reflexivity.
    * apply bool_decide_eq_false_1 in E.
      rewrite bool_decide_eq_false_2; [reflexivity|].
      rewrite elem_of_cons. intros [Heq|Hin]; [discriminate|auto].
Qed.

Lemma close_all_rest (l : list (option SockRef)) (w : World) :
  link_status (close_all l w) = link_status w
  /\ monotonic (close_all l w) = monotonic w.
Proof.
  revert w. induction l as [|[r0|] l IH]; intros w; cbn [close_all];
    [split; reflexivity| |apply IH].
  destruct (IH (on_sock r0 sock_close w)) as [-> ->]. split; reflexivity.
Qed.

(** What [open_all] keeps of the server, and the socket objects it
    leaves. *)
Lemma open_all_fields (n : nat) (w : World) :
  _current_sock (server (open_all n w)) = _current_sock (server w)
  /\ _local_ip (server (open_all n w)) = _local_ip (server w)
  /\ _local_port (server (open_all n w)) = _local_port (server w)
  /\ _is_bound (server (open_all n w)) = _is_bound (server w)
  /\ _link_timestamp (server (open_all n w)) = _link_timestamp (server w)
  /\ _req_tid (server (open_all n w)) = _req_tid (server w).
Proof.
  revert w. induction n as [|n IH]; intros w; cbn [open_all].
  - repeat split.
  - cbn [sockpool_socket].
    match goal with |- context [open_all n ?w1] =>
      destruct (IH w1) as (-> & -> & -> & -> & -> & ->) end.
    repeat split.
Qed.

Lemma open_all_sockets (n : nat) (w : World) :
  (forall r, (r < next_sock w)%nat -> sockets (open_all n w) r = sockets w r)
  /\ (forall i, (i < n)%nat ->
        sockets (open_all n w) (next_sock w + i)%nat
        = sock_listen (sock_bind (_local_ip (server w), _local_port (server w))
                                 new_socket)).
Proof.
  revert w. induction n as [|n IH]; intros w; cbn [open_all].
  - split; [reflexivity|intros i Hi; lia].
  - cbn [sockpool_socket].
    match goal with |- context [open_all n ?w1] =>
      destruct (IH w1) as [Hold Hnew]; set (wn := w1) in * end.
    assert (Hns : next_sock wn = S (next_sock w)) by reflexivity.
    assert (Hip : _local_ip (server wn) = _local_ip (server w)) by reflexivity.
    assert (Hport : _local_port (server wn) = _local_port (server w))
      by reflexivity.
    assert (Hs : forall r, r <> next_sock w -> sockets wn r = sockets w r).
    { intros r Hr. unfold wn, update_server, set_server, on_sock.
      cbn [sockets server next_sock].
      destruct (Nat.eqb_spec r (next_sock w)); [contradiction|reflexivity]. }
    assert (Hn : sockets wn (next_sock w)
                 = sock_listen (sock_bind (_local_ip (server w),
                                           _local_port (server w))
                                          new_socket)).
    { unfold wn, update_server, set_server, on_sock.
      cbn [sockets server next_sock]. rewrite Nat.eqb_refl. reflexivity. }
    clearbody wn. split.
    + intros r Hr. rewrite Hold by lia. apply Hs. lia.
    + intros [|i] Hi.
      * rewrite Nat.add_0_r, Hold by lia. exact Hn.
      * replace (next_sock w + S i)%nat with (next_sock wn + i)%nat by lia.
        rewrite Hnew by lia. rewrite Hip, Hport. reflexivity.
Qed.

Lemma bind_pool (ip : option string) (port maxc : Z) (w : World) :
  1 <= maxc ->
  _socklist (server (Tcp.bind ip port maxc w))
    = Some <$> seq (next_sock w) (Z.to_nat maxc)
  /\ _is_bound (server (Tcp.bind ip port maxc w)) = true
  /\ _socknum (server (Tcp.bind ip port maxc w)) = 0%nat
  /\ _current_sock (server (Tcp.bind ip port maxc w)) = None.
Proof.
  intros Hmax. unfold Tcp.bind.
  destruct (Z.ltb_spec maxc 1) as [|_]; [lia|].
  set (w3 := update_server (with_local ip port)
               (update_server
                  (fun srv => with_current_sock None (with_socklist [] srv))
                  (close_all (_socklist (server w)) w))).
  assert (Hns : next_sock w3 = next_sock w)
    by (unfold w3; cbn; apply close_all_next_sock).
  destruct (open_all_pool (Z.to_nat maxc) w3) as [Hpool _].
  destruct (open_all_fields (Z.to_nat maxc) w3) as (Hcur & _).
  cbn [update_server set_server server with_is_bound with_socknum
       _socklist _socknum _current_sock _is_bound].
  rewrite Hpool, Hcur, Hns. repeat split.
Qed.

(** X10: [bind] with [max_connections >= 1] closes every socket of
    the old list and leaves a list of exactly [max_connections] new
    socket objects, each bound to the given address and listening,
    neither connected nor closed; the cursor is 0, no socket is
    current and the server reports itself bound.  Socket objects
    outside the old list are not touched. *)
Theorem bind_opens_listening_pool (local_ip : option string)
    (local_port max_connections : Z) (w : World) :
  1 <= max_connections ->
  let w' := Tcp.bind local_ip local_port max_connections w in
  let n := Z.to_nat max_connections in
  _socklist (server w') = Some <$> seq (next_sock w) n
  /\ length (_socklist (server w')) = n
  /\ _socknum (server w') = 0%nat
  /\ _current_sock (server w') = None
  /\ get_is_bound w' = true
  /\ (forall i, (i < n)%nat ->
        sockets w' (next_sock w + i)%nat
        = sock_listen (sock_bind (local_ip, local_port) new_socket))
  /\ (forall r, (r < next_sock w)%nat ->
        sockets w' r
        = if bool_decide (Some r ∈ _socklist (server w))
          then sock_close (sockets w r) else sockets w r).
Proof.
  intros Hmax. cbv zeta.
  destruct (bind_pool local_ip local_port max_connections w Hmax)
    as (Hpool & Hb & Hnum & Hcur).
  split; [exact Hpool|].
  split; [rewrite Hpool, length_fmap, length_seq; reflexivity|].
  split; [exact Hnum|]. split; [exact Hcur|]. split; [exact Hb|].
  unfold Tcp.bind.
  destruct (Z.ltb_spec max_connections 1) as [|_]; [lia|].
  set (w1 := close_all (_socklist (server w)) w).
  set (w3 := update_server (with_local local_ip local_port)
               (update_server
                  (fun srv => with_current_sock None (with_socklist [] srv))
                  w1)).
  assert (Hns : next_sock w3 = next_sock w)
    by (unfold w3, w1; cbn; apply close_all_next_sock).
  destruct (open_all_sockets (Z.to_nat max_connections) w3) as [Hold Hnew].
  rewrite Hns in *.
  cbn [update_server set_server sockets].
  split.
  - intros i Hi. rewrite (Hnew i Hi). reflexivity.
  - intros r Hr. rewrite (Hold r Hr). unfold w3, update_server, set_server.
    cbn [sockets]. unfold w1. apply close_all_sockets.
Qed.

(** X11: [bind] with [max_connections < 1] closes the sockets of the
    old list and empties it, and returns before the bound flag and the
    local address are written: [get_is_bound] and [get_bound_status]
    answer as before.  After an earlier [bind] they still answer
    [True], with no socket left to serve. *)
Theorem bind_without_connections_keeps_bound_status
    (local_ip : option string) (local_port max_connections : Z)
    (w : World) :
  max_connections < 1 ->
  let w' := Tcp.bind local_ip local_port max_connections w in
  _socklist (server w') = []
  /\ get_is_bound w' = get_is_bound w
  /\ get_bound_status w' = get_bound_status w
  /\ _local_ip (server w') = _local_ip (server w)
  /\ _local_port (server w') = _local_port (server w)
  /\ (forall r, sockets w' r
                = if bool_decide (Some r ∈ _socklist (server w))
                  then sock_close (sockets w r) else sockets w r)
  /\ forall ip0 port0 n0 w0, 1 <= n0 -> w = Tcp.bind ip0 port0 n0 w0 ->
       get_bound_status w' = true
       /\ forall i, (i < Z.to_nat n0)%nat ->
            _socket_closed (sockets w' (next_sock w0 + i)%nat) = true
            /\ listening (sockets w' (next_sock w0 + i)%nat) = false.
Proof.
  intros Hmax. cbv zeta.
  assert (E : Tcp.bind local_ip local_port max_connections w
              = update_server
                  (fun srv => with_current_sock None (with_socklist [] srv))
                  (close_all (_socklist (server w)) w)).
  { unfold Tcp.bind. destruct (Z.ltb_spec max_connections 1); [reflexivity|lia]. }
  rewrite E. unfold get_bound_status, get_is_bound.
  cbn [update_server set_server server sockets with_current_sock
       with_socklist _socklist _is_bound _local_ip _local_port].
  rewrite close_all_server.
  assert (Hs : forall r,
            sockets (close_all (_socklist (server w)) w) r
            = if bool_decide (Some r ∈ _socklist (server w))
              then sock_close (sockets w r) else sockets w r)
    by (intros r; apply close_all_sockets).
  repeat (split; [reflexivity|]).
  split; [exact Hs|].
  intros ip0 port0 n0 w0 Hn0 ->.
  destruct (bind_pool ip0 port0 n0 w0 Hn0) as (Hl & Hb & _).
  split; [exact Hb|].
  intros i Hi. rewrite Hs, Hl.
  rewrite bool_decide_eq_true_2.
  - split; reflexivity.
  - apply list_elem_of_fmap. exists (next_sock w0 + i)%nat.
    split; [reflexivity|]. apply elem_of_seq. lia.
Qed.

End BindFacts.


Section BindRuns.
Import Tcp.

Lemma bind_opens_listening_pool_witness :
  let w' := Tcp.bind (Some "192.168.1.10") 502 3 (run_bound 2) in
  let n := Z.to_nat 3 in
  _socklist (server w') = Some <$> seq (next_sock (run_bound 2)) n
  /\ length (_socklist (server w')) = n
  /\ _socknum (server w') = 0%nat
  /\ _current_sock (server w') = None
  /\ get_is_bound w' = true
  /\ (forall i, (i < n)%nat ->
        sockets w' (next_sock (run_bound 2) + i)%nat
        = sock_listen (sock_bind (Some "192.168.1.10", 502) new_socket))
  /\ (forall r, (r < next_sock (run_bound 2))%nat ->
        sockets w' r
        = if bool_decide (Some r ∈ _socklist (server (run_bound 2)))
          then sock_close (sockets (run_bound 2) r)
          else sockets (run_bound 2) r).
Proof.
  apply (bind_opens_listening_pool (Some "192.168.1.10") 502 3 (run_bound 2)).
  lia.
Defined.

(** A server bound with two connections and bound again with three:
    sockets 0 and 1 are closed, sockets 2, 3 and 4 listen. *)
Example run_bound_again :
  let w' := Tcp.bind (Some "192.168.1.10") 502 3 (run_bound 2) in
  _socklist (server w') = [Some 2; Some 3; Some 4]%nat
  /\ _socket_closed (sockets w' 0%nat) = true
  /\ _socket_closed (sockets w' 1%nat) = true
  /\ listening (sockets w' 4%nat) = true.
Proof. vm_compute. auto. Qed.

Lemma bind_without_connections_keeps_bound_status_witness :
  let w' := Tcp.bind None 502 0 (run_bound 2) in
  _socklist (server w') = []
  /\ get_is_bound w' = get_is_bound (run_bound 2)
  /\ get_bound_status w' = get_bound_status (run_bound 2)
  /\ _local_ip (server w') = _local_ip (server (run_bound 2))
  /\ _local_port (server w') = _local_port (server (run_bound 2))
  /\ (forall r, sockets w' r
                = if bool_decide (Some r ∈ _socklist (server (run_bound 2)))
                  then sock_close (sockets (run_bound 2) r)
                  else sockets (run_bound 2) r)
  /\ forall ip0 port0 n0 w0, 1 <= n0 -> run_bound 2 = Tcp.bind ip0 port0 n0 w0 ->
       get_bound_status w' = true
       /\ forall i, (i < Z.to_nat n0)%nat ->
            _socket_closed (sockets w' (next_sock w0 + i)%nat) = true
            /\ listening (sockets w' (next_sock w0 + i)%nat) = false.
Proof.
  apply (bind_without_connections_keeps_bound_status None 502 0 (run_bound 2)).
  lia.
Defined.

(** Bound with two connections, then bound with none: the server
    still reports itself bound. *)
Example run_bound_then_none :
  get_bound_status (Tcp.bind None 502 0 (run_bound 2)) = true
  /\ _socklist (server (Tcp.bind None 502 0 (run_bound 2))) = [].
Proof. vm_compute. auto. Qed.

End BindRuns.


(** ** umodbus/tcp.py: more on [get_request] *)

Section GetRequestMore.
Import Tcp.

Context {Request : Type}.
Variable Request_init : list byte -> @Decoded Request.

Local Abbreviation get_request := (get_request Request_init).
Local Abbreviation get_request_read := (get_request_read Request_init).
Local Abbreviation get_request_parse := (get_request_parse Request_init).
Local Abbreviation get_request_decode := (get_request_decode Request_init).
Local Abbreviation reachable := (reachable Request_init).

Lemma frame_header_None (req : list byte) :
  frame_header req = None <-> (length req < 6)%nat.
Proof.
  unfold frame_header, unpack_HHH.
  destruct req as [|b0 [|b1 [|b2 [|b3 [|b4 [|b5 rest]]]]]]; cbn;
    try (split; [intros _; lia|reflexivity]).
  rewrite take_0. split; [discriminate|lia].
Qed.

Lemma tx_recv_step (t : Z) (r r' : SockRef) (w : World) :
  tx (sockets (recv_step t r (stamp_step r w)) r') = tx (sockets w r').
Proof. apply (tx_received_step t r r' 0 w). Qed.

(** The call up to the point where the data has been received. *)
Lemma get_request_connected (ual : option (list Z)) (t : Z) (w : World)
    (r : SockRef) :
  _socklist (server w) !! _socknum (server w) = Some (Some r) ->
  link_status w = true ->
  status_raises (sockets w r) = false ->
  _connected (sockets w r) = true ->
  get_request ual t w =
    match snd (sock_recv 260 (sockets w r)) with
    | None => (recv_step t r (stamp_step r w), Ret None)
    | Some req =>
        if (length req =? 0)%nat
        then (recv_step t r (stamp_step r w), Ret None)
        else
          match frame_header req with
          | None => (recv_step t r (stamp_step r w), Ret None)
          | Some (tid, req_pid, req_len) =>
              get_request_parse ual req req_pid
                (frame_uid_and_pdu req req_len) (received_step t r tid w)
          end
    end.
Proof.
  intros Hslot Hlink Hraise Hconn.
  rewrite (get_request_slot Request_init ual t w r Hslot), Hlink. cbn [negb].
  unfold status_of. rewrite Hraise, Hconn. cbn [negb].
  rewrite get_request_read_eq. reflexivity.
Qed.

(** X12: when the inspected socket is connected and [recv] times out
    or raises, returns no bytes, or returns fewer than the six bytes
    the header needs, [get_request] returns [None] without raising:
    nothing is sent on any socket, the socket stays in its slot and
    the transaction id kept for responses is not changed. *)
Theorem get_request_unreadable_frame_dropped (ual : option (list Z)) (t : Z)
    (w : World) (r : SockRef) :
  _socklist (server w) !! _socknum (server w) = Some (Some r) ->
  link_status w = true ->
  status_raises (sockets w r) = false ->
  _connected (sockets w r) = true ->
  (snd (sock_recv 260 (sockets w r)) = None
   \/ exists req, snd (sock_recv 260 (sockets w r)) = Some req
                  /\ (length req < 6)%nat) ->
  exists w', get_request ual t w = (w', Ret None)
    /\ (forall r', tx (sockets w' r') = tx (sockets w r'))
    /\ _socklist (server w') = _socklist (server w)
    /\ _req_tid (server w') = _req_tid (server w)
    /\ rx (sockets w' r) = rx (fst (sock_recv 260 (sockets w r))).
Proof.
  intros Hslot Hlink Hraise Hconn Hrecv.
  rewrite (get_request_connected ual t w r Hslot Hlink Hraise Hconn).
  exists (recv_step t r (stamp_step r w)).
  split.
  - destruct Hrecv as [->|(req & -> & Hlen)]; [reflexivity|].
    destruct (length req =? 0)%nat; [reflexivity|].
    apply frame_header_None in Hlen. rewrite Hlen. reflexivity.
  - split; [intros r'; apply tx_recv_step|].
    split; [reflexivity|]. split; [reflexivity|].
    unfold recv_step, on_sock. cbn [sockets]. rewrite !Nat.eqb_refl.
    unfold sock_recv. cbn [rx sock_settimeout].
    destruct (rx (sockets (stamp_step r w) r)) as [|[d| |] q] eqn:E;
      replace (sockets (stamp_step r w) r) with (sockets w r) in *
        by reflexivity; rewrite E; try reflexivity.
Qed.

(** X13: when a unit address list is given and the unit id of a
    received frame is not in it, [get_request] returns [None] without
    raising and without constructing the [Request]: nothing is sent on
    any socket, whatever the PDU holds.  The transaction id of the
    frame is kept all the same. *)
Theorem get_request_foreign_unit_dropped (l : list Z) (t : Z) (w : World)
    (r : SockRef) (req : list byte) (tid len : Z) (uid : byte)
    (pdu : list byte) :
  receives w r req ->
  frame_header req = Some (tid, 0, len) ->
  frame_uid_and_pdu req len = uid :: pdu ->
  byte_to_Z uid ∉ l ->
  exists w', get_request (Some l) t w = (w', Ret None)
    /\ (forall r', tx (sockets w' r') = tx (sockets w r'))
    /\ _req_tid (server w') = Some tid.
Proof.
  intros Hrecv Hhdr Huap Hnot.
  rewrite (get_request_receives Request_init (Some l) t w r req tid 0 len
             Hrecv Hhdr).
  exists (received_step t r tid w).
  split.
  - unfold Tcp.get_request_parse. cbn [Z.eqb negb]. rewrite Huap.
    assert (E : existsb (Z.eqb (byte_to_Z uid)) l = false).
    { destruct (existsb (Z.eqb (byte_to_Z uid)) l) eqn:E; [|reflexivity].
      exfalso. apply Hnot. apply existsb_exists in E as (x & Hin & Hx).
      apply Z.eqb_eq in Hx. subst x. apply list_elem_of_In, Hin. }
    unfold bindM, ret. rewrite E. reflexivity.
  - split; [intros r'; apply tx_received_step|reflexivity].
Qed.

(** X14: when a unit address list is given and a received frame with
    protocol id 0 holds no unit id, because its length field is 0 or
    it ends after the six header bytes, the unit id check raises
    [IndexError] out of [get_request]; nothing has been sent and the
    cursor has moved on. *)
Theorem get_request_missing_unit_id_IndexError (l : list Z) (t : Z)
    (w : World) (r : SockRef) (req : list byte) (tid len : Z) :
  receives w r req ->
  frame_header req = Some (tid, 0, len) ->
  len = 0 \/ length req = 6%nat ->
  exists w', get_request (Some l) t w = (w', Raise IndexError)
    /\ (forall r', tx (sockets w' r') = tx (sockets w r'))
    /\ _socknum (server w') = next_socknum (server w).
Proof.
  intros Hrecv Hhdr Hshort.
  rewrite (get_request_receives Request_init (Some l) t w r req tid 0 len
             Hrecv Hhdr).
  assert (Huap : frame_uid_and_pdu req len = []).
  { unfold frame_uid_and_pdu. destruct Hshort as [->|Hlen].
    - reflexivity.
    - rewrite (drop_ge req) by (unfold MBAP_HDR_LENGTH; lia).
      apply take_nil. }
  exists (received_step t r tid w).
  split.
  - unfold Tcp.get_request_parse. cbn [Z.eqb negb]. rewrite Huap.
    reflexivity.
  - split; [intros r'; apply tx_received_step|reflexivity].
Qed.

End GetRequestMore.


Section GetRequestSends.
Import Tcp.

Context {Request : Type}.
Variable Request_init : list byte -> @Decoded Request.

Local Abbreviation get_request := (get_request Request_init).
Local Abbreviation get_request_parse := (get_request_parse Request_init).
Local Abbreviation get_request_decode := (get_request_decode Request_init).
Local Abbreviation reachable := (reachable Request_init).

(** What the part of [get_request] after the header can do: raise,
    return, or answer a [ModbusException] of the decoder. *)
Lemma get_request_parse_cases (ual : option (list Z)) (req0 : byte)
    (rest : list byte) (pid : Z) (uap : list byte) (w : World) (tid : Z)
    (r : SockRef) :
  _req_tid (server w) = Some tid ->
  _current_sock (server w) = Some r ->
  (fst (get_request_parse ual (req0 :: rest) pid uap w) = w
   /\ (forall e, snd (get_request_parse ual (req0 :: rest) pid uap w)
                 = Raise e ->
         (e = IndexError /\ uap = [] /\ ual <> None)
         \/ Request_init uap = DecodeRaises e))
  \/ exists fc ec,
       pid = 0 /\ Request_init uap = ModbusException fc ec
       /\ get_request_parse ual (req0 :: rest) pid uap w
          = (on_sock r (sock_send (adu_of tid (byte_to_Z req0)
                                     (exception_response fc ec))) w,
             Ret None).
Proof.
  intros Htid Hcur. unfold Tcp.get_request_parse.
  destruct (Z.eqb_spec pid 0) as [->|Hpid]; cbn [negb].
  2: { left. split; [reflexivity|]. intros e [=]. }
  assert (Hdec :
    (fst (get_request_decode (req0 :: rest) uap w) = w
     /\ (forall e, snd (get_request_decode (req0 :: rest) uap w) = Raise e ->
           Request_init uap = DecodeRaises e))
    \/ exists fc ec,
         Request_init uap = ModbusException fc ec
         /\ get_request_decode (req0 :: rest) uap w
            = (on_sock r (sock_send (adu_of tid (byte_to_Z req0)
                                       (exception_response fc ec))) w,
               Ret None)).
  { destruct (Request_init uap) as [q|fc ec|e0] eqn:Ei.
    - left. unfold Tcp.get_request_decode. rewrite Ei.
      split; [reflexivity|]. intros e [=].
    - right. exists fc, ec. split; [reflexivity|].
      apply (get_request_decode_exception Request_init req0 rest uap fc ec
               tid r w Ei Htid Hcur).
    - left. unfold Tcp.get_request_decode. rewrite Ei.
      split; [reflexivity|]. intros e [= ->]. reflexivity. }
  destruct ual as [l|].
  - destruct uap as [|uid pdu].
    + left. split; [reflexivity|]. intros e [= <-]. left.
      repeat split. discriminate.
    + unfold bindM at 1. unfold ret at 1.
      destruct (negb (existsb (Z.eqb (byte_to_Z uid)) l)).
      * left. split; [reflexivity|]. intros e [=].
      * destruct Hdec as [[H1 H2]|(fc & ec & H1 & H2)].
        -- left. split; [exact H1|]. intros e He. right. apply H2, He.
        -- right. exists fc, ec. repeat split; assumption.
  - unfold bindM at 1. unfold ret at 1. cbv beta iota.
    destruct Hdec as [[H1 H2]|(fc & ec & H1 & H2)].
    + left. split; [exact H1|]. intros e He. right. apply H2, He.
    + right. exists fc, ec. repeat split; assumption.
Qed.

Lemma sockets_recreate_step (i : nat) (w : World) (r' : SockRef) :
  r' <> next_sock w -> sockets (recreate_step i w) r' = sockets w r'.
Proof.
  intros Hne. unfold recreate_step. cbn.
  destruct (Nat.eqb_spec r' (next_sock w)); [contradiction|reflexivity].
Qed.

(** The outcome of [get_request] on a slot that holds a socket, by
    what the call finds. *)
Lemma get_request_outcomes (ual : option (list Z)) (t : Z) (w : World)
    (r : SockRef) :
  _socklist (server w) !! _socknum (server w) = Some (Some r) ->
  ((forall r', r' <> next_sock w ->
      tx (sockets (fst (get_request ual t w)) r') = tx (sockets w r'))
   /\ forall e, snd (get_request ual t w) = Raise e ->
        (e = IndexError /\ ual <> None)
        \/ exists uap, Request_init uap = DecodeRaises e)
  \/ exists req req0 tid len fc ec,
       receives w r req /\ head req = Some req0
       /\ frame_header req = Some (tid, 0, len)
       /\ Request_init (frame_uid_and_pdu req len) = ModbusException fc ec
       /\ snd (get_request ual t w) = Ret None
       /\ tx (sockets (fst (get_request ual t w)) r)
          = tx (sockets w r)
            ++ [adu_of tid (byte_to_Z req0) (exception_response fc ec)]
       /\ forall r', r' <> r ->
            tx (sockets (fst (get_request ual t w)) r') = tx (sockets w r').
Proof.
  intros Hslot.
  rewrite (get_request_slot Request_init ual t w r Hslot).
  destruct (link_status w) eqn:Hlink; cbn [negb].
  2: { left. split; [|intros e [=]]. intros r' _. cbn [fst].
       destruct ((5 <=? monotonic w - _link_timestamp (server w))%float);
         [|reflexivity].
       destruct (negb (_socket_closed (sockets w r))); [|reflexivity].
       unfold on_sock. cbn [sockets cursor_step set_server].
       destruct (Nat.eqb r' r); reflexivity. }
  unfold status_of.
  destruct (status_raises (sockets w r)) eqn:Hraise; cbn [negb].
  { left. split; [|intros e [=]]. intros r' Hne. cbn [fst].
    rewrite sockets_recreate_step by exact Hne. reflexivity. }
  destruct (_connected (sockets w r)) eqn:Hconn; cbn [negb].
  2: { left. split; [|destruct (_socket_closed (sockets w r)); intros e [=]].
       intros r' Hne.
       destruct (_socket_closed (sockets w r)); cbn [fst];
         [rewrite sockets_recreate_step by exact Hne|]; reflexivity. }
  rewrite get_request_read_eq.
  replace (sockets (stamp_step r w) r) with (sockets w r) by reflexivity.
  destruct (snd (sock_recv 260 (sockets w r))) as [req|] eqn:Hrecv.
  2: { left. split; [|intros e [=]]. intros r' _.
       apply (tx_received_step t r r' 0 w). }
  destruct req as [|req0 rest].
  { left. split; [|intros e [=]]. intros r' _.
    apply (tx_received_step t r r' 0 w). }
  cbn [length Nat.eqb].
  destruct (frame_header (req0 :: rest)) as [[[tid pid] len]|] eqn:Hhdr.
  2: { left. split; [|intros e [=]]. intros r' _.
       apply (tx_received_step t r r' 0 w). }
  change (update_server (with_req_tid (Some tid)) (recv_step t r (stamp_step r w)))
    with (received_step t r tid w).
  destruct (get_request_parse_cases ual req0 rest pid
              (frame_uid_and_pdu (req0 :: rest) len)
              (received_step t r tid w) tid r eq_refl eq_refl)
    as [[Hw He]|(fc & ec & -> & Hi & Hp)].
  - left. split.
    + intros r' _. rewrite Hw. apply tx_received_step.
    + intros e Hr. destruct (He e Hr) as [(-> & _ & Hual)|Hd].
      * left. split; [reflexivity|exact Hual].
      * right. eauto.
  - right. exists (req0 :: rest), req0, tid, len, fc, ec.
    split; [repeat split; assumption|]. split; [reflexivity|].
    split; [exact Hhdr|]. split; [exact Hi|]. rewrite Hp. cbn [fst snd].
    split; [reflexivity|]. split.
    + rewrite sockets_on_sock_same. cbn [tx sock_send].
      rewrite tx_received_step. reflexivity.
    + intros r' Hne. rewrite sockets_on_sock_other by exact Hne.
      apply tx_received_step.
Qed.

(** X15: one call of [get_request] sends at most one buffer, and only
    as the answer to a received frame that the [Request] constructor
    rejected with a [ModbusException]: then the call returns [None]
    and the exception response goes to the inspected socket.  In every
    other case, in particular when a [Request] is returned, nothing is
    sent on any socket. *)
Theorem get_request_sends_only_exception_responses (ual : option (list Z))
    (t : Z) (w : World) (r : SockRef) :
  _socklist (server w) !! _socknum (server w) = Some (Some r) ->
  let w' := fst (get_request ual t w) in
  (forall r', r' <> r -> r' <> next_sock w ->
     tx (sockets w' r') = tx (sockets w r'))
  /\ (r <> next_sock w ->
      tx (sockets w' r) = tx (sockets w r)
      \/ exists req req0 tid len fc ec,
           receives w r req /\ head req = Some req0
           /\ frame_header req = Some (tid, 0, len)
           /\ Request_init (frame_uid_and_pdu req len)
              = ModbusException fc ec
           /\ snd (get_request ual t w) = Ret None
           /\ tx (sockets w' r)
              = tx (sockets w r)
                ++ [adu_of tid (byte_to_Z req0) (exception_response fc ec)])
  /\ forall q, snd (get_request ual t w) = Ret (Some q) ->
       forall r', r' <> next_sock w -> tx (sockets w' r') = tx (sockets w r').
Proof.
  intros Hslot. cbv zeta.
  destruct (get_request_outcomes ual t w r Hslot)
    as [[Htx _]|(req & req0 & tid & len & fc & ec & Hrecv & Hhd & Hhdr & Hi
                 & Hres & Hsent & Hother)].
  - split; [intros r' _ Hne; apply Htx, Hne|].
    split; [intros Hne; left; apply Htx, Hne|].
    intros q _ r' Hne. apply Htx, Hne.
  - split; [intros r' Hne _; apply Hother, Hne|].
    split.
    + intros _. right. exists req, req0, tid, len, fc, ec. auto 10.
    + intros q Hq. rewrite Hres in Hq. discriminate.
Qed.

(** X17: with the link up, a socket that reports itself neither
    connected nor closed is left waiting: the call returns [None] and
    changes no socket object and no slot.  A socket that is not
    connected and closed, or whose status cannot be read, is replaced
    in its slot by a new socket bound to the local address and
    listening; the old socket object is not touched, and no other
    slot changes. *)
Theorem get_request_not_connected (ual : option (list Z)) (t : Z)
    (w : World) (r : SockRef) :
  _socklist (server w) !! _socknum (server w) = Some (Some r) ->
  link_status w = true ->
  status_raises (sockets w r) = true \/ _connected (sockets w r) = false ->
  let w' := fst (get_request ual t w) in
  snd (get_request ual t w) = Ret None
  /\ _link_timestamp (server w') = monotonic w
  /\ (status_raises (sockets w r) = false ->
      _socket_closed (sockets w r) = false ->
      _socklist (server w') = _socklist (server w)
      /\ next_sock w' = next_sock w
      /\ forall r', sockets w' r' = sockets w r')
  /\ (status_raises (sockets w r) = true
      \/ _socket_closed (sockets w r) = true ->
      _socklist (server w')
        = <[_socknum (server w) := Some (next_sock w)]> (_socklist (server w))
      /\ _current_sock (server w') = Some (next_sock w)
      /\ next_sock w' = S (next_sock w)
      /\ sockets w' (next_sock w)
         = sock_listen (sock_bind (_local_ip (server w),
                                   _local_port (server w)) new_socket)
      /\ forall r', r' <> next_sock w -> sockets w' r' = sockets w r').
Proof.
  intros Hslot Hlink Hnot. cbv zeta.
  rewrite (get_request_slot Request_init ual t w r Hslot), Hlink.
  cbn [negb]. unfold status_of.
  destruct (status_raises (sockets w r)) eqn:Hraise.
  - cbn [negb fst snd]. split; [reflexivity|]. split; [reflexivity|].
    split; [discriminate|]. intros _.
    split; [reflexivity|]. split; [reflexivity|]. split; [reflexivity|].
    split.
    + cbn. rewrite !Nat.eqb_refl. reflexivity.
    + intros r' Hne. rewrite sockets_recreate_step by exact Hne.
      reflexivity.
  - destruct Hnot as [|Hconn]; [discriminate|]. rewrite Hconn.
    cbn [negb].
    destruct (_socket_closed (sockets w r)) eqn:Hcl; cbn [fst snd].
    + split; [reflexivity|]. split; [reflexivity|].
      split; [discriminate|]. intros _.
      split; [reflexivity|]. split; [reflexivity|]. split; [reflexivity|].
      split.
      * cbn. rewrite !Nat.eqb_refl. reflexivity.
      * intros r' Hne. rewrite sockets_recreate_step by exact Hne.
      reflexivity.
    + split; [reflexivity|]. split; [reflexivity|].
      split; [intros _ _; repeat split|].
      intros [|]; discriminate.
Qed.

End GetRequestSends.


Section GetRequestRuns.
Import Tcp.

Lemma get_request_unreadable_frame_dropped_witness :
  exists w', get_request run_Request_init (Some [255]) 0
               (run_received frame_short) = (w', Ret None)
    /\ (forall r', tx (sockets w' r')
                   = tx (sockets (run_received frame_short) r'))
    /\ _socklist (server w') = _socklist (server (run_received frame_short))
    /\ _req_tid (server w') = _req_tid (server (run_received frame_short))
    /\ rx (sockets w' 0%nat)
       = rx (fst (sock_recv 260 (sockets (run_received frame_short) 0%nat))).
Proof.
  apply (get_request_unreadable_frame_dropped run_Request_init (Some [255]) 0
           (run_received frame_short) 0%nat).
  - vm_compute. reflexivity.
  - vm_compute. reflexivity.
  - vm_compute. reflexivity.
  - vm_compute. reflexivity.
  - right. exists frame_short. split; [vm_compute; reflexivity|].
    vm_compute. lia.
Defined.

Lemma get_request_foreign_unit_dropped_witness :
  exists w', get_request run_Request_init (Some [1; 2]) 0
               (run_received frame_function_63) = (w', Ret None)
    /\ (forall r', tx (sockets w' r')
                   = tx (sockets (run_received frame_function_63) r'))
    /\ _req_tid (server w') = Some 7.
Proof.
  apply (get_request_foreign_unit_dropped run_Request_init [1; 2] 0
           (run_received frame_function_63) 0%nat frame_function_63 7 6
           xff [x63; x04; x00; x00; x02]).
  - repeat split; vm_compute; reflexivity.
  - reflexivity.
  - reflexivity.
  - rewrite !elem_of_cons, elem_of_nil. vm_compute. intros [H|[H|[]]];
      discriminate.
Defined.

Lemma get_request_missing_unit_id_IndexError_witness :
  exists w', get_request run_Request_init (Some [255]) 0
               (run_received frame_no_unit) = (w', Raise IndexError)
    /\ (forall r', tx (sockets w' r')
                   = tx (sockets (run_received frame_no_unit) r'))
    /\ _socknum (server w')
       = next_socknum (server (run_received frame_no_unit)).
Proof.
  apply (get_request_missing_unit_id_IndexError run_Request_init [255] 0
           (run_received frame_no_unit) 0%nat frame_no_unit 7 0).
  - repeat split; vm_compute; reflexivity.
  - reflexivity.
  - left. reflexivity.
Defined.

Lemma get_request_sends_only_exception_responses_witness :
  let w' := fst (get_request run_Request_init (Some [255]) 0
                   (run_received frame_function_63)) in
  (forall r', r' <> 0%nat -> r' <> next_sock (run_received frame_function_63) ->
     tx (sockets w' r') = tx (sockets (run_received frame_function_63) r'))
  /\ (0%nat <> next_sock (run_received frame_function_63) ->
      tx (sockets w' 0%nat) = tx (sockets (run_received frame_function_63) 0%nat)
      \/ exists req req0 tid len fc ec,
           receives (run_received frame_function_63) 0%nat req
           /\ head req = Some req0
           /\ frame_header req = Some (tid, 0, len)
           /\ run_Request_init (frame_uid_and_pdu req len)
              = ModbusException fc ec
           /\ snd (get_request run_Request_init (Some [255]) 0
                     (run_received frame_function_63)) = Ret None
           /\ tx (sockets w' 0%nat)
              = tx (sockets (run_received frame_function_63) 0%nat)
                ++ [adu_of tid (byte_to_Z req0) (exception_response fc ec)])
  /\ forall q, snd (get_request run_Request_init (Some [255]) 0
                      (run_received frame_function_63)) = Ret (Some q) ->
       forall r', r' <> next_sock (run_received frame_function_63) ->
         tx (sockets w' r') = tx (sockets (run_received frame_function_63) r').
Proof.
  apply (get_request_sends_only_exception_responses run_Request_init
           (Some [255]) 0 (run_received frame_function_63) 0%nat).
  vm_compute. reflexivity.
Defined.

Lemma get_request_not_connected_witness :
  let w' := fst (get_request run_Request_init (Some [255]) 0 (run_bound 2)) in
  snd (get_request run_Request_init (Some [255]) 0 (run_bound 2)) = Ret None
  /\ _link_timestamp (server w') = monotonic (run_bound 2)
  /\ (status_raises (sockets (run_bound 2) 0%nat) = false ->
      _socket_closed (sockets (run_bound 2) 0%nat) = false ->
      _socklist (server w') = _socklist (server (run_bound 2))
      /\ next_sock w' = next_sock (run_bound 2)
      /\ forall r', sockets w' r' = sockets (run_bound 2) r')
  /\ (status_raises (sockets (run_bound 2) 0%nat) = true
      \/ _socket_closed (sockets (run_bound 2) 0%nat) = true ->
      _socklist (server w')
        = <[_socknum (server (run_bound 2)) := Some (next_sock (run_bound 2))]>
            (_socklist (server (run_bound 2)))
      /\ _current_sock (server w') = Some (next_sock (run_bound 2))
      /\ next_sock w' = S (next_sock (run_bound 2))
      /\ sockets w' (next_sock (run_bound 2))
         = sock_listen (sock_bind (_local_ip (server (run_bound 2)),
                                   _local_port (server (run_bound 2)))
                                  new_socket)
      /\ forall r', r' <> next_sock (run_bound 2) ->
           sockets w' r' = sockets (run_bound 2) r').
Proof.
  apply (get_request_not_connected run_Request_init (Some [255]) 0
           (run_bound 2) 0%nat).
  - vm_compute. reflexivity.
  - vm_compute. reflexivity.
  - right. vm_compute. reflexivity.
Defined.

End GetRequestRuns.


(** ** umodbus/tcp.py: the client and the server on one wire *)

Section ClientFacts.
Import Tcp TcpClient.

Context {Request : Type}.
Variable Request_init : list byte -> @Decoded Request.

Local Abbreviation get_request := (get_request Request_init).

Lemma byte_to_Z_pack_B (z : Z) : byte_to_Z (pack_B z) = z mod 256.
Proof.
  unfold pack_B, byte_to_Z.
  pose proof (Z.mod_pos_bound z 256 ltac:(lia)) as Hr.
  destruct (Byte.of_N (Z.to_N (z mod 256))) as [b|] eqn:E.
  - apply Byte.to_of_N in E. rewrite E. lia.
  - apply Byte.of_N_None_iff in E. lia.
Qed.

Lemma unpack_H_pack_H (z : Z) :
  fits_H z -> unpack_H (pack_B (z / 256)) (pack_B z) = z.
Proof.
  unfold fits_H, unpack_H. intros Hz. rewrite !byte_to_Z_pack_B.
  assert (0 <= z / 256 < 256)
    by (split; [apply Z.div_pos; lia|apply Z.div_lt_upper_bound; lia]).
  rewrite (Z.mod_small (z / 256)) by lia.
  pose proof (Z.div_mod z 256 ltac:(lia)). lia.
Qed.

(** The ADU as a list of bytes. *)
Lemma adu_of_bytes (tid sa : Z) (pdu : list byte) :
  adu_of tid sa pdu
  = pack_B (tid / 256) :: pack_B tid :: pack_B (0 / 256) :: pack_B 0
    :: pack_B ((Z.of_nat (length pdu) + 1) / 256)
    :: pack_B (Z.of_nat (length pdu) + 1) :: pack_B sa :: pdu.
Proof. reflexivity. Qed.

Lemma _create_mbap_hdr_frame (sa : Z) (pdu : list byte) (self : TCP) :
  fst (snd (_create_mbap_hdr sa pdu self)) ++ pdu
  = adu_of (trans_id_ctr self) sa pdu.
Proof.
  unfold _create_mbap_hdr, adu_of. cbn [fst snd].
  rewrite <- !app_assoc. reflexivity.
Qed.

Lemma frame_header_adu_of (tid sa : Z) (pdu : list byte) :
  fits_H tid -> fits_H (Z.of_nat (length pdu) + 1) ->
  frame_header (adu_of tid sa pdu)
  = Some (tid, 0, Z.of_nat (length pdu) + 1).
Proof.
  intros Ht Hl. rewrite adu_of_bytes. unfold frame_header, unpack_HHH.
  change (MBAP_HDR_LENGTH - 1)%nat with 6%nat. cbn [take firstn].
  rewrite (unpack_H_pack_H tid Ht), (unpack_H_pack_H _ Hl).
  reflexivity.
Qed.

Lemma frame_uid_and_pdu_adu_of (tid sa : Z) (pdu : list byte) :
  frame_uid_and_pdu (adu_of tid sa pdu) (Z.of_nat (length pdu) + 1)
  = pack_B sa :: pdu.
Proof.
  rewrite adu_of_bytes. unfold frame_uid_and_pdu.
  change (MBAP_HDR_LENGTH - 1)%nat with 6%nat. cbn [drop skipn].
  apply take_ge. cbn [length]. lia.
Qed.

(** What the client makes of an ADU of the server. *)
Lemma _validate_resp_hdr_adu_of (tid sa : Z) (fc : byte) (rest : list byte)
    (trans_id slave_addr function_code : Z) (count : bool) :
  fits_H tid -> fits_B sa ->
  _validate_resp_hdr (adu_of tid sa (fc :: rest)) trans_id slave_addr
                     function_code count
  = if negb (trans_id =? tid) then Err WrongTransactionID
    else if negb (slave_addr =? sa) then Err WrongSlaveID
    else if byte_to_Z fc =? function_code + ERROR_BIAS
    then Err (SlaveException (byte_to_Z fc))
    else Ok (if count then drop 1 rest else rest).
Proof.
  intros Ht Hs. rewrite adu_of_bytes. unfold _validate_resp_hdr.
  change (MBAP_HDR_LENGTH + 1)%nat with 8%nat.
  change (MBAP_HDR_LENGTH + 2)%nat with 9%nat.
  cbn [take firstn unpack_HHHBB]. rewrite take_0.
  rewrite (unpack_H_pack_H tid Ht).
  replace (unpack_H (pack_B (0 / 256)) (pack_B 0)) with 0 by reflexivity.
  rewrite byte_to_Z_pack_B, (Z.mod_small sa) by (unfold fits_B in Hs; lia).
  cbn [Z.eqb negb].
  destruct (negb (trans_id =? tid)); [reflexivity|].
  destruct (negb (slave_addr =? sa)); [reflexivity|].
  destruct (byte_to_Z fc =? function_code + ERROR_BIAS); [reflexivity|].
  destruct count; reflexivity.
Qed.

(** X19: the ADU the server's [_send] writes for a response PDU
    passes the client's [_validate_resp_hdr] for the transaction id
    and slave address it was sent with, and gives the PDU without its
    function code, or without function code and byte count when
    [count] is set; for any other transaction id or slave address the
    client raises. *)
Theorem server_response_accepted_by_client (fc : byte) (rest : list byte)
    (slave_addr tid function_code : Z) (w : World) (r : SockRef) :
  fits_H tid -> fits_B slave_addr ->
  _req_tid (server w) = Some tid ->
  _current_sock (server w) = Some r ->
  byte_to_Z fc <> function_code + ERROR_BIAS ->
  exists adu,
    _send (fc :: rest) slave_addr w = (on_sock r (sock_send adu) w, Ret tt)
    /\ _validate_resp_hdr adu tid slave_addr function_code false = Ok rest
    /\ _validate_resp_hdr adu tid slave_addr function_code true
       = Ok (drop 1 rest)
    /\ (forall trans_id count, trans_id <> tid ->
          _validate_resp_hdr adu trans_id slave_addr function_code count
          = Err WrongTransactionID)
    /\ (forall sa count, sa <> slave_addr ->
          _validate_resp_hdr adu tid sa function_code count
          = Err WrongSlaveID).
Proof.
  intros Ht Hs Htid Hcur Hfc.
  exists (adu_of tid slave_addr (fc :: rest)).
  split; [apply _send_eq; assumption|].
  assert (Hv := fun a b c d =>
            _validate_resp_hdr_adu_of tid slave_addr fc rest a b c d Ht Hs).
  apply Z.eqb_neq in Hfc.
  repeat split.
  - rewrite Hv, !Z.eqb_refl, Hfc. reflexivity.
  - rewrite Hv, !Z.eqb_refl, Hfc. reflexivity.
  - intros trans_id count Hne. rewrite Hv.
    apply Z.eqb_neq in Hne. rewrite Hne. reflexivity.
  - intros sa count Hne. rewrite Hv, Z.eqb_refl.
    apply Z.eqb_neq in Hne. rewrite Hne. reflexivity.
Qed.

Lemma lor_ERROR_BIAS (fc : Z) :
  0 <= fc < 0x80 -> Z.lor fc 0x80 = fc + ERROR_BIAS.
Proof.
  intros Hfc. unfold ERROR_BIAS.
  assert (Hland : Z.land fc 0x80 = 0).
  { apply Z.bits_inj'. intros n Hn. rewrite Z.land_spec, Z.bits_0.
    destruct (Z.eq_dec n 7) as [->|Hne].
    - replace (Z.testbit fc 7) with false; [reflexivity|].
      symmetry. destruct (Z.eq_dec fc 0) as [->|Hnz]; [reflexivity|].
      apply Z.bits_above_log2; [lia|].
      apply Z.log2_lt_pow2; lia.
    - replace (Z.testbit 0x80 n) with false; [apply andb_false_r|].
      symmetry. change 0x80 with (2 ^ 7).
      rewrite Z.pow2_bits_eqb by lia. apply Z.eqb_neq. lia. }
  rewrite <- Z.lxor_lor by exact Hland.
  symmetry. apply Z.add_nocarry_lxor. exact Hland.
Qed.

(** X20: when the [Request] constructor rejects a frame of the client
    with a [ModbusException], the exception response [get_request]
    sends carries the first byte of the frame, the high byte of the
    transaction id, in the place of the unit id.  The client therefore
    raises 'wrong slave ID' for it unless its slave address equals
    that byte; when it does, and the exception names the function code
    of the request, the client raises 'slave returned exception
    code'. *)
Theorem exception_response_seen_by_client (slave_addr : Z) (fcb : byte)
    (body : list byte) (self : TCP) (ual : option (list Z)) (t : Z)
    (w : World) (r : SockRef) (function_code exception_code : Z)
    (count : bool) :
  let trans_id := trans_id_ctr self in
  let modbus_pdu := fcb :: body in
  let frame := fst (snd (_create_mbap_hdr slave_addr modbus_pdu self))
               ++ modbus_pdu in
  fits_H trans_id -> fits_B slave_addr ->
  fits_H (Z.of_nat (length modbus_pdu) + 1) ->
  receives w r frame ->
  unit_accepted ual (pack_B slave_addr :: modbus_pdu) ->
  Request_init (pack_B slave_addr :: modbus_pdu)
    = ModbusException function_code exception_code ->
  exists w' adu,
    get_request ual t w = (w', Ret None)
    /\ tx (sockets w' r) = tx (sockets w r) ++ [adu]
    /\ adu = adu_of trans_id (trans_id / 256)
               (exception_response function_code exception_code)
    /\ (slave_addr <> trans_id / 256 ->
        _validate_resp_hdr adu trans_id slave_addr (byte_to_Z fcb) count
        = Err WrongSlaveID)
    /\ (slave_addr = trans_id / 256 ->
        0 <= function_code < 0x80 -> function_code = byte_to_Z fcb ->
        _validate_resp_hdr adu trans_id slave_addr (byte_to_Z fcb) count
        = Err (SlaveException (function_code + ERROR_BIAS))).
Proof.
  cbv zeta. intros Ht Hs Hl Hrecv Hunit Hexc.
  rewrite _create_mbap_hdr_frame in *.
  set (tid := trans_id_ctr self) in *.
  set (pdu := fcb :: body) in *.
  pose proof (frame_header_adu_of tid slave_addr pdu Ht Hl) as Hhdr.
  assert (Hhi : 0 <= tid / 256 < 256).
  { unfold fits_H in Ht.
    split; [apply Z.div_pos; lia|apply Z.div_lt_upper_bound; lia]. }
  assert (Hreq0 : byte_to_Z (pack_B (tid / 256)) = tid / 256)
    by (rewrite byte_to_Z_pack_B; apply Z.mod_small; exact Hhi).
  exists (on_sock r (sock_send (adu_of tid (tid / 256)
                                  (exception_response function_code
                                                      exception_code)))
            (received_step t r tid w)).
  exists (adu_of tid (tid / 256)
            (exception_response function_code exception_code)).
  split.
  { rewrite (get_request_receives Request_init ual t w r _ _ _ _ Hrecv Hhdr).
    rewrite frame_uid_and_pdu_adu_of.
    rewrite (get_request_parse_accepted Request_init ual _ _ _ Hunit).
    rewrite adu_of_bytes.
    rewrite (get_request_decode_exception Request_init _ _ _ function_code
               exception_code tid r (received_step t r tid w) Hexc
               eq_refl eq_refl).
    rewrite Hreq0. reflexivity. }
  split.
  { rewrite sockets_on_sock_same. cbn [tx sock_send].
    rewrite tx_received_step. reflexivity. }
  split; [reflexivity|].
  assert (Hv := fun a b c d =>
            _validate_resp_hdr_adu_of tid (tid / 256)
              (pack_B (Z.lor function_code 0x80)) [pack_B exception_code]
              a b c d Ht ltac:(unfold fits_B; lia)).
  unfold exception_response. split.
  - intros Hne. rewrite Hv, Z.eqb_refl. cbn [negb].
    apply Z.eqb_neq in Hne. rewrite Hne. reflexivity.
  - intros -> Hfc Heq. rewrite Hv, !Z.eqb_refl. cbn [negb].
    rewrite byte_to_Z_pack_B, (lor_ERROR_BIAS _ Hfc).
    rewrite Z.mod_small by (unfold ERROR_BIAS; lia).
    rewrite <- Heq, Z.eqb_refl. reflexivity.
Qed.

(** X21: [_send_receive] sends the header and PDU as one buffer with
    the current transaction counter and advances the counter by one;
    when the peer's answer is the ADU a server builds for that
    transaction id and slave address, the call returns the response
    PDU without its function code, or without function code and byte
    count when [count] is set. *)
Theorem send_receive_round_trip (slave_addr : Z) (fcb : byte)
    (body : list byte) (count : bool) (self : TCP) (fc : byte)
    (rest : list byte) (queue : list RecvResult) :
  let trans_id := trans_id_ctr self in
  let modbus_pdu := fcb :: body in
  let answer := adu_of trans_id slave_addr (fc :: rest) in
  fits_H trans_id -> fits_B slave_addr ->
  rx (_sock self) = RecvData answer :: queue ->
  (length answer <= 256)%nat ->
  byte_to_Z fc <> byte_to_Z fcb + ERROR_BIAS ->
  let self' := fst (_send_receive slave_addr modbus_pdu count self) in
  snd (_send_receive slave_addr modbus_pdu count self)
    = Ok (if count then drop 1 rest else rest)
  /\ trans_id_ctr self' = trans_id + 1
  /\ tx (_sock self') = tx (_sock self)
                        ++ [adu_of trans_id slave_addr modbus_pdu]
  /\ rx (_sock self') = queue.
Proof.
  cbv zeta. intros Ht Hs Hrx Hlen Hfc.
  unfold _send_receive.
  pose proof (_create_mbap_hdr_frame slave_addr (fcb :: body) self) as Hframe.
  unfold _create_mbap_hdr in *. cbn [fst snd _sock trans_id_ctr] in *.
  rewrite Hframe.
  unfold sock_recv. cbn [rx sock_send]. rewrite Hrx.
  rewrite drop_ge by exact Hlen. rewrite take_ge by exact Hlen.
  cbn [fst snd _sock trans_id_ctr sock_set_rx rx tx sock_send].
  rewrite (_validate_resp_hdr_adu_of _ _ _ _ _ _ _ _ Ht Hs), !Z.eqb_refl.
  cbn [negb]. apply Z.eqb_neq in Hfc. rewrite Hfc.
  repeat split.
Qed.

End ClientFacts.


Section ClientRuns.
Import Tcp TcpClient.

(** The frame of the client at transaction 7 for unit 0xff is
    [frame_read]. *)
Example run_client_frame :
  fst (snd (_create_mbap_hdr 255 pdu_read (run_client []))) ++ pdu_read
  = frame_read.
Proof. vm_compute. reflexivity. Qed.

Lemma server_response_accepted_by_client_witness :
  exists adu,
    _send (x04 :: [x04; x00; x00; x00; x02]) 255 run_server_received
    = (on_sock 0%nat (sock_send adu) run_server_received, Ret tt)
    /\ _validate_resp_hdr adu 7 255 4 false = Ok [x04; x00; x00; x00; x02]
    /\ _validate_resp_hdr adu 7 255 4 true
       = Ok (drop 1 [x04; x00; x00; x00; x02])
    /\ (forall trans_id count, trans_id <> 7 ->
          _validate_resp_hdr adu trans_id 255 4 count
          = Err WrongTransactionID)
    /\ (forall sa count, sa <> 255 ->
          _validate_resp_hdr adu 7 sa 4 count = Err WrongSlaveID).
Proof.
  apply (server_response_accepted_by_client x04 [x04; x00; x00; x00; x02]
           255 7 4 run_server_received 0%nat).
  - unfold fits_H. lia.
  - unfold fits_B. lia.
  - vm_compute. reflexivity.
  - vm_compute. reflexivity.
  - vm_compute. discriminate.
Defined.

Lemma exception_response_seen_by_client_witness :
  let self := run_client [] in
  let trans_id := trans_id_ctr self in
  exists w' adu,
    get_request run_Request_init (Some [255]) 0
      (run_received frame_function_63) = (w', Ret None)
    /\ tx (sockets w' 0%nat)
       = tx (sockets (run_received frame_function_63) 0%nat) ++ [adu]
    /\ adu = adu_of trans_id (trans_id / 256) (exception_response 99 1)
    /\ (255 <> trans_id / 256 ->
        _validate_resp_hdr adu trans_id 255 (byte_to_Z x63) false
        = Err WrongSlaveID)
    /\ (255 = trans_id / 256 ->
        0 <= 99 < 0x80 -> 99 = byte_to_Z x63 ->
        _validate_resp_hdr adu trans_id 255 (byte_to_Z x63) false
        = Err (SlaveException (99 + ERROR_BIAS))).
Proof.
  apply (exception_response_seen_by_client run_Request_init 255 x63
           [x04; x00; x00; x02] (run_client []) (Some [255]) 0
           (run_received frame_function_63) 0%nat 99 1 false).
  - unfold fits_H. vm_compute. split; [discriminate|reflexivity].
  - unfold fits_B. lia.
  - unfold fits_H. vm_compute. split; [discriminate|reflexivity].
  - repeat split; vm_compute; reflexivity.
  - vm_compute. reflexivity.
  - reflexivity.
Defined.

(** The client at transaction 7 and slave address 0xff gets 'wrong
    slave ID' for the exception response to its frame with function
    code 0x63: the response names unit 0. *)
Example run_exception_wrong_slave :
  _validate_resp_hdr (adu_of 7 0 (exception_response 99 1)) 7 255 99 false
  = Err WrongSlaveID.
Proof. vm_compute. reflexivity. Qed.

Lemma send_receive_round_trip_witness :
  let self := run_client (adu_of 7 255 pdu_read_response) in
  let self' := fst (_send_receive 255 pdu_read true self) in
  snd (_send_receive 255 pdu_read true self)
    = Ok (drop 1 [x04; x00; x00; x00; x02])
  /\ trans_id_ctr self' = trans_id_ctr self + 1
  /\ tx (_sock self') = tx (_sock self) ++ [adu_of (trans_id_ctr self) 255 pdu_read]
  /\ rx (_sock self') = [].
Proof.
  apply (send_receive_round_trip 255 x04 [x04; x00; x00; x02] true
           (run_client (adu_of 7 255 pdu_read_response)) x04
           [x04; x00; x00; x00; x02] []).
  - unfold fits_H. vm_compute. split; [discriminate|reflexivity].
  - unfold fits_B. lia.
  - reflexivity.
  - vm_compute. lia.
  - vm_compute. discriminate.
Defined.

End ClientRuns.


(** ** The five seconds of the link-down branch, in floating point *)

Section LinkDownRuns.
Import Tcp.

(** A time stamp of 0 and a reading of 4.9: the socket stays open.
    A reading of 5: it is closed. *)
Example run_link_down_threshold :
  _socket_closed
    (sockets (fst (get_request run_Request_init None 0
                     (run_link_down_since 0 (49 / 10)))) 0%nat) = false
  /\ _socket_closed
       (sockets (fst (get_request run_Request_init None 0
                        (run_link_down_since 0 5))) 0%nat) = true.
Proof. split; vm_compute; reflexivity. Qed.

(** A time stamp of 0.1 and a reading of 5.1: as binary64 values the
    two readings are less than 5 apart (by 26 units of 2^-56), but
    their difference rounds to 5.0 and the socket is closed. *)
Example run_link_down_rounding :
  FloatOps.Prim2SF (1 / 10)
    = SpecFloat.S754_finite false 7205759403792794 (-56)
  /\ FloatOps.Prim2SF (51 / 10)
     = SpecFloat.S754_finite false 5742089524897382 (-50)
  /\ (5742089524897382 * 2 ^ 6 - 7205759403792794 < 5 * 2 ^ 56)%Z
  /\ (51 / 10 - 1 / 10)%float = 5%float
  /\ _link_timestamp (server (run_link_down_since (1 / 10) (51 / 10)))
     = (1 / 10)%float
  /\ _socket_closed
       (sockets (fst (get_request run_Request_init None 0
                        (run_link_down_since (1 / 10) (51 / 10)))) 0%nat)
     = true.
Proof. repeat split; vm_compute; reflexivity. Qed.

End LinkDownRuns.


(** ** umodbus/tcp.py: one socket per call, in round-robin order *)

Section RoundRobin.
Import Tcp.

Context {Request : Type}.
Variable Request_init : list byte -> @Decoded Request.

Local Abbreviation get_request := (get_request Request_init).
Local Abbreviation get_request_read := (get_request_read Request_init).
Local Abbreviation get_request_parse := (get_request_parse Request_init).
Local Abbreviation get_request_decode := (get_request_decode Request_init).
Local Abbreviation reachable := (reachable Request_init).
Local Abbreviation polls := (polls Request_init).
Local Abbreviation polled := (polled Request_init).

(** *** The socket in the slot becomes the current one *)

Lemma get_request_current (ual : option (list Z)) (t : Z) (w : World)
    (r : SockRef) :
  _socklist (server w) !! _socknum (server w) = Some (Some r) ->
  _socklist (server (fst (get_request ual t w))) !! _socknum (server w)
    = Some (_current_sock (server (fst (get_request ual t w))))
  /\ (_current_sock (server (fst (get_request ual t w))) = Some r
      \/ _current_sock (server (fst (get_request ual t w)))
         = Some (next_sock w)).
Proof.
  intros Hslot.
  rewrite (get_request_slot Request_init ual t w r Hslot).
  destruct (link_status w); cbn [negb].
  - destruct (status_of (sockets w r)) as [[|] [|]]; cbn [negb fst].
    + destruct (get_request_read_server Request_init ual t r (stamp_step r w))
        as [x ->].
      split; [exact Hslot|left; reflexivity].
    + destruct (get_request_read_server Request_init ual t r (stamp_step r w))
        as [x ->].
      split; [exact Hslot|left; reflexivity].
    + split; [|right; reflexivity].
      cbn. apply list_lookup_insert_eq. eapply lookup_lt_Some, Hslot.
    + split; [exact Hslot|left; reflexivity].
  - cbn [fst].
    destruct (5 <=? monotonic w - _link_timestamp (server w))%float;
      [destruct (negb (_socket_closed (sockets w r)))|];
      (split; [exact Hslot|left; reflexivity]).
Qed.

(** *** The socket in the slot is the one read *)

Lemma sock_recv_after_settimeout (n : nat) (t : Z) (s : Socket) :
  rx (fst (sock_recv n (sock_settimeout t s))) = rx (fst (sock_recv n s))
  /\ sock_timeout (fst (sock_recv n (sock_settimeout t s))) = Some t.
Proof.
  unfold sock_recv. cbn [rx sock_settimeout].
  destruct (rx s) as [|[d| |] q]; split; reflexivity.
Qed.

Lemma _send_keeps (pdu : list byte) (sa : Z) (w : World) (r' : SockRef) :
  rx (sockets (fst (_send pdu sa w)) r') = rx (sockets w r')
  /\ sock_timeout (sockets (fst (_send pdu sa w)) r')
     = sock_timeout (sockets w r').
Proof.
  unfold _send.
  destruct (_req_tid (server w)); [|split; reflexivity].
  destruct (_current_sock (server w)) as [r0|]; [|split; reflexivity].
  cbn [fst]. unfold on_sock. cbn [sockets].
  destruct (Nat.eqb r' r0); split; reflexivity.
Qed.

Lemma get_request_parse_keeps (ual : option (list Z)) (req : list byte)
    (pid : Z) (uap : list byte) (w : World) (r' : SockRef) :
  rx (sockets (fst (get_request_parse ual req pid uap w)) r')
    = rx (sockets w r')
  /\ sock_timeout (sockets (fst (get_request_parse ual req pid uap w)) r')
     = sock_timeout (sockets w r').
Proof.
  assert (Hdec :
    rx (sockets (fst (get_request_decode req uap w)) r') = rx (sockets w r')
    /\ sock_timeout (sockets (fst (get_request_decode req uap w)) r')
       = sock_timeout (sockets w r')).
  { unfold Tcp.get_request_decode.
    destruct (Request_init uap) as [q|fc ec|e]; [split; reflexivity| |
      split; reflexivity].
    destruct req as [|req0 rest]; [split; reflexivity|].
    unfold send_exception_response, bindM.
    pose proof (_send_keeps (exception_response fc ec) (byte_to_Z req0) w r')
      as Hk.
    destruct (_send (exception_response fc ec) (byte_to_Z req0) w)
      as [w1 [[]|e]]; exact Hk. }
  unfold Tcp.get_request_parse.
  destruct (negb (pid =? 0)); [split; reflexivity|].
  destruct ual as [l|].
  - destruct uap as [|uid uap']; [split; reflexivity|].
    unfold bindM at 1. unfold ret at 1.
    destruct (negb (existsb (Z.eqb (byte_to_Z uid)) l));
      [split; reflexivity|exact Hdec].
  - unfold bindM at 1. unfold ret at 1. exact Hdec.
Qed.

Lemma get_request_reads_slot (ual : option (list Z)) (t : Z) (w : World)
    (r : SockRef) :
  _socklist (server w) !! _socknum (server w) = Some (Some r) ->
  link_status w = true ->
  status_raises (sockets w r) = false ->
  _connected (sockets w r) = true ->
  sock_timeout (sockets (fst (get_request ual t w)) r) = Some t
  /\ rx (sockets (fst (get_request ual t w)) r)
     = rx (fst (sock_recv 260 (sockets w r))).
Proof.
  intros Hslot Hlink Hraise Hconn.
  rewrite (get_request_slot Request_init ual t w r Hslot), Hlink.
  cbn [negb]. unfold status_of. rewrite Hraise, Hconn. cbn [negb].
  rewrite get_request_read_eq.
  assert (Hstep : sock_timeout (sockets (recv_step t r (stamp_step r w)) r)
                  = Some t
                  /\ rx (sockets (recv_step t r (stamp_step r w)) r)
                     = rx (fst (sock_recv 260 (sockets w r)))).
  { unfold recv_step. rewrite sockets_on_sock_same.
    replace (sockets (stamp_step r w) r) with (sockets w r) by reflexivity.
    destruct (sock_recv_after_settimeout 260 t (sockets w r)) as [H1 H2].
    auto. }
  destruct (snd (sock_recv 260 (sockets (stamp_step r w) r))) as [req|];
    [|exact Hstep].
  destruct (length req =? 0)%nat; [exact Hstep|].
  destruct (frame_header req) as [[[tid pid] len]|]; [|exact Hstep].
  destruct (get_request_parse_keeps ual req pid (frame_uid_and_pdu req len)
              (update_server (with_req_tid (Some tid))
                 (recv_step t r (stamp_step r w))) r) as [-> ->].
  exact Hstep.
Qed.

Lemma get_request_returns_decoded (ual : option (list Z)) (t : Z) (w : World)
    (r : SockRef) (req : list byte) (tid len : Z) (q : Request) :
  receives w r req ->
  frame_header req = Some (tid, 0, len) ->
  unit_accepted ual (frame_uid_and_pdu req len) ->
  Request_init (frame_uid_and_pdu req len) = DecodedRequest q ->
  snd (get_request ual t w) = Ret (Some q).
Proof.
  intros Hrecv Hhdr Hunit Hq.
  rewrite (get_request_receives Request_init ual t w r req tid 0 len
             Hrecv Hhdr).
  rewrite (get_request_parse_accepted Request_init ual _ _ _ Hunit).
  unfold Tcp.get_request_decode. rewrite Hq. reflexivity.
Qed.

(** *** Consecutive calls *)

Lemma polls_step (ual : option (list Z)) (t : Z) (e : Env) (es : list Env)
    (w : World) :
  fst (polls ual t (e :: es) w)
  = fst (polls ual t es (fst (get_request ual t (apply_env e w)))).
Proof. apply polls_cons_fst. Qed.

Lemma rotation_not_back (c n j : nat) :
  (c < n)%nat -> (0 < j < n)%nat -> ((c + j) mod n <> c)%nat.
Proof.
  intros Hc Hj.
  rewrite (mod_below_twice (c + j) n) by lia.
  destruct (Nat.ltb_spec (c + j) n); lia.
Qed.

(** One call: the cursor and the length of the list afterwards. *)
Lemma get_request_cursor_length (ual : option (list Z)) (t : Z) (e : Env)
    (w : World) :
  (_socknum (server w) < length (_socklist (server w)))%nat ->
  let w2 := fst (get_request ual t (apply_env e w)) in
  _socknum (server w2)
  = (S (_socknum (server w)) mod length (_socklist (server w)))%nat
  /\ length (_socklist (server w2)) = length (_socklist (server w))
  /\ (_socknum (server w2) < length (_socklist (server w2)))%nat.
Proof.
  intros Hlt. cbv zeta.
  assert (Hlt1 : (_socknum (server (apply_env e w))
                  < length (_socklist (server (apply_env e w))))%nat)
    by exact Hlt.
  destruct (lookup_lt_is_Some_2 _ _ Hlt1) as [cur Hslot].
  destruct (get_request_effect Request_init ual t (apply_env e w) cur Hslot)
    as (Hn & Hl & _).
  destruct (next_socknum_mod (server (apply_env e w)) Hlt1) as [Hmod Hlt'].
  change (server (apply_env e w)) with (server w) in *.
  rewrite Hn, Hl, Hmod. repeat split. rewrite <- Hmod. exact Hlt'.
Qed.

(** Calls that index other slots leave a slot as it is. *)
Lemma polls_slot_kept (ual : option (list Z)) (t : Z) (i : nat)
    (es : list Env) (w : World) :
  (_socknum (server w) < length (_socklist (server w)))%nat ->
  (forall k, (k < length es)%nat ->
     ((_socknum (server w) + k) mod length (_socklist (server w)))%nat <> i) ->
  _socklist (server (fst (polls ual t es w))) !! i
  = _socklist (server w) !! i.
Proof.
  revert w. induction es as [|e es IH]; intros w Hlt Hk; [reflexivity|].
  rewrite polls_step.
  destruct (get_request_cursor_length ual t e w Hlt) as (Hc & Hl & Hlt2).
  set (w2 := fst (get_request ual t (apply_env e w))) in *.
  rewrite IH.
  - assert (Hlt1 : (_socknum (server (apply_env e w))
                    < length (_socklist (server (apply_env e w))))%nat)
      by exact Hlt.
    destruct (lookup_lt_is_Some_2 _ _ Hlt1) as [cur Hslot].
    destruct (get_request_pool Request_init ual t (apply_env e w) cur Hslot)
      as [[Hsame _]|[Hins _]].
    + fold w2 in Hsame. rewrite Hsame. reflexivity.
    + fold w2 in Hins. rewrite Hins. change (server (apply_env e w)) with (server w).
      apply list_lookup_insert_ne.
      specialize (Hk 0%nat ltac:(cbn; lia)).
      rewrite Nat.add_0_r, Nat.mod_small in Hk by exact Hlt. exact Hk.
  - exact Hlt2.
  - intros k Hlen. rewrite Hc, Hl.
    rewrite Nat.Div0.add_mod_idemp_l.
    replace (S (_socknum (server w)) + k)%nat
      with (_socknum (server w) + S k)%nat by lia.
    apply Hk. cbn [length]. lia.
Qed.

(** The sockets the calls make current are the entries of the list,
    in the order of the cursor. *)
Lemma polled_rotation (ual : option (list Z)) (t : Z) (es : list Env)
    (w : World) :
  pool_wf w ->
  (_socknum (server w) < length (_socklist (server w)))%nat ->
  (length es <= length (_socklist (server w)))%nat ->
  Some <$> polled ual t es w
  = (fun k => _socklist (server (fst (polls ual t es w)))
                !! ((_socknum (server w) + k)
                      mod length (_socklist (server w)))%nat)
      <$> seq 0 (length es).
Proof.
  revert w. induction es as [|e es IH]; intros w Hwf Hlt Hlen; [reflexivity|].
  cbn [Tcp.polled length seq fmap list_fmap]. rewrite polls_step.
  destruct (get_request_cursor_length ual t e w Hlt) as (Hc & Hl & Hlt2).
  assert (Hwf1 : pool_wf (apply_env e w)) by exact Hwf.
  pose proof (get_request_wf Request_init ual t _ Hwf1) as Hwf2.
  set (w2 := fst (get_request ual t (apply_env e w))) in *.
  cbn [length] in Hlen.
  f_equal.
  - rewrite Nat.add_0_r, Nat.mod_small by exact Hlt.
    rewrite (polls_slot_kept ual t (_socknum (server w)) es w2 Hlt2).
    + assert (Hlt1 : (_socknum (server (apply_env e w))
                      < length (_socklist (server (apply_env e w))))%nat)
        by exact Hlt.
      destruct (lookup_lt_is_Some_2 _ _ Hlt1) as [cur Hslot].
      destruct Hwf1 as [_ Hal].
      destruct (Hal _ _ Hslot) as (r & -> & _).
      destruct (get_request_current ual t (apply_env e w) r Hslot)
        as [Hcur _].
      symmetry. exact Hcur.
    + intros k Hk. rewrite Hc, Hl.
      rewrite Nat.Div0.add_mod_idemp_l.
      replace (S (_socknum (server w)) + k)%nat
        with (_socknum (server w) + S k)%nat by lia.
      apply rotation_not_back; lia.
  - rewrite (IH w2 Hwf2 Hlt2) by lia.
    rewrite <- seq_shift, <- list_fmap_compose.
    apply list_fmap_ext. intros _ k _. cbn.
    rewrite Hc, Hl. rewrite Nat.Div0.add_mod_idemp_l.
    do 2 f_equal. lia.
Qed.

Lemma polls_wf (ual : option (list Z)) (t : Z) (es : list Env) (w : World) :
  pool_wf w -> pool_wf (fst (polls ual t es w)).
Proof.
  revert w. induction es as [|e es IH]; intros w Hwf; [exact Hwf|].
  rewrite polls_step. apply IH.
  apply (get_request_wf Request_init ual t (apply_env e w)). exact Hwf.
Qed.

Lemma polls_length (ual : option (list Z)) (t : Z) (es : list Env)
    (w : World) :
  (_socknum (server w) < length (_socklist (server w)))%nat ->
  length (_socklist (server (fst (polls ual t es w))))
  = length (_socklist (server w)).
Proof.
  revert w. induction es as [|e es IH]; intros w Hlt; [reflexivity|].
  rewrite polls_step.
  destruct (get_request_cursor_length ual t e w Hlt) as (_ & Hl & Hlt2).
  rewrite IH by exact Hlt2. exact Hl.
Qed.

Lemma lookups_seq {A} (l : list A) :
  (fun i => l !! i) <$> seq 0 (length l) = Some <$> l.
Proof.
  apply list_eq. intros i. rewrite !list_lookup_fmap.
  destruct (Nat.lt_ge_cases i (length l)) as [Hlt|Hge].
  - rewrite lookup_seq_lt by exact Hlt. cbn.
    destruct (lookup_lt_is_Some_2 _ _ Hlt) as [x Hx]. rewrite Hx. reflexivity.
  - rewrite lookup_seq_ge by exact Hge.
    rewrite (lookup_ge_None_2 l i Hge). reflexivity.
Qed.

Lemma fmap_Some_Permutation {A} (l1 l2 : list A) :
  Some <$> l1 ≡ₚ Some <$> l2 -> l1 ≡ₚ l2.
Proof.
  intros H.
  assert (Hc : forall l : list A, omap id (Some <$> l) = l).
  { induction l as [|x l IHl]; [reflexivity|]. cbn. f_equal. exact IHl. }
  rewrite <- (Hc l1), <- (Hc l2), H. reflexivity.
Qed.

(** C6: on a pool that is not empty a call of [get_request] takes
    the socket in the slot at the cursor and works on that socket
    only.  The socket in [_current_sock] after the call is the one in
    that slot: the socket found there or, when it was replaced, the
    new one.  When the link is up and the socket connected, the call
    sets its timeout and receives from it, and a request returned is
    decoded from the frame received on it; when the link has been down
    for 5 seconds the call closes it; when it is closed and the link
    up the call replaces it in its slot.  No other socket object
    changes and the result depends on no other.  The cursor
    [_socknum] advances by one modulo the length of the pool, which
    stays the same.  Hence n consecutive calls visit the n slots in
    round-robin order, and the sockets they work on are the sockets
    of the pool, each exactly once. *)
Theorem get_request_round_robin (ual : option (list Z)) (t : Z) (w : World) :
  reachable w ->
  _socklist (server w) <> [] ->
  let n := length (_socklist (server w)) in
  let w' := fst (get_request ual t w) in
  (exists r,
      _socklist (server w) !! _socknum (server w) = Some (Some r)
      /\ _socklist (server w') !! _socknum (server w)
         = Some (_current_sock (server w'))
      /\ (_current_sock (server w') = Some r
          \/ _current_sock (server w') = Some (next_sock w))
      /\ (link_status w = true -> status_raises (sockets w r) = false ->
          _connected (sockets w r) = true ->
          sock_timeout (sockets w' r) = Some t
          /\ rx (sockets w' r) = rx (fst (sock_recv 260 (sockets w r))))
      /\ (forall req tid len q,
            receives w r req -> frame_header req = Some (tid, 0, len) ->
            unit_accepted ual (frame_uid_and_pdu req len) ->
            Request_init (frame_uid_and_pdu req len) = DecodedRequest q ->
            snd (get_request ual t w) = Ret (Some q))
      /\ (link_status w = false ->
          (5 <=? monotonic w - _link_timestamp (server w))%float = true ->
          _socket_closed (sockets w' r) = true)
      /\ (link_status w = true -> _socket_closed (sockets w r) = true ->
          _connected (sockets w r) = false ->
          _socklist (server w') !! _socknum (server w)
          = Some (Some (next_sock w)))
      /\ _socknum (server w') = (S (_socknum (server w)) mod n)%nat
      /\ length (_socklist (server w')) = n
      /\ (forall r', r' <> r -> r' <> next_sock w ->
            sockets w' r' = sockets w r')
      /\ (forall w2, agree_on r w w2 ->
            snd (get_request ual t w) = snd (get_request ual t w2)
            /\ server w' = server (fst (get_request ual t w2))))
  /\ forall es, length es = n ->
       let wn := fst (polls ual t es w) in
       snd (polls ual t es w)
       = (fun k => (_socknum (server w) + k) mod n)%nat <$> seq 0 n
       /\ snd (polls ual t es w) ≡ₚ seq 0 n
       /\ Some <$> polled ual t es w
          = (fun k => _socklist (server wn)
                        !! ((_socknum (server w) + k) mod n)%nat)
              <$> seq 0 n
       /\ polled ual t es w ≡ₚ _socklist (server wn)
       /\ NoDup (polled ual t es w).
Proof.
  intros Hreach Hne n w'.
  destruct (reachable_cursor Request_init w Hreach) as [Hnil|Hlt];
    [contradiction|].
  pose proof (reachable_wf Request_init w Hreach) as Hwf.
  split.
  - destruct (lookup_lt_is_Some_2 _ _ Hlt) as [cur Hslot].
    destruct Hwf as [_ Hal].
    destruct (Hal _ _ Hslot) as (r & -> & _).
    exists r. split; [exact Hslot|].
    destruct (get_request_current ual t w r Hslot) as [Hcur Hwhich].
    split; [exact Hcur|]. split; [exact Hwhich|].
    split; [apply get_request_reads_slot; exact Hslot|].
    split.
    { intros req tid len q. apply get_request_returns_decoded. }
    split.
    { intros Hlink H5.
      destruct (get_request_link_down Request_init ual t w r Hslot Hlink)
        as (_ & _ & _ & _ & Hge & _).
      apply Hge, H5. }
    split.
    { intros Hlink Hcl Hco.
      destruct (get_request_recreates Request_init ual t
                  (_socknum (server w)) r w) as [_ [Hrec _]];
        [repeat split; assumption|reflexivity|exact Hlink|exact Hrec]. }
    destruct (get_request_effect Request_init ual t w (Some r) Hslot)
      as (Hn & Hl & Hf).
    destruct (next_socknum_mod (server w) Hlt) as [Hmod _].
    split; [subst w'; rewrite Hn; exact Hmod|].
    split; [exact Hl|].
    split.
    { intros r' Hr Hnew. apply Hf; [congruence|exact Hnew]. }
    intros w2 Hag.
    destruct (get_request_agree Request_init ual t r w w2 Hslot Hag)
      as (H1 & H2 & _).
    auto.
  - intros es Hlen wn.
    rewrite (polls_slots Request_init ual t es w Hlt), Hlen.
    split; [reflexivity|].
    split; [apply rotation_Permutation, Hlt|].
    assert (Hrot := polled_rotation ual t es w Hwf Hlt ltac:(fold n; lia)).
    rewrite Hlen in Hrot. fold n wn in Hrot.
    split; [exact Hrot|].
    assert (Hperm : polled ual t es w ≡ₚ _socklist (server wn)).
    { apply fmap_Some_Permutation. rewrite Hrot.
      transitivity ((fun i => _socklist (server wn) !! i)
                      <$> ((fun k => (_socknum (server w) + k) mod n)%nat
                             <$> seq 0 n)).
      { rewrite <- list_fmap_compose. reflexivity. }
      rewrite (rotation_Permutation _ n Hlt).
      replace n with (length (_socklist (server wn)))
        by (apply polls_length, Hlt).
      rewrite lookups_seq. reflexivity. }
    split; [exact Hperm|].
    rewrite Hperm. apply (polls_wf ual t es w Hwf).
Qed.

End RoundRobin.


Section RoundRobinRuns.
Import Tcp.

Lemma get_request_round_robin_witness :
  let w := run_received frame_read in
  let n := length (_socklist (server w)) in
  let w' := fst (get_request run_Request_init (Some [255]) 0 w) in
  (exists r,
      _socklist (server w) !! _socknum (server w) = Some (Some r)
      /\ _socklist (server w') !! _socknum (server w)
         = Some (_current_sock (server w'))
      /\ (_current_sock (server w') = Some r
          \/ _current_sock (server w') = Some (next_sock w))
      /\ (link_status w = true -> status_raises (sockets w r) = false ->
          _connected (sockets w r) = true ->
          sock_timeout (sockets w' r) = Some 0
          /\ rx (sockets w' r) = rx (fst (sock_recv 260 (sockets w r))))
      /\ (forall req tid len q,
            receives w r req -> frame_header req = Some (tid, 0, len) ->
            unit_accepted (Some [255]) (frame_uid_and_pdu req len) ->
            run_Request_init (frame_uid_and_pdu req len) = DecodedRequest q ->
            snd (get_request run_Request_init (Some [255]) 0 w)
            = Ret (Some q))
      /\ (link_status w = false ->
          (5 <=? monotonic w - _link_timestamp (server w))%float = true ->
          _socket_closed (sockets w' r) = true)
      /\ (link_status w = true -> _socket_closed (sockets w r) = true ->
          _connected (sockets w r) = false ->
          _socklist (server w') !! _socknum (server w)
          = Some (Some (next_sock w)))
      /\ _socknum (server w') = (S (_socknum (server w)) mod n)%nat
      /\ length (_socklist (server w')) = n
      /\ (forall r', r' <> r -> r' <> next_sock w ->
            sockets w' r' = sockets w r')
      /\ (forall w2, agree_on r w w2 ->
            snd (get_request run_Request_init (Some [255]) 0 w)
            = snd (get_request run_Request_init (Some [255]) 0 w2)
            /\ server w'
               = server (fst (get_request run_Request_init (Some [255]) 0
                                w2))))
  /\ forall es, length es = n ->
       let wn := fst (polls run_Request_init (Some [255]) 0 es w) in
       snd (polls run_Request_init (Some [255]) 0 es w)
       = (fun k => (_socknum (server w) + k) mod n)%nat <$> seq 0 n
       /\ snd (polls run_Request_init (Some [255]) 0 es w) ≡ₚ seq 0 n
       /\ Some <$> polled run_Request_init (Some [255]) 0 es w
          = (fun k => _socklist (server wn)
                        !! ((_socknum (server w) + k) mod n)%nat)
              <$> seq 0 n
       /\ polled run_Request_init (Some [255]) 0 es w
          ≡ₚ _socklist (server wn)
       /\ NoDup (polled run_Request_init (Some [255]) 0 es w).
Proof.
  apply (get_request_round_robin run_Request_init (Some [255]) 0
           (run_received frame_read)).
  - unfold run_received, run_bound.
    apply reach_env, reach_bind, reach_init.
  - vm_compute. discriminate.
Defined.

(** Two polls of a pool of two, the first socket with a frame
    waiting and the second not yet connected: the first call returns
    the request read from socket 0, the second works on socket 1. *)
Example run_round_robin_two_polls :
  snd (get_request run_Request_init (Some [255]) 0
         (run_received frame_read))
  = Ret (Some (drop 6 frame_read))
  /\ polled run_Request_init (Some [255]) 0
       [link_up_at 1; link_up_at 2] (run_received frame_read)
     = [Some 0%nat; Some 1%nat]
  /\ snd (polls run_Request_init (Some [255]) 0
            [link_up_at 1; link_up_at 2] (run_received frame_read))
     = [0%nat; 1%nat].
Proof. repeat split; vm_compute; reflexivity. Qed.

End RoundRobinRuns.


(** ** umodbus/tcp.py: the guard against unbound use *)

Section NotBound.
Import Tcp.

Context {Request : Type}.
Variable Request_init : list byte -> @Decoded Request.

Local Abbreviation get_request := (get_request Request_init).
Local Abbreviation reachable := (reachable Request_init).

Lemma bind_slots (ip : option string) (port maxc : Z) (w : World) :
  slots_hold_sockets (Tcp.bind ip port maxc w).
Proof.
  intros i cur Hi.
  destruct (Z.ltb_spec maxc 1) as [Hsmall|Hbig].
  - rewrite (bind_small ip port maxc w Hsmall) in Hi.
    rewrite lookup_nil in Hi. discriminate.
  - destruct (bind_pool ip port maxc w Hbig) as [Hpool _].
    rewrite Hpool, list_lookup_fmap in Hi.
    destruct (seq (next_sock w) (Z.to_nat maxc) !! i) as [x|];
      [|discriminate].
    injection Hi as <-. eauto.
Qed.

Lemma get_request_slots (ual : option (list Z)) (t : Z) (w : World) :
  slots_hold_sockets w -> slots_hold_sockets (fst (get_request ual t w)).
Proof.
  intros Hs.
  destruct (_socklist (server w) !! _socknum (server w)) as [cur|] eqn:Hslot.
  - destruct (get_request_pool Request_init ual t w cur Hslot)
      as [[Hsame _]|[Hins _]]; intros i c Hi.
    + rewrite Hsame in Hi. exact (Hs i c Hi).
    + rewrite Hins in Hi. apply list_lookup_insert_Some in Hi.
      destruct Hi as [(_ & <- & _)|[_ Hi]]; [eauto|exact (Hs i c Hi)].
  - rewrite (get_request_empty Request_init ual t w Hslot). exact Hs.
Qed.

(** X16: no slot of the socket list ever holds [None]: that is so
    after [__init__] and is kept by [bind], [get_request], the send
    methods and the surroundings.  In every state where it is so, a
    call of [get_request] does not reach the statement [raise
    Exception('Modbus TCP server not bound')]: with an empty list the
    indexing raises [IndexError] before it, otherwise the socket taken
    from the slot is not [None]. *)
Theorem get_request_never_not_bound (ual : option (list Z)) (t : Z)
    (w : World) :
  (forall socks n l m, slots_hold_sockets (mkWorld TCPServer_init socks n l m))
  /\ (forall ip port maxc, slots_hold_sockets (Tcp.bind ip port maxc w))
  /\ (slots_hold_sockets w ->
      slots_hold_sockets (fst (get_request ual t w))
      /\ (forall pdu sa, slots_hold_sockets (fst (_send pdu sa w)))
      /\ (forall e, slots_hold_sockets (apply_env e w)))
  /\ (reachable w -> slots_hold_sockets w)
  /\ (slots_hold_sockets w ->
      (forall uap, Request_init uap <> DecodeRaises NotBoundError) ->
      snd (get_request ual t w) <> Raise NotBoundError
      /\ (_socklist (server w) = [] ->
          snd (get_request ual t w) = Raise IndexError)).
Proof.
  split.
  { intros socks n l m i cur Hi. cbn in Hi. rewrite lookup_nil in Hi.
    discriminate. }
  split; [intros ip port maxc; apply bind_slots|].
  split.
  { intros Hs. split; [apply get_request_slots, Hs|]. split.
    - intros pdu sa i cur Hi.
      destruct (_send_effect pdu sa w) as (Hsrv & _).
      rewrite Hsrv in Hi. exact (Hs i cur Hi).
    - intros e. exact Hs. }
  split.
  { intros Hreach i cur Hi.
    destruct (reachable_wf Request_init w Hreach) as [_ Hal].
    destruct (Hal i cur Hi) as (r & -> & _). eauto. }
  intros Hs Hdec. split.
  - destruct (_socklist (server w) !! _socknum (server w)) as [cur|] eqn:Hslot.
    + destruct (Hs _ _ Hslot) as [r ->].
      destruct (get_request_outcomes Request_init ual t w r Hslot)
        as [[_ He]|(req & req0 & tid & len & fc & ec & _ & _ & _ & _ & Hnone
                    & _)].
      * intros Hres. destruct (He _ Hres) as [[Habs _]|[uap Hu]];
          [discriminate|exact (Hdec uap Hu)].
      * rewrite Hnone. discriminate.
    + rewrite (get_request_empty Request_init ual t w Hslot). discriminate.
  - intros Hnil.
    rewrite (get_request_empty Request_init ual t w); [reflexivity|].
    rewrite Hnil. apply lookup_nil.
Qed.

End NotBound.

(** ** umodbus/tcp.py: the client's frame at the server *)

Section ClientFrame.
Import Tcp TcpClient.

Context {Request : Type}.
Variable Request_init : list byte -> @Decoded Request.

Local Abbreviation get_request := (get_request Request_init).

Lemma frame_header_take (n : nat) (req : list byte) :
  (6 <= n)%nat -> frame_header (take n req) = frame_header req.
Proof.
  intros Hn. unfold frame_header.
  change (MBAP_HDR_LENGTH - 1)%nat with 6%nat.
  rewrite take_take. replace (6 `min` n)%nat with 6%nat by lia. reflexivity.
Qed.

(** What [recv(260)] leaves of the unit id and PDU of a frame. *)
Lemma frame_uid_and_pdu_take (tid sa : Z) (pdu : list byte) :
  frame_uid_and_pdu (take 260 (adu_of tid sa pdu))
                    (Z.of_nat (length pdu) + 1)
  = pack_B sa :: take 253 pdu.
Proof.
  rewrite adu_of_bytes. unfold frame_uid_and_pdu.
  change (MBAP_HDR_LENGTH - 1)%nat with 6%nat.
  change 260%nat with (6 + 254)%nat.
  cbn [take firstn Nat.add drop skipn].
  replace (Z.to_nat (Z.of_nat (length pdu) + 1)) with (S (length pdu)) by lia.
  change 254%nat with (S 253).
  cbn [take firstn]. f_equal.
  rewrite take_take. replace (length pdu `min` 253)%nat
    with (253 `min` length pdu)%nat by lia.
  rewrite <- take_take. f_equal. apply take_ge. lia.
Qed.

Lemma unit_accepted_head (ual : option (list Z)) (b : byte)
    (x y : list byte) :
  unit_accepted ual (b :: x) -> unit_accepted ual (b :: y).
Proof. destruct ual; exact (fun H => H). Qed.

(** X18: the frame the client builds with [_create_mbap_hdr], once
    it is waiting on the inspected socket, is read by [get_request]
    as the client meant it as long as the PDU has at most 253 bytes:
    the header unpacks to the client's transaction id, protocol id 0
    and the length; unit id and PDU go to the [Request] constructor
    and the request it makes is returned.  [recv(260)] cuts a longer
    frame: the constructor then gets the unit id and the first 253
    bytes of the PDU only, and the rest of the frame stays to be
    received by a later call. *)
Theorem client_frame_reaches_decoder (slave_addr : Z) (modbus_pdu : list byte)
    (self : TCP) (ual : option (list Z)) (t : Z) (w : World) (r : SockRef)
    (queue : list RecvResult) :
  let trans_id := trans_id_ctr self in
  let frame := fst (snd (_create_mbap_hdr slave_addr modbus_pdu self))
               ++ modbus_pdu in
  let w' := fst (get_request ual t w) in
  fits_H trans_id -> fits_B slave_addr ->
  fits_H (Z.of_nat (length modbus_pdu) + 1) ->
  _socklist (server w) !! _socknum (server w) = Some (Some r) ->
  link_status w = true ->
  status_raises (sockets w r) = false ->
  _connected (sockets w r) = true ->
  rx (sockets w r) = RecvData frame :: queue ->
  unit_accepted ual (pack_B slave_addr :: modbus_pdu) ->
  snd (snd (_create_mbap_hdr slave_addr modbus_pdu self)) = trans_id
  /\ trans_id_ctr (fst (_create_mbap_hdr slave_addr modbus_pdu self))
     = trans_id + 1
  /\ frame_header frame
     = Some (trans_id, 0, Z.of_nat (length modbus_pdu) + 1)
  /\ byte_to_Z (pack_B slave_addr) = slave_addr
  /\ _req_tid (server w') = Some trans_id
  /\ _current_sock (server w') = Some r
  /\ ((length modbus_pdu <= 253)%nat ->
      rx (sockets w' r) = queue
      /\ forall q,
           Request_init (pack_B slave_addr :: modbus_pdu)
             = DecodedRequest q ->
           snd (get_request ual t w) = Ret (Some q))
  /\ ((253 < length modbus_pdu)%nat ->
      rx (sockets w' r) = RecvData (drop 260 frame) :: queue
      /\ forall q,
           Request_init (pack_B slave_addr :: take 253 modbus_pdu)
             = DecodedRequest q ->
           snd (get_request ual t w) = Ret (Some q)).
Proof.
  cbv zeta. intros Ht Hs Hl Hslot Hlink Hraise Hconn Hrx Hunit.
  rewrite _create_mbap_hdr_frame in *.
  set (tid := trans_id_ctr self) in *.
  set (frame := adu_of tid slave_addr modbus_pdu) in *.
  pose proof (frame_header_adu_of tid slave_addr modbus_pdu Ht Hl) as Hhdr.
  fold frame in Hhdr.
  assert (Hrecv : receives w r (take 260 frame)).
  { repeat split; try assumption.
    unfold sock_recv. rewrite Hrx. reflexivity. }
  assert (Hhdr' : frame_header (take 260 frame)
                  = Some (tid, 0, Z.of_nat (length modbus_pdu) + 1))
    by (rewrite frame_header_take by lia; exact Hhdr).
  pose proof (get_request_receives Request_init ual t w r _ _ _ _
                Hrecv Hhdr') as Hget.
  unfold frame in Hget at 2. rewrite frame_uid_and_pdu_take in Hget.
  rewrite (get_request_parse_accepted Request_init ual _ _ _
             (unit_accepted_head ual _ _ _ Hunit)) in Hget.
  assert (Hlenf : length frame = (7 + length modbus_pdu)%nat)
    by (unfold frame; rewrite adu_of_bytes; cbn [length]; lia).
  destruct (get_request_reads_slot Request_init ual t w r Hslot Hlink Hraise
              Hconn) as [_ Hrx'].
  assert (Hq : forall uap q,
            uap = pack_B slave_addr :: take 253 modbus_pdu ->
            Request_init uap = DecodedRequest q ->
            snd (get_request ual t w) = Ret (Some q)).
  { intros uap q -> Hdec. rewrite Hget.
    unfold get_request_decode. rewrite Hdec. reflexivity. }
  split; [reflexivity|]. split; [reflexivity|]. split; [exact Hhdr|].
  split.
  { rewrite byte_to_Z_pack_B. apply Z.mod_small. unfold fits_B in Hs. lia. }
  assert (Hsrv : server (fst (get_request ual t w))
                 = server (received_step t r tid w)).
  { rewrite Hget.
    destruct (get_request_decode_effect Request_init (take 260 frame)
                (pack_B slave_addr :: take 253 modbus_pdu)
                (received_step t r tid w)) as (Hsrv & _).
    exact Hsrv. }
  split; [rewrite Hsrv; reflexivity|].
  split; [rewrite Hsrv; reflexivity|].
  split.
  - intros Hshort. split.
    + rewrite Hrx'. unfold sock_recv. rewrite Hrx.
      rewrite drop_ge by lia. reflexivity.
    + intros q Hdec.
      apply (Hq (pack_B slave_addr :: modbus_pdu) q); [|exact Hdec].
      rewrite take_ge by lia. reflexivity.
  - intros Hlong. split.
    + rewrite Hrx'. unfold sock_recv. rewrite Hrx.
      destruct (drop 260 frame) as [|b rest] eqn:Hd; [|reflexivity].
      apply (f_equal length) in Hd. rewrite length_drop in Hd.
      cbn [length] in Hd. lia.
    + intros q Hdec.
      apply (Hq (pack_B slave_addr :: take 253 modbus_pdu) q);
        [reflexivity|exact Hdec].
Qed.

End ClientFrame.

Section ClientFrameRuns.
Import Tcp TcpClient.

Lemma client_frame_reaches_decoder_witness :
  let self := run_client [] in
  let trans_id := trans_id_ctr self in
  let frame := fst (snd (_create_mbap_hdr 255 pdu_read self)) ++ pdu_read in
  let w := run_received frame_read in
  let w' := fst (get_request run_Request_init (Some [255]) 0 w) in
  snd (snd (_create_mbap_hdr 255 pdu_read self)) = trans_id
  /\ trans_id_ctr (fst (_create_mbap_hdr 255 pdu_read self)) = trans_id + 1
  /\ frame_header frame = Some (trans_id, 0, Z.of_nat (length pdu_read) + 1)
  /\ byte_to_Z (pack_B 255) = 255
  /\ _req_tid (server w') = Some trans_id
  /\ _current_sock (server w') = Some 0%nat
  /\ ((length pdu_read <= 253)%nat ->
      rx (sockets w' 0%nat) = []
      /\ forall q,
           run_Request_init (pack_B 255 :: pdu_read) = DecodedRequest q ->
           snd (get_request run_Request_init (Some [255]) 0 w)
           = Ret (Some q))
  /\ ((253 < length pdu_read)%nat ->
      rx (sockets w' 0%nat) = [RecvData (drop 260 frame)]
      /\ forall q,
           run_Request_init (pack_B 255 :: take 253 pdu_read)
             = DecodedRequest q ->
           snd (get_request run_Request_init (Some [255]) 0 w)
           = Ret (Some q)).
Proof.
  apply (client_frame_reaches_decoder run_Request_init 255 pdu_read
           (run_client []) (Some [255]) 0 (run_received frame_read) 0%nat []).
  - unfold fits_H. vm_compute. split; [discriminate|reflexivity].
  - unfold fits_B. lia.
  - unfold fits_H. vm_compute. split; [discriminate|reflexivity].
  - vm_compute. reflexivity.
  - vm_compute. reflexivity.
  - vm_compute. reflexivity.
  - vm_compute. reflexivity.
  - vm_compute. reflexivity.
  - vm_compute. reflexivity.
Defined.

(** A PDU of 300 bytes: the server's [recv(260)] takes 260 bytes of
    the 307 of the frame, the decoder is handed the unit id and 253
    bytes of the PDU, and 47 bytes stay behind. *)
Example run_long_frame_cut :
  let pdu := repeat x04 300 in
  let frame := adu_of 7 255 pdu in
  length frame = 307%nat
  /\ frame_uid_and_pdu (take 260 frame) (Z.of_nat (length pdu) + 1)
     = xff :: repeat x04 253
  /\ length (drop 260 frame) = 47%nat.
Proof. repeat split; vm_compute; reflexivity. Qed.

End ClientFrameRuns.


Section NotBoundRuns.
Import Tcp.

(** A server bound with two connections has a socket in both slots;
    one bound with none raises [IndexError], not the guard's
    exception. *)
Example run_never_not_bound :
  slots_hold_sockets (run_bound 2)
  /\ snd (get_request run_Request_init None 0 (run_bound 0))
     = Raise IndexError.
Proof.
  split; [apply bind_slots|vm_compute; reflexivity].
Qed.

End NotBoundRuns.
